(** * DER-VET: the CHP technology model and the microgrid POI aggregator

    A shallow embedding of [dervet/MicrogridDER/CombinedHeatPower.py] and
    [dervet/MicrogridPOI.py].

    Conventions of the embedding:
    - numbers (kW, kWh, BTU/hr, ratios) are exact rationals [Q]; the
      rounding of the floats of the source and NaN are not modelled, and an
      equality test of the source ([==] of numpy) is [Qeq];
    - a time series (numpy array, pandas Series, one column of a DataFrame)
      is a [list Q], one entry per time step;
    - a cvxpy expression is a term of [Cvx.expr] and a cvxpy constraint a
      term of [Cvx.constraint]; a solution is an assignment of a series to
      every variable name;
    - a Python exception is a [Raise] in the [result] monad; messages sent
      to [TellUser] and calls whose order matters are [event]s of a log. *)

From Stdlib Require Import QArith Qabs Lqa.
From stdpp Require Import base option list strings gmap.

Open Scope string_scope.
Open Scope list_scope.

(** ** Python exceptions *)

Inductive exn : Type :=
| AttributeError
| KeyError
| IndexError
| ParameterError (msg : string).

Inductive result (A : Type) : Type :=
| Ok (a : A)
| Raise (e : exn).
Arguments Ok {A} a.
Arguments Raise {A} e.

Definition rbind {A B} (r : result A) (k : A -> result B) : result B :=
  match r with
  | Ok a => k a
  | Raise e => Raise e
  end.

Notation "'let*' x ':=' r 'in' k" := (rbind r (fun x => k))
  (at level 10, x name, r at level 100, k at level 200).
Notation "'let*' ' p ':=' r 'in' k" :=
  (rbind r (fun x => match x with p => k end))
  (at level 10, p pattern, r at level 100, k at level 200).

(** A [for] loop that may raise, threading the variables it assigns. *)
Fixpoint forR {A S} (l : list A) (body : S -> A -> result S) (s : S) : result S :=
  match l with
  | [] => Ok s
  | x :: l' => let* s' := body s x in forR l' body s'
  end.

(** [o] or the exception [e] when the looked-up thing is absent. *)
Definition or_raise {A} (e : exn) (o : option A) : result A :=
  match o with
  | Some a => Ok a
  | None => Raise e
  end.

(** ** cvxpy expressions and constraints *)

Module Cvx.

Definition series := list Q.

(** The expressions the two source files build. [Const] is a Python or
    numpy scalar, [Series] a constant array, [Param] a [cvx.Parameter],
    [Var] a [cvx.Variable] with its [nonneg] attribute. *)
Inductive expr : Type :=
| Const (c : Q)
| Series (xs : series)
| Param (name : string) (xs : series)
| Var (name : string) (nonneg : bool)
| Neg (e : expr)
| Add (e1 e2 : expr)
| Sub (e1 e2 : expr)
| Mul (e1 e2 : expr).

(** [cvx.NonPos(e)] asks [e <= 0] and [cvx.Zero(e)] asks [e == 0], at
    every entry. *)
Inductive constraint : Type :=
| NonPos (e : expr)
| Zero (e : expr).

(** [Expression.variables()]: the variables an expression depends on. *)
Fixpoint variables (e : expr) : list string :=
  match e with
  | Const _ | Series _ | Param _ _ => []
  | Var x _ => [x]
  | Neg e => variables e
  | Add e1 e2 | Sub e1 e2 | Mul e1 e2 =>
      remove_dups (variables e1 ++ variables e2)
  end.

(** Truth value of a Python list. *)
Definition truthy {A} (l : list A) : bool :=
  match l with
  | [] => false
  | _ :: _ => true
  end.

(** A candidate solution gives every variable a value at every step. *)
Definition assignment := string -> nat -> Q.

(** Value of an expression at time step [t]; scalars broadcast. *)
Fixpoint eval (a : assignment) (e : expr) (t : nat) : Q :=
  match e with
  | Const c => c
  | Series xs | Param _ xs => nth t xs 0%Q
  | Var x _ => a x t
  | Neg e => (- eval a e t)%Q
  | Add e1 e2 => (eval a e1 t + eval a e2 t)%Q
  | Sub e1 e2 => (eval a e1 t - eval a e2 t)%Q
  | Mul e1 e2 => (eval a e1 t * eval a e2 t)%Q
  end.

(** [sat a n c]: the assignment meets the constraint on a window of [n]
    time steps. *)
Definition sat (a : assignment) (n : nat) (c : constraint) : Prop :=
  match c with
  | NonPos e => forall t, (t < n)%nat -> (eval a e t <= 0)%Q
  | Zero e => forall t, (t < n)%nat -> (eval a e t == 0)%Q
  end.

(** The same check as a program. *)
Definition satb (a : assignment) (n : nat) (c : constraint) : bool :=
  match c with
  | NonPos e => forallb (fun t => Qle_bool (eval a e t) 0) (seq 0 n)
  | Zero e => forallb (fun t => Qeq_bool (eval a e t) 0) (seq 0 n)
  end.

Definition sat_all (a : assignment) (n : nat) (cs : list constraint) : Prop :=
  Forall (sat a n) cs.

Definition sat_allb (a : assignment) (n : nat) (cs : list constraint) : bool :=
  forallb (satb a n) cs.

End Cvx.

Import Cvx.

(** A boolean mask over the full time series; the window is its true rows. *)
Definition Mask := list bool.

(** ** CombinedHeatPower.py *)

Module CHP.

(** The attributes of a [CHP] object that the class itself assigns or
    reads. *)
Record t : Type := mk {
  name : string;
  tag : string;
  is_hot : bool;
  electric_ramp_rate : Q;
  electric_heat_ratio : Q;
  max_steam_ratio : Q;
  site_steam_load : option series;
  site_hotwater_load : option series;
  variables_dict : gmap string expr
}.

Section WithBase.

(** The methods of the base class [CT] (CombustionTurbine.py) that
    [CHP] extends through [super()]. *)
Variable CT_initialize_variables : t -> nat -> gmap string expr.
Variable CT_constraints : t -> Mask -> list constraint.

Definition set_variables_dict (self : t) (d : gmap string expr) : t :=
  mk (name self) (tag self) (is_hot self) (electric_ramp_rate self)
     (electric_heat_ratio self) (max_steam_ratio self)
     (site_steam_load self) (site_hotwater_load self) d.

(** [initialize_variables]: the base class's variables, then
    [variables_dict.update] with the two heat variables. *)
Definition initialize_variables (self : t) (size : nat) : t :=
  let d := CT_initialize_variables self size in
  let d := <["steam" := Var (name self +:+ "-steamP") true]> d in
  let d := <["hotwater" := Var (name self +:+ "-hotwaterP") true]> d in
  set_variables_dict self d.

(** [constraints]: a missing key of [variables_dict] is a [KeyError]. *)
Definition constraints (self : t) (mask : Mask) : result (list constraint) :=
  let constraint_list := CT_constraints self mask in
  let* elec := or_raise KeyError (variables_dict self !! "elec") in
  let* steam := or_raise KeyError (variables_dict self !! "steam") in
  let* hotwater := or_raise KeyError (variables_dict self !! "hotwater") in
  let constraint_list :=
    constraint_list ++
      [NonPos (Sub steam (Mul (Const (max_steam_ratio self)) hotwater))] in
  let constraint_list :=
    constraint_list ++
      [Zero (Sub (Mul (Add steam hotwater) (Const (electric_heat_ratio self)))
                 elec)] in
  Ok constraint_list.

Definition get_steam_recovered (self : t) (mask : Mask) : result expr :=
  or_raise KeyError (variables_dict self !! "steam").

Definition get_hotwater_recovered (self : t) (mask : Mask) : result expr :=
  or_raise KeyError (variables_dict self !! "hotwater").

End WithBase.

End CHP.

(** ** Effects of the POI methods: a log and exceptions *)

(** What a method leaves behind besides its result: the [TellUser]
    messages, and the calls of [sizing_error], which report to the error
    log themselves. *)
Inductive event : Type :=
| Call_sizing_error (der : string)
| TellUser_warning (msg : string)
| TellUser_debug (msg : string).

(** A computation that logs and may raise: the events up to the point
    where it returned or raised. *)
Definition M (A : Type) : Type := (list event * result A)%type.

Definition ret {A} (a : A) : M A := ([], Ok a).
Definition tell (ev : event) : M unit := ([ev], Ok tt).
Definition raise {A} (e : exn) : M A := ([], Raise e).

Definition mbind {A B} (m : M A) (k : A -> M B) : M B :=
  match m with
  | (l1, Ok a) => let (l2, r) := k a in (l1 ++ l2, r)
  | (l1, Raise e) => (l1, Raise e)
  end.

Notation "'let+' x ':=' m 'in' k" := (mbind m (fun x => k))
  (at level 10, x name, m at level 100, k at level 200).

(** A list comprehension whose element expression has effects. *)
Fixpoint mapM {A B} (f : A -> M B) (l : list A) : M (list B) :=
  match l with
  | [] => ret []
  | x :: l' =>
      let+ y := f x in
      let+ ys := mapM f l' in
      ret (y :: ys)
  end.

(** A [for] loop threading the variables it assigns. *)
Fixpoint forM {A S} (l : list A) (body : S -> A -> M S) (s : S) : M S :=
  match l with
  | [] => ret s
  | x :: l' => let+ s' := body s x in forM l' body s'
  end.

(** ** pandas tables *)

Module Pandas.

(** A DataFrame: its columns in order, each a label and a series. All
    the tables merged here are indexed by the same time steps. *)
Definition table := list (string * series).

Definition labels (df : table) : list string := df.*1.

Definition has_col (c : string) (df : table) : bool :=
  existsb (fun p => String.eqb p.1 c) df.

(** [df[c]] and [df.loc[:, c]]. *)
Fixpoint getitem (c : string) (df : table) : result series :=
  match df with
  | [] => Raise KeyError
  | (c', xs) :: df' => if String.eqb c' c then Ok xs else getitem c df'
  end.

(** [df.loc[:, c] = xs]: overwrites the column, or appends a new one. *)
Definition setitem (c : string) (xs : series) (df : table) : table :=
  if has_col c df
  then map (fun p => if String.eqb p.1 c then (c, xs) else p) df
  else df ++ [(c, xs)].

(** [df.drop(c, axis=1)]. *)
Definition drop (c : string) (df : table) : table :=
  List.filter (fun p => negb (String.eqb p.1 c)) df.

(** [pd.concat([df1, df2], axis=1)]. *)
Definition concat (df1 df2 : table) : table := df1 ++ df2.

(** A scalar broadcast over [n] rows. *)
Definition broadcast (n : nat) (c : Q) : series := replicate n c.

Definition add (xs ys : series) : series := zip_with Qplus xs ys.
Definition sub (xs ys : series) : series := zip_with Qminus xs ys.

(** [np.all(xs == ys)]. *)
Definition all_eq (xs ys : series) : bool :=
  forallb (fun p => Qeq_bool p.1 p.2) (zip xs ys).

(** [df.loc[:, c] += df[c']]. *)
Definition iadd (c c' : string) (df : table) : result table :=
  let* xs := getitem c df in
  let* ys := getitem c' df in
  Ok (setitem c (add xs ys) df).

End Pandas.

Import Pandas.

(** ** A technology (DER) as the POI sees it *)

Module DER.

(** The attributes and methods of a DER object that MicrogridPOI.py
    uses. A method without effects is the value it returns. An attribute
    that the POI probes under [try ... except AttributeError] is an
    [option]: [None] when the object does not have it. The two reports
    are the tables of calls that have returned; the calls themselves,
    which may raise, are those of [MergeReports]. *)
Record t : Type := mk {
  tag : string;
  technology_type : string;
  unique_tech_id : string;
  being_sized : option bool;
  sizing_error : bool;
  max_power_defined : bool;
  is_power_sizing : bool;
  operational : Z -> bool;
  is_hot : bool;
  is_cold : bool;
  site_steam_load : option (option series);
  site_hotwater_load : option (option series);
  site_cooling_load : option (option series);
  get_charge : Mask -> expr;
  get_steam_recovered : Mask -> expr;
  get_hotwater_recovered : Mask -> expr;
  get_cold_recovered : Mask -> expr;
  size_constraints : list constraint;
  ch_max_rated : expr;
  dis_max_rated : expr;
  ene_max_rated : expr;
  timeseries_report : table;
  monthly_report : table
}.

Definition set_size_constraints (d : t) (cs : list constraint) : t :=
  mk (tag d) (technology_type d) (unique_tech_id d) (being_sized d)
     (sizing_error d) (max_power_defined d) (is_power_sizing d)
     (operational d) (is_hot d) (is_cold d) (site_steam_load d)
     (site_hotwater_load d) (site_cooling_load d) (get_charge d)
     (get_steam_recovered d) (get_hotwater_recovered d)
     (get_cold_recovered d) cs (ch_max_rated d) (dis_max_rated d)
     (ene_max_rated d) (timeseries_report d) (monthly_report d).

Definition set_ch_max_rated (d : t) (e : expr) : t :=
  mk (tag d) (technology_type d) (unique_tech_id d) (being_sized d)
     (sizing_error d) (max_power_defined d) (is_power_sizing d)
     (operational d) (is_hot d) (is_cold d) (site_steam_load d)
     (site_hotwater_load d) (site_cooling_load d) (get_charge d)
     (get_steam_recovered d) (get_hotwater_recovered d)
     (get_cold_recovered d) (size_constraints d) e (dis_max_rated d)
     (ene_max_rated d) (timeseries_report d) (monthly_report d).

Definition set_dis_max_rated (d : t) (e : expr) : t :=
  mk (tag d) (technology_type d) (unique_tech_id d) (being_sized d)
     (sizing_error d) (max_power_defined d) (is_power_sizing d)
     (operational d) (is_hot d) (is_cold d) (site_steam_load d)
     (site_hotwater_load d) (site_cooling_load d) (get_charge d)
     (get_steam_recovered d) (get_hotwater_recovered d)
     (get_cold_recovered d) (size_constraints d) (ch_max_rated d) e
     (ene_max_rated d) (timeseries_report d) (monthly_report d).

Definition set_ene_max_rated (d : t) (e : expr) : t :=
  mk (tag d) (technology_type d) (unique_tech_id d) (being_sized d)
     (sizing_error d) (max_power_defined d) (is_power_sizing d)
     (operational d) (is_hot d) (is_cold d) (site_steam_load d)
     (site_hotwater_load d) (site_cooling_load d) (get_charge d)
     (get_steam_recovered d) (get_hotwater_recovered d)
     (get_cold_recovered d) (size_constraints d) (ch_max_rated d)
     (dis_max_rated d) e (timeseries_report d) (monthly_report d).

(** [try: x = der.attr / except AttributeError: x = None]. *)
Definition attr_or_None {A} (a : option (option A)) : option A :=
  match a with
  | Some v => v
  | None => None
  end.

End DER.

(** ** Value streams *)

(** The objects of the [value_streams] dict. Only a Deferral has
    [min_years] and [deferral_df]; the table is indexed by year and has
    one requirement per column label. *)
Inductive value_stream : Type :=
| DeferralVS (min_years : Z) (deferral_df : gmap Z (gmap string Q))
| OtherVS.

Definition min_years (vs : value_stream) : result Z :=
  match vs with
  | DeferralVS m _ => Ok m
  | OtherVS => Raise AttributeError
  end.

Definition deferral_df (vs : value_stream) : result (gmap Z (gmap string Q)) :=
  match vs with
  | DeferralVS _ df => Ok df
  | OtherVS => Raise AttributeError
  end.

(** ** MicrogridPOI.py *)

Module MicrogridPOI.

(** The attributes of the POI that this class assigns or reads.
    [active_ders] holds objects of [der_list] (the base class starts it
    as [der_list] itself, [grab_active_ders] filters [der_list]), so it
    is kept as positions in [der_list]: a change made to a DER through
    [der_list] is seen through [active_ders] too. *)
Record t : Type := mk {
  der_list : list DER.t;
  active_ders : list nat;
  is_sizing_optimization : bool;
  site_steam_load : option series;
  site_hotwater_load : option series;
  site_cooling_load : option series
}.

(** The objects [for der in self.active_ders] goes through. *)
Definition active (self : t) : list DER.t :=
  omap (fun i => der_list self !! i) (active_ders self).

Definition set_der_list (self : t) (l : list DER.t) : t :=
  mk l (active_ders self) (is_sizing_optimization self)
     (site_steam_load self) (site_hotwater_load self) (site_cooling_load self).

Definition set_active_ders (self : t) (l : list nat) : t :=
  mk (der_list self) l (is_sizing_optimization self)
     (site_steam_load self) (site_hotwater_load self) (site_cooling_load self).

Definition set_is_sizing_optimization (self : t) (b : bool) : t :=
  mk (der_list self) (active_ders self) b
     (site_steam_load self) (site_hotwater_load self) (site_cooling_load self).

Definition set_site_steam_load (self : t) (x : option series) : t :=
  mk (der_list self) (active_ders self) (is_sizing_optimization self)
     x (site_hotwater_load self) (site_cooling_load self).

Definition set_site_hotwater_load (self : t) (x : option series) : t :=
  mk (der_list self) (active_ders self) (is_sizing_optimization self)
     (site_steam_load self) x (site_cooling_load self).

Definition set_site_cooling_load (self : t) (x : option series) : t :=
  mk (der_list self) (active_ders self) (is_sizing_optimization self)
     (site_steam_load self) (site_hotwater_load self) x.

(** [check_if_sizing_ders]: returns at the first DER being sized; a DER
    without a [being_sized] method counts as not sized. *)
Fixpoint check_if_sizing_ders_loop (ders : list DER.t) : bool :=
  match ders with
  | [] => false
  | der_instance :: rest =>
      let solve_for_size :=
        match DER.being_sized der_instance with
        | Some b => b
        | None => false
        end in
      if solve_for_size then true else check_if_sizing_ders_loop rest
  end.

Definition check_if_sizing_ders (self : t) : bool :=
  check_if_sizing_ders_loop (der_list self).

(** [grab_active_ders]: [years] is [indx.year]. *)
Definition grab_active_ders (self : t) (years : list Z) : result t :=
  let* year := or_raise IndexError (years !! 0%nat) in
  let active_ders :=
    List.filter (fun i => match der_list self !! i with
                          | Some der_inst => DER.operational der_inst year
                          | None => false
                          end)
                (seq 0 (length (der_list self))) in
  Ok (set_active_ders self active_ders).

Definition sizing_error_message : string :=
  "Sizing of DERs has an error. Please check error log.".

(** [error_checks_on_sizing]: the comprehension calls [sizing_error] on
    every DER, then one test of the sum decides whether to raise. *)
Definition error_checks_on_sizing (self : t) : M unit :=
  let+ errors_found :=
    mapM (fun der =>
            let+ _ := tell (Call_sizing_error (DER.unique_tech_id der)) in
            ret (if DER.sizing_error der then 1%Z else 0%Z))
         (der_list self) in
  if negb (Z.eqb (foldr Z.add 0%Z errors_found) 0)
  then raise (ParameterError sizing_error_message)
  else ret tt.

Definition is_any_sizable_der_missing_power_max (self : t) : bool :=
  negb (Z.eqb
          (foldr Z.add 0%Z
             (map (fun der_inst =>
                     if negb (DER.max_power_defined der_inst) then 1%Z else 0%Z)
                  (der_list self)))
          0).

(** One turn of the loop of [__init__] over the active DERs. *)
Definition init_thermal_step (self : t) (der : DER.t) : t :=
  let self := set_site_steam_load self
                (DER.attr_or_None (DER.site_steam_load der)) in
  let self := set_site_hotwater_load self
                (DER.attr_or_None (DER.site_hotwater_load der)) in
  let self := set_site_cooling_load self
                (DER.attr_or_None (DER.site_cooling_load der)) in
  self.

(** [__init__], from the object [base] that [super().__init__] of
    storagevet's POI has set up. *)
Definition init (base : t) : M t :=
  let self := base in
  let self := set_is_sizing_optimization self (check_if_sizing_ders self) in
  let+ _ := if is_sizing_optimization self
            then error_checks_on_sizing self
            else ret tt in
  ret (fold_left init_thermal_step (active self) self).

(** [set_size]: the Deferral value stream's requirement on the size of
    [der_list[0]]. *)
Definition set_size (self : t) (value_streams : gmap string value_stream)
    (start_year : Z) : result t :=
  let* deferral := or_raise AttributeError (value_streams !! "Deferral") in
  let* min_year := min_years deferral in
  let last_year_to_defer := (start_year + min_year - 1)%Z in
  let* df := deferral_df deferral in
  let* p_e_req := or_raise KeyError (df !! last_year_to_defer) in
  let* min_power :=
    or_raise KeyError (p_e_req !! "Power Capacity Requirement (kW)") in
  let* min_energy :=
    or_raise KeyError (p_e_req !! "Energy Capacity Requirement (kWh)") in
  let* ess_inst := or_raise IndexError (der_list self !! 0%nat) in
  let ess_inst :=
    if (1 <? size value_streams)%nat then
      let ess_inst :=
        DER.set_size_constraints ess_inst
          (DER.size_constraints ess_inst ++
             [NonPos (Sub (Const min_energy) (DER.ene_max_rated ess_inst))]) in
      let ess_inst :=
        DER.set_size_constraints ess_inst
          (DER.size_constraints ess_inst ++
             [NonPos (Sub (Const min_power) (DER.ch_max_rated ess_inst))]) in
      let ess_inst :=
        DER.set_size_constraints ess_inst
          (DER.size_constraints ess_inst ++
             [NonPos (Sub (Const min_power) (DER.dis_max_rated ess_inst))]) in
      ess_inst
    else
      let ess_inst := DER.set_ch_max_rated ess_inst (Const min_power) in
      let ess_inst := DER.set_dis_max_rated ess_inst (Const min_power) in
      let ess_inst := DER.set_ene_max_rated ess_inst (Const min_energy) in
      ess_inst in
  Ok (set_der_list self (<[0%nat := ess_inst]> (der_list self))).

(** [is_dcp_error]. *)
Definition is_dcp_error (self : t) (is_binary_formulation : bool) : bool :=
  fold_left
    (fun solve_for_size der_instance =>
       if String.eqb (DER.tag der_instance) "Battery"
       then solve_for_size
            || (DER.is_power_sizing der_instance && is_binary_formulation)
       else solve_for_size)
    (der_list self) false.

(** The ten aggregates of [get_state_of_system]. *)
Record state_of_system : Type := mk_state {
  load_sum : expr;
  var_gen_sum : expr;
  gen_sum : expr;
  tot_net_ess : expr;
  total_soe : expr;
  agg_power_flows_in : expr;
  agg_power_flows_out : expr;
  agg_steam_heating_power : expr;
  agg_hotwater_heating_power : expr;
  agg_thermal_cooling_power : expr
}.

Definition set_load_sum (s : state_of_system) (e : expr) : state_of_system :=
  mk_state e (var_gen_sum s) (gen_sum s) (tot_net_ess s) (total_soe s)
    (agg_power_flows_in s) (agg_power_flows_out s)
    (agg_steam_heating_power s) (agg_hotwater_heating_power s)
    (agg_thermal_cooling_power s).

Definition set_agg_steam_heating_power (s : state_of_system) (e : expr)
  : state_of_system :=
  mk_state (load_sum s) (var_gen_sum s) (gen_sum s) (tot_net_ess s)
    (total_soe s) (agg_power_flows_in s) (agg_power_flows_out s)
    e (agg_hotwater_heating_power s) (agg_thermal_cooling_power s).

Definition set_agg_hotwater_heating_power (s : state_of_system) (e : expr)
  : state_of_system :=
  mk_state (load_sum s) (var_gen_sum s) (gen_sum s) (tot_net_ess s)
    (total_soe s) (agg_power_flows_in s) (agg_power_flows_out s)
    (agg_steam_heating_power s) e (agg_thermal_cooling_power s).

Definition set_agg_thermal_cooling_power (s : state_of_system) (e : expr)
  : state_of_system :=
  mk_state (load_sum s) (var_gen_sum s) (gen_sum s) (tot_net_ess s)
    (total_soe s) (agg_power_flows_in s) (agg_power_flows_out s)
    (agg_steam_heating_power s) (agg_hotwater_heating_power s) e.

Definition heat_warning (der_inst : DER.t) : string :=
  "A heat source technology is active " +:+
  "(" +:+ DER.unique_tech_id der_inst +:+ "), but you have set the " +:+
  "scenario parameter incl_thermal_load to False. Any " +:+
  "thermal load will be ignored.".

Definition cold_warning (der_inst : DER.t) : string :=
  "A cold source technology is active " +:+
  "(" +:+ DER.unique_tech_id der_inst +:+ "), but you have set the " +:+
  "scenario parameter incl_thermal_load to False. Any " +:+
  "thermal load will be ignored.".

Definition steam_debug (der_inst : DER.t) : string :=
  "adding heat (steam) recovered from this DER: " +:+
  DER.unique_tech_id der_inst.

Definition hotwater_debug (der_inst : DER.t) : string :=
  "adding heat (hotwater) recovered from this DER: " +:+
  DER.unique_tech_id der_inst.

Definition cold_debug (der_inst : DER.t) : string :=
  "adding cold recovered from this DER: " +:+ DER.unique_tech_id der_inst.

(** The body of the loop of [get_state_of_system] for one active DER. *)
Definition state_step (self : t) (mask : Mask) (s : state_of_system)
    (der_inst : DER.t) : M state_of_system :=
  let s :=
    if String.eqb (DER.technology_type der_inst) "Electric Vehicle"
    then set_load_sum s (Add (load_sum s) (DER.get_charge der_inst mask))
    else s in
  let+ s :=
    if DER.is_hot der_inst then
      match site_steam_load self, site_hotwater_load self with
      | None, None =>
          let+ _ := tell (TellUser_warning (heat_warning der_inst)) in
          ret s
      | _, _ =>
          let+ s :=
            match site_steam_load self with
            | Some _ =>
                let+ _ := tell (TellUser_debug (steam_debug der_inst)) in
                ret (set_agg_steam_heating_power s
                       (Add (agg_steam_heating_power s)
                            (DER.get_steam_recovered der_inst mask)))
            | None => ret s
            end in
          match site_hotwater_load self with
          | Some _ =>
              let+ _ := tell (TellUser_debug (hotwater_debug der_inst)) in
              ret (set_agg_hotwater_heating_power s
                     (Add (agg_hotwater_heating_power s)
                          (DER.get_hotwater_recovered der_inst mask)))
          | None => ret s
          end
      end
    else ret s in
  if DER.is_cold der_inst then
    match site_cooling_load self with
    | None =>
        let+ _ := tell (TellUser_warning (cold_warning der_inst)) in
        ret s
    | Some _ =>
        let+ _ := tell (TellUser_debug (cold_debug der_inst)) in
        ret (set_agg_thermal_cooling_power s
               (Add (agg_thermal_cooling_power s)
                    (DER.get_cold_recovered der_inst mask)))
    end
  else ret s.

(** One thermal balance of [optimization_problem]: the constraint
    [NonPos(-supply + load)]  when the load is set and the supply has
    variables. *)
Definition thermal_balance (what : string) (site_load : option series)
    (supply : expr) (constraint_list : list constraint)
  : M (list constraint) :=
  match site_load with
  | Some load =>
      if truthy (variables supply) then
        let+ _ := tell (TellUser_debug what) in
        ret (constraint_list ++ [NonPos (Add (Neg supply) (Series load))])
      else ret constraint_list
  | None => ret constraint_list
  end.

Section WithBase.

(** The methods of storagevet's [POI] reached through [super()]. *)
Variable POI_get_state_of_system : t -> Mask -> state_of_system.
Variable POI_optimization_problem :
  t -> Mask -> expr -> expr -> expr -> expr -> expr -> Q ->
  gmap string expr * list constraint.

Definition get_state_of_system (self : t) (mask : Mask) : M state_of_system :=
  forM (active self) (state_step self mask)
       (POI_get_state_of_system self mask).

Definition optimization_problem (self : t) (mask : Mask)
    (power_in power_out steam_in hotwater_in cold_in : expr)
    (annuity_scalar : Q) : M (gmap string expr * list constraint) :=
  let '(obj_expression, constraint_list) :=
    POI_optimization_problem self mask power_in power_out steam_in
      hotwater_in cold_in annuity_scalar in
  let+ constraint_list :=
    thermal_balance "adding steam thermal power balance constraint"
      (site_steam_load self) steam_in constraint_list in
  let+ constraint_list :=
    thermal_balance "adding hot water thermal power balance constraint"
      (site_hotwater_load self) hotwater_in constraint_list in
  let+ constraint_list :=
    thermal_balance "adding thermal cooling power balance constraint"
      (site_cooling_load self) cold_in constraint_list in
  ret (obj_expression, constraint_list).

End WithBase.

(** The column labels of [merge_reports]. *)
Definition TOTAL_ORIGINAL_LOAD : string := "Total Original Load (kW)".
Definition TOTAL_LOAD : string := "Total Load (kW)".
Definition TOTAL_GENERATION : string := "Total Generation (kW)".
Definition TOTAL_STORAGE_POWER : string := "Total Storage Power (kW)".
Definition AGG_STATE_OF_ENERGY : string := "Aggregated State of Energy (kWh)".
Definition NET_LOAD : string := "Net Load (kW)".

(** The body of the loop of [merge_reports] for one DER: [acc] is
    [(results, monthly_data)]. A column that a report lacks is a
    [KeyError]. *)
Definition merge_step (is_dispatch_opt : bool) (acc : table * table)
    (der : DER.t) : result (table * table) :=
  let '(results, monthly_data) := acc in
  let id := DER.unique_tech_id der in
  let report_df := DER.timeseries_report der in
  let results := concat report_df results in
  let* results :=
    if is_dispatch_opt then
      let* results :=
        if String.eqb (DER.technology_type der) "Generator"
           || String.eqb (DER.technology_type der) "Intermittent Resource"
        then iadd TOTAL_GENERATION (id +:+ " Electric Generation (kW)") results
        else Ok results in
      let* results :=
        if String.eqb (DER.technology_type der) "Energy Storage System" then
          let* results :=
            iadd TOTAL_STORAGE_POWER (id +:+ " Power (kW)") results in
          iadd AGG_STATE_OF_ENERGY (id +:+ " State of Energy (kWh)") results
        else Ok results in
      let* results :=
        if String.eqb (DER.technology_type der) "Load" then
          let* results :=
            iadd TOTAL_ORIGINAL_LOAD (id +:+ " Original Load (kW)") results in
          if String.eqb (DER.tag der) "ControllableLoad"
          then iadd TOTAL_LOAD (id +:+ " Load (kW)") results
          else iadd TOTAL_LOAD (id +:+ " Original Load (kW)") results
        else Ok results in
      if String.eqb (DER.technology_type der) "Electric Vehicle" then
        let* results := iadd TOTAL_LOAD (id +:+ " Charge (kW)") results in
        if String.eqb (DER.tag der) "ElectricVehicle1"
        then iadd AGG_STATE_OF_ENERGY (id +:+ " State of Energy (kWh)") results
        else Ok results
      else Ok results
    else Ok results in
  let report := DER.monthly_report der in
  let monthly_data := concat monthly_data report in
  Ok (results, monthly_data).

(** [merge_reports] up to the end of its loop: the five columns that
    are always there, then one turn per DER. *)
Definition merge_loop (self : t) (is_dispatch_opt : bool) (index : list Z)
  : result (table * table) :=
  let n := length index in
  let results : table := [] in
  let monthly_data : table := [] in
  let results := setitem TOTAL_ORIGINAL_LOAD (broadcast n 0) results in
  let results := setitem TOTAL_LOAD (broadcast n 0) results in
  let results := setitem TOTAL_GENERATION (broadcast n 0) results in
  let results := setitem TOTAL_STORAGE_POWER (broadcast n 0) results in
  let results := setitem AGG_STATE_OF_ENERGY (broadcast n 0) results in
  forR (der_list self) (merge_step is_dispatch_opt) (results, monthly_data).

(** [merge_reports]. *)
Definition merge_reports (self : t) (is_dispatch_opt : bool) (index : list Z)
  : result (table * table) :=
  let* '(results, monthly_data) := merge_loop self is_dispatch_opt index in
  let* total_load := getitem TOTAL_LOAD results in
  let* total_original_load := getitem TOTAL_ORIGINAL_LOAD results in
  let results :=
    if all_eq total_load total_original_load
    then drop TOTAL_ORIGINAL_LOAD results
    else results in
  let* total_load := getitem TOTAL_LOAD results in
  let* total_generation := getitem TOTAL_GENERATION results in
  let* total_storage_power := getitem TOTAL_STORAGE_POWER results in
  let results :=
    setitem NET_LOAD
      (sub (sub total_load total_generation) total_storage_power) results in
  Ok (results, monthly_data).

End MicrogridPOI.


(** ** CombinedHeatPower.py: the report of a solved window *)

Module CHPReport.

Section WithBase.

(** What the base class [CT] and the solver give: the identifier of the
    technology, the report of the base class, and [variables_df], the
    solved values of the variables, one column per variable. *)
Variable CT_unique_tech_id : CHP.t -> string.
Variable CT_timeseries_report : CHP.t -> table.
Variable variables_df : CHP.t -> table.

Definition STEAM_GENERATION : string := " Steam Generation (kW)".
Definition HOTWATER_GENERATION : string := " Hot Water Generation (kW)".
Definition SITE_STEAM_LOAD : string := " Site Steam Thermal Load (BTU/hr)".
Definition SITE_HOTWATER_LOAD : string :=
  " Site Hot Water Thermal Load (BTU/hr)".

(** [timeseries_report]: a variable that [variables_df] lacks is a
    [KeyError]. *)
Definition timeseries_report (self : CHP.t) : result table :=
  let tech_id := CT_unique_tech_id self in
  let results := CT_timeseries_report self in
  let* steam := getitem "steam" (variables_df self) in
  let results := setitem (tech_id +:+ STEAM_GENERATION) steam results in
  let* hotwater := getitem "hotwater" (variables_df self) in
  let results := setitem (tech_id +:+ HOTWATER_GENERATION) hotwater results in
  let results :=
    match CHP.site_steam_load self with
    | Some load => setitem (tech_id +:+ SITE_STEAM_LOAD) load results
    | None => results
    end in
  let results :=
    match CHP.site_hotwater_load self with
    | Some load => setitem (tech_id +:+ SITE_HOTWATER_LOAD) load results
    | None => results
    end in
  Ok results.

End WithBase.

End CHPReport.

(** ** MicrogridPOI.py: the table of sizes *)

Module SizingSummary.

(** A cell of a summary: a name or a number. *)
Inductive pyval : Type :=
| PyStr (s : string)
| PyNum (q : Q).

(** A dict with its keys in insertion order. *)
Definition row := list (string * pyval).

(** A DataFrame built from rows: its column labels, the rows, and the
    label of the column that was made the index, if any ([None] is the
    default index 0, 1, ...). *)
Record frame : Type := mk_frame {
  columns : list string;
  rows : list row;
  index : option string
}.

Definition add_key (seen : list string) (k : string) : list string :=
  if existsb (String.eqb k) seen then seen else seen ++ [k].

(** [pd.DataFrame(rows)]: the columns are the keys of the rows, in the
    order in which they first appear. *)
Definition DataFrame (rows : list row) : frame :=
  mk_frame (fold_left (fun seen r => fold_left add_key (r.*1) seen) rows [])
           rows None.

(** [df.set_index(key)]: a new frame; the frame it is called on stays as
    it is. *)
Definition set_index (key : string) (df : frame) : result frame :=
  if existsb (String.eqb key) (columns df)
  then Ok (mk_frame
             (List.filter (fun c => negb (String.eqb key c)) (columns df))
             (rows df) (Some key))
  else Raise KeyError.

Section WithDER.

(** [der.sizing_summary()], the row of one DER. *)
Variable DER_sizing_summary : DER.t -> row.

(** [sizing_summary]: the result of [set_index] is not kept. *)
Definition sizing_summary (self : MicrogridPOI.t) : result frame :=
  let rows := map DER_sizing_summary (MicrogridPOI.der_list self) in
  let sizing_df := DataFrame rows in
  let* _ := set_index "DER" sizing_df in
  Ok sizing_df.

End WithDER.

End SizingSummary.

(** ** MicrogridPOI.py: [merge_reports] and the reports it calls for *)

Module MergeReports.

Section WithReports.

(** [der.timeseries_report()] and [der.monthly_report()] as the calls
    that they are: each returns a table or raises ([CHP]'s
    [timeseries_report] raises a [KeyError], for one). [MicrogridPOI]'s
    [merge_step] is the loop on a DER list whose calls have returned
    the tables that the DERs of the model hold. *)
Variable DER_timeseries_report : DER.t -> result table.
Variable DER_monthly_report : DER.t -> result table.

(** Lines 288 to 311: the columns of a DER added to the totals, in a
    dispatch optimisation. A column that the results lack is a
    [KeyError]. *)
Definition add_to_totals (is_dispatch_opt : bool) (der : DER.t)
    (results : table) : result table :=
  let id := DER.unique_tech_id der in
  if is_dispatch_opt then
    let* results :=
      if String.eqb (DER.technology_type der) "Generator"
         || String.eqb (DER.technology_type der) "Intermittent Resource"
      then iadd MicrogridPOI.TOTAL_GENERATION
             (id +:+ " Electric Generation (kW)") results
      else Ok results in
    let* results :=
      if String.eqb (DER.technology_type der) "Energy Storage System" then
        let* results :=
          iadd MicrogridPOI.TOTAL_STORAGE_POWER (id +:+ " Power (kW)")
            results in
        iadd MicrogridPOI.AGG_STATE_OF_ENERGY
          (id +:+ " State of Energy (kWh)") results
      else Ok results in
    let* results :=
      if String.eqb (DER.technology_type der) "Load" then
        let* results :=
          iadd MicrogridPOI.TOTAL_ORIGINAL_LOAD
            (id +:+ " Original Load (kW)") results in
        if String.eqb (DER.tag der) "ControllableLoad"
        then iadd MicrogridPOI.TOTAL_LOAD (id +:+ " Load (kW)") results
        else iadd MicrogridPOI.TOTAL_LOAD (id +:+ " Original Load (kW)")
               results
      else Ok results in
    if String.eqb (DER.technology_type der) "Electric Vehicle" then
      let* results :=
        iadd MicrogridPOI.TOTAL_LOAD (id +:+ " Charge (kW)") results in
      if String.eqb (DER.tag der) "ElectricVehicle1"
      then iadd MicrogridPOI.AGG_STATE_OF_ENERGY
             (id +:+ " State of Energy (kWh)") results
      else Ok results
    else Ok results
  else Ok results.

(** The body of the loop for one DER: the time-series report is called
    for first, the monthly report last; what either raises ends
    [merge_reports]. *)
Definition merge_step (is_dispatch_opt : bool) (acc : table * table)
    (der : DER.t) : result (table * table) :=
  let '(results, monthly_data) := acc in
  let* report_df := DER_timeseries_report der in
  let results := concat report_df results in
  let* results := add_to_totals is_dispatch_opt der results in
  let* report := DER_monthly_report der in
  let monthly_data := concat monthly_data report in
  Ok (results, monthly_data).

Definition merge_loop (self : MicrogridPOI.t) (is_dispatch_opt : bool)
    (index : list Z) : result (table * table) :=
  let n := length index in
  let results : table := [] in
  let monthly_data : table := [] in
  let results :=
    setitem MicrogridPOI.TOTAL_ORIGINAL_LOAD (broadcast n 0) results in
  let results := setitem MicrogridPOI.TOTAL_LOAD (broadcast n 0) results in
  let results :=
    setitem MicrogridPOI.TOTAL_GENERATION (broadcast n 0) results in
  let results :=
    setitem MicrogridPOI.TOTAL_STORAGE_POWER (broadcast n 0) results in
  let results :=
    setitem MicrogridPOI.AGG_STATE_OF_ENERGY (broadcast n 0) results in
  forR (MicrogridPOI.der_list self) (merge_step is_dispatch_opt)
    (results, monthly_data).

(** [merge_reports]. *)
Definition merge_reports (self : MicrogridPOI.t) (is_dispatch_opt : bool)
    (index : list Z) : result (table * table) :=
  let* '(results, monthly_data) := merge_loop self is_dispatch_opt index in
  let* total_load := getitem MicrogridPOI.TOTAL_LOAD results in
  let* total_original_load :=
    getitem MicrogridPOI.TOTAL_ORIGINAL_LOAD results in
  let results :=
    if all_eq total_load total_original_load
    then drop MicrogridPOI.TOTAL_ORIGINAL_LOAD results
    else results in
  let* total_load := getitem MicrogridPOI.TOTAL_LOAD results in
  let* total_generation := getitem MicrogridPOI.TOTAL_GENERATION results in
  let* total_storage_power :=
    getitem MicrogridPOI.TOTAL_STORAGE_POWER results in
  let results :=
    setitem MicrogridPOI.NET_LOAD
      (sub (sub total_load total_generation) total_storage_power) results in
  Ok (results, monthly_data).

End WithReports.

End MergeReports.

(** ** TestingLib.py *)

Module TestingLib.

(** A float of the tables under test: a number, or NaN ([None]). *)
Definition pyfloat := option Q.

(** The arithmetic that [actual - test_value] and [diff / actual] are
    done in. A cell of a DataFrame, which is what every caller in
    TestingLib.py hands in (lines 100, 134 and 148), is a numpy scalar,
    and so is [diff] as soon as one of the two values is; two floats of
    Python's own, which the annotation [float] names, give a float of
    Python's own. *)
Inductive arithmetic : Type :=
| numpy_float64
| python_float.

(** How a check ends. The message of an [AssertionError] is kept up to
    the numbers that the source formats into it. *)
Inductive outcome : Type :=
| Passed
| AssertionError (error_message : string)
| ZeroDivisionError.

(** [diff / actual] for a [diff] that is not zero and an [actual] that
    is: numpy gives [inf], or [nan] for a [diff] that is NaN, with a
    warning, and neither is [<= error_bound / 100], so the assertion
    fails; Python's own floats raise. *)
Definition divided_by_zero (arith : arithmetic) (error_message : string)
  : outcome :=
  match arith with
  | numpy_float64 => AssertionError error_message
  | python_float => ZeroDivisionError
  end.

(** [assert_within_error_bound]. With a NaN, [diff] is NaN, which is true
    as a condition, and every comparison with it is false. *)
Definition assert_within_error_bound (arith : arithmetic)
    (actual test_value : pyfloat)
    (error_bound : Q) (error_message : string) : outcome :=
  match actual, test_value with
  | Some a, Some t =>
      let diff := Qabs (a - t) in
      if Qeq_bool diff 0 then Passed
      else if Qeq_bool a 0 then divided_by_zero arith error_message
      else if Qle_bool (diff / a) (error_bound / 100) then Passed
      else AssertionError error_message
  | Some a, None =>
      if Qeq_bool a 0 then divided_by_zero arith error_message
      else AssertionError error_message
  | None, _ => AssertionError error_message
  end.

End TestingLib.
(** * Notions used to state the properties *)

(** An expression contains a free decision variable. *)
Fixpoint has_variable (e : expr) : bool :=
  match e with
  | Const _ | Series _ | Param _ _ => false
  | Var _ _ => true
  | Neg e => has_variable e
  | Add e1 e2 | Sub e1 e2 | Mul e1 e2 => has_variable e1 || has_variable e2
  end.

(** The inequality [supply >= load] at every step of a window. *)
Definition supply_covers_load (a : assignment) (n : nat) (supply : expr)
    (load : series) : Prop :=
  forall t, (t < n)%nat -> (nth t load 0 <= eval a supply t)%Q.

(** The rule for one thermal channel: [added] is what the channel
    contributes to the constraint list. It is the one inequality
    [supply >= load] exactly when the site load is defined and the supply
    has a free variable, and nothing in every other case. *)
Definition thermal_channel_rule (site_load : option series) (supply : expr)
    (added : list constraint) : Prop :=
  ((exists c, added = [c]) <->
     (exists load, site_load = Some load) /\ has_variable supply = true)
  /\ (forall load, site_load = Some load -> has_variable supply = true ->
        exists c, added = [c]
          /\ c = NonPos (Add (Neg supply) (Series load))
          /\ forall a n, sat a n c <-> supply_covers_load a n supply load)
  /\ (site_load = None \/ has_variable supply = false -> added = []).




(** What identifies a DER is the same in [d] and [d']. *)
Definition same_identity (d d' : DER.t) : Prop :=
  DER.tag d' = DER.tag d
  /\ DER.technology_type d' = DER.technology_type d
  /\ DER.unique_tech_id d' = DER.unique_tech_id d.



(** [msg] contains the identifier [id]. *)
Definition mentions (msg id : string) : bool :=
  match String.index 0 id msg with
  | Some _ => true
  | None => false
  end.

(** The calls of [sizing_error] that validating [ders] makes, in order. *)
Definition sizing_error_calls (ders : list DER.t) : list event :=
  map (fun d => Call_sizing_error (DER.unique_tech_id d)) ders.

(** Python's [x is None]. *)
Definition undefined {A} (o : option A) : bool :=
  match o with
  | None => true
  | Some _ => false
  end.

Definition is_warning (ev : event) : bool :=
  match ev with
  | TellUser_warning _ => true
  | _ => false
  end.

(** The warnings that one active technology causes in
    [get_state_of_system]: one for a heat source when neither a steam nor a
    hot water load is set, one for a cold source when no cooling load is
    set. *)
Definition expected_warnings (self : MicrogridPOI.t) (d : DER.t) : list event :=
  (if DER.is_hot d
      && (undefined (MicrogridPOI.site_steam_load self)
          && undefined (MicrogridPOI.site_hotwater_load self))
   then [TellUser_warning (MicrogridPOI.heat_warning d)] else [])
  ++ (if DER.is_cold d && undefined (MicrogridPOI.site_cooling_load self)
      then [TellUser_warning (MicrogridPOI.cold_warning d)] else []).

(** The aggregate [start] with what each technology of [ders] recovers
    added to it, in order. *)
Definition add_all (recovered : DER.t -> expr) (start : expr)
    (ders : list DER.t) : expr :=
  fold_left (fun e d => Add e (recovered d)) ders start.

(** The technologies among [ders] whose recovered energy enters the
    aggregate of a channel with site load [site_load]. *)
Definition contributors (flag : DER.t -> bool) {A} (site_load : option A)
    (ders : list DER.t) : list DER.t :=
  if undefined site_load then [] else List.filter flag ders.

(** Two series differ at some row. *)
Definition differ_somewhere (xs ys : series) : Prop :=
  exists i x y, xs !! i = Some x /\ ys !! i = Some y /\ ~ (x == y)%Q.

(** Two series are equal at every row. *)
Definition equal_everywhere (xs ys : series) : Prop :=
  forall i x y, xs !! i = Some x -> ys !! i = Some y -> (x == y)%Q.

(** [nl] is, row by row, [tl - tg - tsp]. *)
Definition net_of (nl tl tg tsp : series) : Prop :=
  (forall i l g s,
      tl !! i = Some l -> tg !! i = Some g -> tsp !! i = Some s ->
      nl !! i = Some (l - g - s)%Q)
  /\ (forall i x,
        nl !! i = Some x ->
        exists l g s,
          tl !! i = Some l /\ tg !! i = Some g /\ tsp !! i = Some s
          /\ x = (l - g - s)%Q).

(** * Sample objects

    Concrete technologies and POIs on which the properties below are
    exercised. *)

Module Samples.

(** A CHP named [chp1] with steam at most twice the hot water and one
    unit of electricity for every two of heat. *)
Definition chp1 : CHP.t :=
  CHP.mk "chp1" "CHP" true 1 (1 # 2) 2 None None ∅.

(** A base generator with one variable and one capacity constraint. *)
Definition ct_variables (self : CHP.t) (size : nat) : gmap string expr :=
  {[ "elec" := Var (CHP.name self +:+ "-elecP") true ]}.

Definition ct_constraints (self : CHP.t) (mask : Mask) : list constraint :=
  [NonPos (Sub (Var (CHP.name self +:+ "-elecP") true) (Const 100))].

Definition chp1_ready : CHP.t := CHP.initialize_variables ct_variables chp1 3.

(** A dispatch over three steps. *)
Definition chp1_dispatch : assignment :=
  fun x t =>
    (if String.eqb x "chp1-elecP" then nth t [3; 6; 0] 0
     else if String.eqb x "chp1-steamP" then nth t [4; 6; 0] 0
     else if String.eqb x "chp1-hotwaterP" then nth t [2; 6; 0] 0
     else 0)%Q.

(** A battery whose ratings are being sized, and a PV array. *)
Definition es1 : DER.t :=
  DER.mk "Battery" "Energy Storage System" "BATTERY: es1"
    (Some true) false true true (fun _ => true) false false
    None None None
    (fun _ => Const 0) (fun _ => Const 0) (fun _ => Const 0)
    (fun _ => Const 0)
    []
    (Var "es1-ch_max_rated" true) (Var "es1-dis_max_rated" true)
    (Var "es1-ene_max_rated" true)
    [("BATTERY: es1 Power (kW)", [1; -2; 0]%Q);
     ("BATTERY: es1 State of Energy (kWh)", [5; 7; 7]%Q)]
    [].

Definition pv1 : DER.t :=
  DER.mk "PV" "Intermittent Resource" "PV: pv1"
    (Some false) false true false (fun _ => true) false false
    None None None
    (fun _ => Const 0) (fun _ => Const 0) (fun _ => Const 0)
    (fun _ => Const 0)
    []
    (Const 0) (Const 0) (Const 0)
    [("PV: pv1 Electric Generation (kW)", [0; 3; 4]%Q)]
    [].

Definition poi_es_pv : MicrogridPOI.t :=
  MicrogridPOI.mk [es1; pv1] [0; 1]%nat true None None None.

Definition poi_pv_es : MicrogridPOI.t :=
  MicrogridPOI.mk [pv1; es1] [0; 1]%nat true None None None.

(** A deferral of three years from 2017: the requirement of 2019 is
    500 kW and 2000 kWh. *)
Definition deferral_table : gmap Z (gmap string Q) :=
  {[ 2019%Z := {[ "Power Capacity Requirement (kW)" := 500%Q;
                  "Energy Capacity Requirement (kWh)" := 2000%Q ]} ]}.

Definition deferral_alone : gmap string value_stream :=
  {[ "Deferral" := DeferralVS 3 deferral_table ]}.

Definition deferral_and_DA : gmap string value_stream :=
  <[ "DA" := OtherVS ]> deferral_alone.

(** Three technologies being sized; the first and the third report a
    sizing error. *)
Definition sized (tag id : string) (error : bool) : DER.t :=
  DER.mk tag "Energy Storage System" id
    (Some true) error true true (fun _ => true) false false
    None None None
    (fun _ => Const 0) (fun _ => Const 0) (fun _ => Const 0)
    (fun _ => Const 0) []
    (Var (id +:+ "-ch") true) (Var (id +:+ "-dis") true)
    (Var (id +:+ "-ene") true) [] [].

Definition poi_two_errors : MicrogridPOI.t :=
  MicrogridPOI.mk
    [sized "Battery" "BATTERY: one" true;
     sized "Battery" "BATTERY: two" false;
     sized "CAES" "CAES: three" true]
    [0; 1; 2]%nat false None None None.

(** The CHP seen as a DER of the POI: it declares a steam load and a
    hot water load that is [None]; it has no cooling load attribute. *)
Definition chp_der : DER.t :=
  DER.mk "CHP" "Generator" "CHP: chp1"
    (Some false) false true false (fun _ => true) true false
    (Some (Some [10; 20; 30]%Q)) (Some None) None
    (fun _ => Const 0)
    (fun _ => Var "chp1-steamP" true) (fun _ => Var "chp1-hotwaterP" true)
    (fun _ => Const 0) []
    (Const 0) (Const 0) (Const 0)
    [("CHP: chp1 Electric Generation (kW)", [3; 6; 0]%Q)]
    [].

(** The same fleet in two orders, as the base class leaves it. *)
Definition poi_chp_last : MicrogridPOI.t :=
  MicrogridPOI.mk [es1; chp_der] [0; 1]%nat false None None None.

Definition poi_chp_first : MicrogridPOI.t :=
  MicrogridPOI.mk [chp_der; pv1] [0; 1]%nat false None None None.

(** The base class's state of a system without power flows: the zero
    parameter in each aggregate. *)
Definition poi_zero (n : nat) : expr := Param "POI-Zero" (replicate n 0%Q).

Definition base_state (self : MicrogridPOI.t) (mask : Mask)
  : MicrogridPOI.state_of_system :=
  let z := poi_zero (length (List.filter id mask)) in
  MicrogridPOI.mk_state z z z z z z z z z z.

(** A site with a hot water load and no steam load, served by the CHP. *)
Definition poi_hotwater_only : MicrogridPOI.t :=
  MicrogridPOI.mk [chp_der] [0]%nat false
    None (Some [5; 5; 5]%Q) None.

(** A site without any thermal load, served by the CHP. *)
Definition poi_no_thermal : MicrogridPOI.t :=
  MicrogridPOI.mk [chp_der] [0]%nat false None None None.

(** A controllable load that was shifted, and a fixed load. *)
Definition load1 : DER.t :=
  DER.mk "ControllableLoad" "Load" "CONTROLLABLELOAD: l1"
    None false true false (fun _ => true) false false
    None None None
    (fun _ => Const 0) (fun _ => Const 0) (fun _ => Const 0)
    (fun _ => Const 0) []
    (Const 0) (Const 0) (Const 0)
    [("CONTROLLABLELOAD: l1 Original Load (kW)", [10; 10; 10]%Q);
     ("CONTROLLABLELOAD: l1 Load (kW)", [10; 8; 12]%Q)]
    [].

Definition load2 : DER.t :=
  DER.mk "Load" "Load" "LOAD: l2"
    None false true false (fun _ => true) false false
    None None None
    (fun _ => Const 0) (fun _ => Const 0) (fun _ => Const 0)
    (fun _ => Const 0) []
    (Const 0) (Const 0) (Const 0)
    [("LOAD: l2 Original Load (kW)", [7; 7; 9]%Q)]
    [].

Definition poi_fixed_load : MicrogridPOI.t :=
  MicrogridPOI.mk [load2; es1; pv1] [0; 1; 2]%nat true None None None.

Definition poi_shifted_load : MicrogridPOI.t :=
  MicrogridPOI.mk [load1; es1; pv1] [0; 1; 2]%nat true None None None.

Definition three_steps : list Z := [0; 1; 2]%Z.

End Samples.

(** * Further notions *)

(** The assignment respects the [nonneg] attribute of a variable. *)
Definition in_domain (a : assignment) (n : nat) (e : expr) : Prop :=
  match e with
  | Var x true => forall t, (t < n)%nat -> (0 <= a x t)%Q
  | _ => True
  end.

(** * Further sample objects *)

Module MoreSamples.

(** A CHP whose [max_steam_ratio] is negative, and the dispatch that does
    nothing. *)
Definition chp_neg : CHP.t :=
  CHP.mk "chp2" "CHP" true 1 (1 # 2) (-1) None None ∅.

Definition idle : assignment := fun _ _ => 0%Q.

(** A solved CHP with a steam load: its identifier, the report of its
    base class and the values of its variables. *)
Definition chp_steam : CHP.t :=
  CHP.mk "chp1" "CHP" true 1 (1 # 2) 2 (Some [10; 20; 30]%Q) None ∅.

Definition chp_id (self : CHP.t) : string := "CHP: " +:+ CHP.name self.

Definition ct_report (self : CHP.t) : table :=
  [(chp_id self +:+ " Electric Generation (kW)", [3; 6; 0]%Q)].

Definition chp_values (self : CHP.t) : table :=
  [("elec", [3; 6; 0]%Q); ("steam", [4; 6; 0]%Q); ("hotwater", [2; 6; 0]%Q)].

(** A DER with another monthly report, and a fleet of a load, a battery
    and a PV array that each have one. *)
Definition with_monthly (d : DER.t) (monthly : table) : DER.t :=
  DER.mk (DER.tag d) (DER.technology_type d) (DER.unique_tech_id d)
    (DER.being_sized d) (DER.sizing_error d) (DER.max_power_defined d)
    (DER.is_power_sizing d) (DER.operational d) (DER.is_hot d)
    (DER.is_cold d) (DER.site_steam_load d) (DER.site_hotwater_load d)
    (DER.site_cooling_load d) (DER.get_charge d)
    (DER.get_steam_recovered d) (DER.get_hotwater_recovered d)
    (DER.get_cold_recovered d) (DER.size_constraints d)
    (DER.ch_max_rated d) (DER.dis_max_rated d) (DER.ene_max_rated d)
    (DER.timeseries_report d) monthly.

Definition poi_monthly : MicrogridPOI.t :=
  MicrogridPOI.mk
    [with_monthly Samples.load2 [("LOAD: l2 Demand Charge ($)", [12]%Q)];
     with_monthly Samples.es1 [];
     with_monthly Samples.pv1 [("PV: pv1 Energy (kWh)", [7]%Q)]]
    [0; 1; 2]%nat true None None None.

End MoreSamples.

(** * Further notions: aggregation *)

Definition is_EV (d : DER.t) : bool :=
  String.eqb (DER.technology_type d) "Electric Vehicle".

(** A technology that [get_state_of_system] of the microgrid has nothing
    to add for. *)
Definition plain (d : DER.t) : Prop :=
  is_EV d = false /\ DER.is_hot d = false /\ DER.is_cold d = false.

(** The supply of a thermal channel has a free variable: the aggregate of
    the base class has one, or what some active source recovers has
    one. *)
Definition supply_has_variable (start : expr) (flag : DER.t -> bool)
    (recovered : DER.t -> expr) (ders : list DER.t) : Prop :=
  has_variable start = true
  \/ exists d, d ∈ ders /\ flag d = true /\ has_variable (recovered d) = true.

(** * Further notions: the merged report *)

(** The aggregate columns that [merge_reports] sets before its loop. *)
Definition AGGREGATES : list string :=
  [MicrogridPOI.TOTAL_ORIGINAL_LOAD; MicrogridPOI.TOTAL_LOAD;
   MicrogridPOI.TOTAL_GENERATION; MicrogridPOI.TOTAL_STORAGE_POWER;
   MicrogridPOI.AGG_STATE_OF_ENERGY].

(** The technologies whose generation [merge_reports] totals, the column
    it reads for one, and that column in the technology's own report. *)
Definition is_generation (d : DER.t) : bool :=
  String.eqb (DER.technology_type d) "Generator"
  || String.eqb (DER.technology_type d) "Intermittent Resource".

Definition generation_label (d : DER.t) : string :=
  DER.unique_tech_id d +:+ " Electric Generation (kW)".

Definition generation_of (d : DER.t) : series :=
  match getitem (generation_label d) (DER.timeseries_report d) with
  | Ok xs => xs
  | Raise _ => []
  end.

(** No time-series report of [ders] has a column with one of [labels]. *)
Definition reports_free_of (labels : list string) (ders : list DER.t) : Prop :=
  forall d x, d ∈ ders -> x ∈ labels ->
    has_col x (DER.timeseries_report d) = false.

(** [s] ends with [suffix]. *)
Fixpoint ends_with (suffix s : string) : bool :=
  String.eqb suffix s
  || match s with
     | EmptyString => false
     | String _ s' => ends_with suffix s'
     end.

(** The generation columns of the generators among [ders], added up from
    [start] in the order of the list. *)
Definition total_generation (start : series) (ders : list DER.t) : series :=
  fold_left (fun acc d => add acc (generation_of d))
    (List.filter is_generation ders) start.

(** The two report calls of the DER return. *)
Definition reports_returned
    (timeseries_report monthly_report : DER.t -> result table) (d : DER.t)
  : Prop :=
  (exists report_df, timeseries_report d = Ok report_df)
  /\ (exists report, monthly_report d = Ok report).

(** One of the two report calls of the DER raises [e]. *)
Definition report_raised
    (timeseries_report monthly_report : DER.t -> result table) (d : DER.t)
    (e : exn) : Prop :=
  timeseries_report d = Raise e \/ monthly_report d = Raise e.
(** * Properties *)

(** ** General facts about the embedding *)

Lemma satb_sat (a : assignment) (n : nat) (c : constraint) :
  satb a n c = true <-> sat a n c.
Proof.
  destruct c as [e|e]; simpl; rewrite forallb_forall; split.
  - intros H t Ht. apply Qle_bool_iff, H, in_seq. lia.
  - intros H t Ht. apply Qle_bool_iff, H. apply in_seq in Ht. lia.
  - intros H t Ht. apply Qeq_bool_iff, H, in_seq. lia.
  - intros H t Ht. apply Qeq_bool_iff, H. apply in_seq in Ht. lia.
Qed.

Lemma sat_allb_sat_all (a : assignment) (n : nat) (cs : list constraint) :
  sat_allb a n cs = true <-> sat_all a n cs.
Proof.
  unfold sat_allb, sat_all. rewrite forallb_forall, List.Forall_forall.
  split; intros H c Hc; apply satb_sat, H, Hc.
Qed.

Lemma sat_all_app (a : assignment) (n : nat) (cs1 cs2 : list constraint) :
  sat_all a n (cs1 ++ cs2) <-> sat_all a n cs1 /\ sat_all a n cs2.
Proof. apply Forall_app. Qed.

Lemma sat_all_cons (a : assignment) (n : nat) (c : constraint) cs :
  sat_all a n (c :: cs) <-> sat a n c /\ sat_all a n cs.
Proof. apply Forall_cons. Qed.


(** ** CHP: the coupling constraints *)

Section CHP_properties.

Variable CT_initialize_variables : CHP.t -> nat -> gmap string expr.
Variable CT_constraints : CHP.t -> Mask -> list constraint.

(** [initialize_variables] defines the two heat variables and keeps every
    other variable of the base class. *)
Lemma initialize_variables_lookup (self : CHP.t) (size : nat) :
  let self' := CHP.initialize_variables CT_initialize_variables self size in
  CHP.variables_dict self' !! "steam"
    = Some (Var (CHP.name self +:+ "-steamP") true)
  /\ CHP.variables_dict self' !! "hotwater"
    = Some (Var (CHP.name self +:+ "-hotwaterP") true)
  /\ CHP.variables_dict self' !! "elec"
    = CT_initialize_variables self size !! "elec"
  /\ CHP.max_steam_ratio self' = CHP.max_steam_ratio self
  /\ CHP.electric_heat_ratio self' = CHP.electric_heat_ratio self.
Proof.
  unfold CHP.initialize_variables; simpl.
  repeat split.
  - rewrite lookup_insert_ne by done. apply lookup_insert_eq.
  - apply lookup_insert_eq.
  - rewrite !lookup_insert_ne by done. reflexivity.
Qed.

(** C1. For a CHP whose variables [elec], [steam] and [hotwater] are
    initialised, [constraints(mask)] returns the constraint list of the
    base generator followed by exactly two constraints,
    [NonPos(steam - max_steam_ratio * hotwater)] and
    [Zero((steam + hotwater) * electric_heat_ratio - elec)]; and every
    assignment that meets all the returned constraints on a window of
    [n] steps has, at every step [t] of the window,
    [steam <= max_steam_ratio * hotwater] and
    [(steam + hotwater) * electric_heat_ratio = elec]. *)
Theorem CHP_constraints_coupling (self : CHP.t) (mask : Mask)
    (elec steam hotwater : expr) :
  CHP.variables_dict self !! "elec" = Some elec ->
  CHP.variables_dict self !! "steam" = Some steam ->
  CHP.variables_dict self !! "hotwater" = Some hotwater ->
  exists constraint_list,
    CHP.constraints CT_constraints self mask = Ok constraint_list
    /\ constraint_list =
         CT_constraints self mask ++
           [NonPos (Sub steam (Mul (Const (CHP.max_steam_ratio self)) hotwater));
            Zero (Sub (Mul (Add steam hotwater)
                           (Const (CHP.electric_heat_ratio self))) elec)]
    /\ forall (a : assignment) (n : nat),
         sat_all a n constraint_list ->
         forall t, (t < n)%nat ->
           (eval a steam t <= CHP.max_steam_ratio self * eval a hotwater t)%Q
           /\ ((eval a steam t + eval a hotwater t)
                 * CHP.electric_heat_ratio self == eval a elec t)%Q.
Proof.
  intros Helec Hsteam Hhot.
  eexists. split; [|split; [reflexivity|]].
  - unfold CHP.constraints. rewrite Helec, Hsteam, Hhot. simpl.
    rewrite <- app_assoc. reflexivity.
  - intros a n Hsat t Ht.
    apply sat_all_app in Hsat as [_ Hsat].
    apply sat_all_cons in Hsat as [Hle Hsat].
    apply sat_all_cons in Hsat as [Heq _].
    specialize (Hle t Ht). specialize (Heq t Ht). simpl in Hle, Heq.
    split; lra.
Qed.

End CHP_properties.

(** The theorem at [chp1]: its constraints are returned, and the sample
    dispatch, which meets them, has the two couplings at each of its three
    steps. *)
Lemma CHP_constraints_coupling_witness :
  exists constraint_list,
    CHP.constraints Samples.ct_constraints Samples.chp1_ready [true; true; true]
      = Ok constraint_list
    /\ constraint_list =
         Samples.ct_constraints Samples.chp1_ready [true; true; true] ++
           [NonPos (Sub (Var "chp1-steamP" true)
                        (Mul (Const 2) (Var "chp1-hotwaterP" true)));
            Zero (Sub (Mul (Add (Var "chp1-steamP" true)
                                (Var "chp1-hotwaterP" true))
                           (Const (1 # 2)))
                      (Var "chp1-elecP" true))]
    /\ forall (a : assignment) (n : nat),
         sat_all a n constraint_list ->
         forall t, (t < n)%nat ->
           (eval a (Var "chp1-steamP" true) t
              <= 2 * eval a (Var "chp1-hotwaterP" true) t)%Q
           /\ ((eval a (Var "chp1-steamP" true) t
                + eval a (Var "chp1-hotwaterP" true) t) * (1 # 2)
               == eval a (Var "chp1-elecP" true) t)%Q.
Proof.
  apply (CHP_constraints_coupling Samples.ct_constraints Samples.chp1_ready
           [true; true; true]
           (Var "chp1-elecP" true) (Var "chp1-steamP" true)
           (Var "chp1-hotwaterP" true)); reflexivity.
Defined.

(** The sample dispatch meets the constraints of [chp1]; raising the
    steam of the first step above twice the hot water breaks them. *)
Example chp1_dispatch_feasible :
  exists constraint_list,
    CHP.constraints Samples.ct_constraints Samples.chp1_ready [true; true; true]
      = Ok constraint_list
    /\ sat_all Samples.chp1_dispatch 3 constraint_list
    /\ ~ sat_all
           (fun x t => if String.eqb x "chp1-steamP" then 5 # 1
                       else Samples.chp1_dispatch x t)
           3 constraint_list.
Proof.
  eexists. split; [reflexivity|]. split.
  - apply sat_allb_sat_all. reflexivity.
  - intros H. apply sat_allb_sat_all in H. discriminate H.
Qed.

(** ** POI: thermal balance constraints *)

Lemma truthy_remove_dups (l : list string) :
  truthy (remove_dups l) = truthy l.
Proof.
  destruct l as [|x l]; [reflexivity|].
  destruct (remove_dups (x :: l)) eqn:H; [|reflexivity].
  assert (Hin : x ∈ remove_dups (x :: l)) by (apply elem_of_remove_dups; left).
  rewrite H in Hin. inversion Hin.
Qed.

Lemma truthy_app {A} (l1 l2 : list A) :
  truthy (l1 ++ l2) = truthy l1 || truthy l2.
Proof. destruct l1; reflexivity. Qed.

(** [variables()] is a non-empty list exactly for an expression in which a
    variable occurs. *)
Lemma variables_has_variable (e : expr) :
  truthy (variables e) = has_variable e.
Proof.
  induction e as [ | | | |e IH|e1 IH1 e2 IH2|e1 IH1 e2 IH2|e1 IH1 e2 IH2];
    simpl; try reflexivity; try assumption.
  all: rewrite truthy_remove_dups, truthy_app, IH1, IH2; reflexivity.
Qed.

Lemma sat_thermal_balance (a : assignment) (n : nat) (supply : expr)
    (load : series) :
  sat a n (NonPos (Add (Neg supply) (Series load)))
  <-> supply_covers_load a n supply load.
Proof.
  unfold supply_covers_load; simpl.
  split; intros H t Ht; specialize (H t Ht); lra.
Qed.

(** [thermal_balance] never raises, and what it appends obeys the rule of
    a thermal channel. *)
Lemma thermal_balance_rule (what : string) (site_load : option series)
    (supply : expr) (constraint_list : list constraint) :
  exists log added,
    MicrogridPOI.thermal_balance what site_load supply constraint_list
      = (log, Ok (constraint_list ++ added))
    /\ thermal_channel_rule site_load supply added.
Proof.
  unfold MicrogridPOI.thermal_balance, thermal_channel_rule.
  rewrite variables_has_variable.
  destruct site_load as [load|]; [destruct (has_variable supply) eqn:Hv|].
  - exists [TellUser_debug what],
      [NonPos (Add (Neg supply) (Series load))].
    split; [reflexivity|]. split; [|split].
    + split; eauto.
    + intros load' [= <-] _. eexists; split; [reflexivity|].
      split; [reflexivity|]. intros a n. apply sat_thermal_balance.
    + intros [[=]|[=]].
  - exists [], []. rewrite app_nil_r. split; [reflexivity|]. split; [|split].
    + split; [intros [c [=]] | intros [_ [=]]].
    + intros load' _ [=].
    + reflexivity.
  - exists [], []. rewrite app_nil_r. split; [reflexivity|]. split; [|split].
    + split; [intros [c [=]] | intros [[load [=]] _]].
    + intros load' [=].
    + reflexivity.
Qed.

Section POI_optimization_problem.

Variable POI_optimization_problem :
  MicrogridPOI.t -> Mask -> expr -> expr -> expr -> expr -> expr -> Q ->
  gmap string expr * list constraint.

(** C2. [optimization_problem] returns the objective of the base class
    unchanged and the constraint list of the base class followed by what
    the steam, hot water and cooling channels add, in this order. For
    each channel, the inequality [channelSupply >= channelSiteLoad] is
    added if and only if the channel's site load is defined (not [None])
    and the channel's supply expression contains a free decision
    variable; in every other case the channel adds no constraint. *)
Theorem optimization_problem_thermal_balance (self : MicrogridPOI.t)
    (mask : Mask) (power_in power_out steam_in hotwater_in cold_in : expr)
    (annuity_scalar : Q) :
  let base := POI_optimization_problem self mask power_in power_out
                steam_in hotwater_in cold_in annuity_scalar in
  exists log added_steam added_hotwater added_cold,
    MicrogridPOI.optimization_problem POI_optimization_problem self mask
      power_in power_out steam_in hotwater_in cold_in annuity_scalar
    = (log, Ok (base.1,
                base.2 ++ added_steam ++ added_hotwater ++ added_cold))
    /\ thermal_channel_rule (MicrogridPOI.site_steam_load self) steam_in
         added_steam
    /\ thermal_channel_rule (MicrogridPOI.site_hotwater_load self)
         hotwater_in added_hotwater
    /\ thermal_channel_rule (MicrogridPOI.site_cooling_load self) cold_in
         added_cold.
Proof.
  intros base. unfold MicrogridPOI.optimization_problem. fold base.
  destruct base as [obj_expression constraint_list]; simpl.
  destruct (thermal_balance_rule
              "adding steam thermal power balance constraint"
              (MicrogridPOI.site_steam_load self) steam_in constraint_list)
    as (l1 & a1 & E1 & R1).
  destruct (thermal_balance_rule
              "adding hot water thermal power balance constraint"
              (MicrogridPOI.site_hotwater_load self) hotwater_in
              (constraint_list ++ a1))
    as (l2 & a2 & E2 & R2).
  destruct (thermal_balance_rule
              "adding thermal cooling power balance constraint"
              (MicrogridPOI.site_cooling_load self) cold_in
              ((constraint_list ++ a1) ++ a2))
    as (l3 & a3 & E3 & R3).
  exists (l1 ++ l2 ++ l3 ++ []), a1, a2, a3.
  split; [|auto].
  rewrite E1; simpl. rewrite E2; simpl. rewrite E3; simpl.
  rewrite <- !app_assoc. reflexivity.
Qed.

End POI_optimization_problem.

(** With a steam load set, a steam supply that is a constant adds no
    constraint, and the same supply plus the steam of the CHP adds the
    balance. *)
Example steam_balance_needs_a_variable :
  let poi := MicrogridPOI.mk [Samples.chp_der] [0]%nat false
               (Some [10; 20; 30]%Q) None None in
  let base := fun (_ : MicrogridPOI.t) (_ : Mask) (_ _ _ _ _ : expr) (_ : Q) =>
                ((∅ : gmap string expr), @nil constraint) in
  let z := Samples.poi_zero 3 in
  let steam := Add z (Var "chp1-steamP" true) in
  MicrogridPOI.optimization_problem base poi [true; true; true] z z z z z 1
  = ([], Ok (∅, []))
  /\ MicrogridPOI.optimization_problem base poi [true; true; true] z z steam z z 1
     = ([TellUser_debug "adding steam thermal power balance constraint"],
        Ok (∅, [NonPos (Add (Neg steam) (Series [10; 20; 30]%Q))])).
Proof. split; reflexivity. Qed.

(** ** POI: deferral sizing *)








(** C10. Whenever [set_size] returns, the DER list it leaves is the one it
    was given with the first element alone replaced: every DER at another
    position is unchanged, as are the other attributes of the POI. The
    first element gets the three size floors or the three ratings whatever
    technology it is (nothing of it but its size constraints and ratings
    is read), and the result does not depend on the rest of the list. *)
Theorem set_size_first_only (self self' : MicrogridPOI.t)
    (value_streams : gmap string value_stream) (start_year : Z) :
  MicrogridPOI.set_size self value_streams start_year = Ok self' ->
  exists ess_inst ess_inst' rest min_power min_energy,
    MicrogridPOI.der_list self = ess_inst :: rest
    /\ MicrogridPOI.der_list self' = ess_inst' :: rest
    /\ (forall i, i <> 0%nat ->
          MicrogridPOI.der_list self' !! i = MicrogridPOI.der_list self !! i)
    /\ self' = MicrogridPOI.set_der_list self (ess_inst' :: rest)
    /\ same_identity ess_inst ess_inst'
    /\ ((1 < size value_streams)%nat
        /\ DER.size_constraints ess_inst'
           = DER.size_constraints ess_inst ++
               [NonPos (Sub (Const min_energy) (DER.ene_max_rated ess_inst));
                NonPos (Sub (Const min_power) (DER.ch_max_rated ess_inst));
                NonPos (Sub (Const min_power) (DER.dis_max_rated ess_inst))]
        /\ DER.ch_max_rated ess_inst' = DER.ch_max_rated ess_inst
        /\ DER.dis_max_rated ess_inst' = DER.dis_max_rated ess_inst
        /\ DER.ene_max_rated ess_inst' = DER.ene_max_rated ess_inst
        \/
        (size value_streams <= 1)%nat
        /\ DER.size_constraints ess_inst' = DER.size_constraints ess_inst
        /\ DER.ch_max_rated ess_inst' = Const min_power
        /\ DER.dis_max_rated ess_inst' = Const min_power
        /\ DER.ene_max_rated ess_inst' = Const min_energy)
    /\ (forall others,
          MicrogridPOI.set_size
            (MicrogridPOI.set_der_list self (ess_inst :: others))
            value_streams start_year
          = Ok (MicrogridPOI.set_der_list self (ess_inst' :: others))).
Proof.
  unfold MicrogridPOI.set_size.
  destruct (value_streams !! "Deferral") as [[min_year df|]|];
    simpl; try discriminate.
  destruct (df !! (start_year + min_year - 1)%Z) as [p_e_req|];
    simpl; try discriminate.
  destruct (p_e_req !! "Power Capacity Requirement (kW)") as [min_power|];
    simpl; try discriminate.
  destruct (p_e_req !! "Energy Capacity Requirement (kWh)") as [min_energy|];
    simpl; try discriminate.
  destruct self as [ders act sizing steam hot cold]; simpl.
  destruct ders as [|ess_inst rest]; simpl; try discriminate.
  intros [= <-].
  eexists ess_inst, _, rest, min_power, min_energy.
  split; [reflexivity|]. split; [reflexivity|].
  split; [intros [|i] Hi; [congruence|reflexivity]|].
  split; [reflexivity|].
  destruct (1 <? size value_streams)%nat eqn:Hsz.
  - split; [repeat split|]. split; [|reflexivity].
    left. apply Nat.ltb_lt in Hsz. simpl. rewrite <- !app_assoc. auto.
  - split; [repeat split|]. split; [|reflexivity].
    right. apply Nat.ltb_ge in Hsz. simpl. auto.
Qed.

(** The theorem on a list whose first DER is the PV array and whose second
    is the battery: the floors land on the PV array, the battery is left
    as it was. *)
Lemma set_size_first_only_witness :
  exists self',
    MicrogridPOI.set_size Samples.poi_pv_es Samples.deferral_alone 2017
      = Ok self'
    /\ MicrogridPOI.der_list self' !! 1%nat = Some Samples.es1
    /\ (exists pv', MicrogridPOI.der_list self' !! 0%nat = Some pv'
                    /\ DER.tag pv' = "PV"
                    /\ DER.ch_max_rated pv' = Const 500).
Proof.
  exists (MicrogridPOI.set_der_list Samples.poi_pv_es
            [DER.set_ene_max_rated
               (DER.set_dis_max_rated
                  (DER.set_ch_max_rated Samples.pv1 (Const 500)) (Const 500))
               (Const 2000);
             Samples.es1]).
  assert (Hrun : MicrogridPOI.set_size Samples.poi_pv_es
                   Samples.deferral_alone 2017
                 = Ok (MicrogridPOI.set_der_list Samples.poi_pv_es
                         [DER.set_ene_max_rated
                            (DER.set_dis_max_rated
                               (DER.set_ch_max_rated Samples.pv1 (Const 500))
                               (Const 500))
                            (Const 2000);
                          Samples.es1])) by reflexivity.
  split; [exact Hrun|].
  destruct (set_size_first_only _ _ _ _ Hrun)
    as (d & d' & rest & mp & me & Hl & Hl' & Hframe & _).
  split.
  - rewrite (Hframe 1%nat) by discriminate. reflexivity.
  - eexists. split; [reflexivity|]. split; reflexivity.
Defined.

(** ** POI: binary formulation against power sizing *)

Lemma is_dcp_error_loop (ders : list DER.t) (is_binary_formulation acc : bool) :
  fold_left
    (fun solve_for_size der_instance =>
       if String.eqb (DER.tag der_instance) "Battery"
       then solve_for_size
            || (DER.is_power_sizing der_instance && is_binary_formulation)
       else solve_for_size)
    ders acc
  = acc || existsb (fun d => String.eqb (DER.tag d) "Battery"
                             && (DER.is_power_sizing d && is_binary_formulation))
             ders.
Proof.
  revert acc. induction ders as [|d ders IH]; intros acc; simpl.
  - rewrite orb_false_r. reflexivity.
  - rewrite IH. destruct (String.eqb (DER.tag d) "Battery"); simpl.
    + rewrite orb_assoc. reflexivity.
    + reflexivity.
Qed.



(** Energy-only sizing with a binary formulation is no conflict. *)
Example is_dcp_error_energy_only :
  let es := DER.mk "Battery" "Energy Storage System" "BATTERY: es2"
              (Some true) false true false (fun _ => true) false false
              None None None
              (fun _ => Const 0) (fun _ => Const 0) (fun _ => Const 0)
              (fun _ => Const 0) []
              (Const 100) (Const 100) (Var "es2-ene_max_rated" true) [] [] in
  MicrogridPOI.is_dcp_error
    (MicrogridPOI.mk [es; Samples.pv1] [0; 1]%nat true None None None) true
  = false.
Proof. reflexivity. Qed.

Example is_dcp_error_power_sizing :
  MicrogridPOI.is_dcp_error Samples.poi_pv_es true = true
  /\ MicrogridPOI.is_dcp_error Samples.poi_pv_es false = false.
Proof. split; reflexivity. Qed.

(** ** POI: validation of the sizing at construction *)

Lemma check_if_sizing_ders_iff (self : MicrogridPOI.t) :
  MicrogridPOI.check_if_sizing_ders self = true
  <-> exists d, d ∈ MicrogridPOI.der_list self /\ DER.being_sized d = Some true.
Proof.
  unfold MicrogridPOI.check_if_sizing_ders.
  induction (MicrogridPOI.der_list self) as [|d ders IH]; simpl.
  - split; [discriminate|]. intros (d & Hin & _). inversion Hin.
  - destruct (DER.being_sized d) as [[|]|] eqn:Hd.
    + split; [|reflexivity]. intros _. exists d. split; [left|exact Hd].
    + rewrite IH. split.
      * intros (d' & Hin & H). exists d'. split; [right; exact Hin|exact H].
      * intros (d' & Hin & H). apply elem_of_cons in Hin as [->|Hin];
          [congruence|eauto].
    + rewrite IH. split.
      * intros (d' & Hin & H). exists d'. split; [right; exact Hin|exact H].
      * intros (d' & Hin & H). apply elem_of_cons in Hin as [->|Hin];
          [congruence|eauto].
Qed.

(** The comprehension of [error_checks_on_sizing]: every DER is asked, and
    the flags are the answers. *)
Lemma errors_found_all (ders : list DER.t) :
  mapM (fun der =>
          let+ _ := tell (Call_sizing_error (DER.unique_tech_id der)) in
          ret (if DER.sizing_error der then 1%Z else 0%Z))
       ders
  = (sizing_error_calls ders,
     Ok (map (fun der => if DER.sizing_error der then 1%Z else 0%Z) ders)).
Proof.
  induction ders as [|d ders IH]; [reflexivity|].
  cbn [mapM]. rewrite IH. simpl. rewrite app_nil_r. reflexivity.
Qed.

Lemma sum_flags_zero (ders : list DER.t) :
  Z.eqb (foldr Z.add 0%Z
           (map (fun der => if DER.sizing_error der then 1%Z else 0%Z) ders)) 0
  = negb (existsb DER.sizing_error ders)
  /\ (0 <= foldr Z.add 0%Z
             (map (fun der => if DER.sizing_error der then 1%Z else 0%Z) ders))%Z.
Proof.
  induction ders as [|d ders [IH Hpos]]; simpl; [split; [reflexivity|lia]|].
  destruct (DER.sizing_error d); simpl.
  - split; [|lia]. apply Z.eqb_neq. lia.
  - split; [exact IH|exact Hpos].
Qed.

Lemma error_checks_on_sizing_eq (self : MicrogridPOI.t) :
  MicrogridPOI.error_checks_on_sizing self
  = (sizing_error_calls (MicrogridPOI.der_list self),
     if existsb DER.sizing_error (MicrogridPOI.der_list self)
     then Raise (ParameterError MicrogridPOI.sizing_error_message)
     else Ok tt).
Proof.
  unfold MicrogridPOI.error_checks_on_sizing.
  rewrite errors_found_all. simpl.
  destruct (sum_flags_zero (MicrogridPOI.der_list self)) as [-> _].
  rewrite negb_involutive.
  destruct (existsb DER.sizing_error (MicrogridPOI.der_list self)); simpl;
    rewrite app_nil_r; reflexivity.
Qed.

(** C5, as the code has it. Constructing the POI validates the sizing
    exactly when some technology is being sized. The validation asks the
    sizing-error predicate of every technology of the DER list, in order,
    before it raises anything; it then raises one [ParameterError] if and
    only if at least one technology reports a sizing error, and returns
    normally when none does. The message of the error is the fixed text
    [sizing_error_message], which sends the user to the error log and is
    the same whichever technologies failed. *)
Theorem sizing_validation (base : MicrogridPOI.t) :
  (MicrogridPOI.check_if_sizing_ders base = true
   <-> exists d, d ∈ MicrogridPOI.der_list base
                 /\ DER.being_sized d = Some true)
  /\ (MicrogridPOI.check_if_sizing_ders base = false ->
        exists self, MicrogridPOI.init base = ([], Ok self))
  /\ (MicrogridPOI.check_if_sizing_ders base = true ->
        exists r,
          MicrogridPOI.init base
            = (sizing_error_calls (MicrogridPOI.der_list base), r)
          /\ (r = Raise (ParameterError MicrogridPOI.sizing_error_message)
              <-> exists d, d ∈ MicrogridPOI.der_list base
                            /\ DER.sizing_error d = true)
          /\ ((exists self, r = Ok self)
              <-> forall d, d ∈ MicrogridPOI.der_list base ->
                            DER.sizing_error d = false)).
Proof.
  split; [apply check_if_sizing_ders_iff|].
  unfold MicrogridPOI.init. split; intros Hs; simpl; rewrite Hs; simpl.
  - eexists. reflexivity.
  - rewrite error_checks_on_sizing_eq. simpl.
    destruct (existsb DER.sizing_error (MicrogridPOI.der_list base)) eqn:He.
    + eexists. split; [reflexivity|].
      apply existsb_exists in He as (d & Hin & Hd).
      apply list_elem_of_In in Hin. split.
      * split; eauto.
      * split; [intros [self [=]]|].
        intros Hall. specialize (Hall d Hin). congruence.
    + eexists. split; [rewrite app_nil_r; reflexivity|].
      assert (Hall : forall d, d ∈ MicrogridPOI.der_list base ->
                               DER.sizing_error d = false).
      { intros d Hin. destruct (DER.sizing_error d) eqn:Hd; [|reflexivity].
        assert (existsb DER.sizing_error (MicrogridPOI.der_list base) = true)
          by (apply existsb_exists; exists d; split;
              [apply list_elem_of_In, Hin|exact Hd]).
        congruence. }
      split.
      * split; [discriminate|].
        intros (d & Hin & Hd). rewrite (Hall d Hin) in Hd. discriminate.
      * split; [intros _; exact Hall|]. intros _. eexists. reflexivity.
Qed.

(** Three technologies being sized, the first and the third in error:
    all three are asked, then the construction raises once. *)
Example init_two_errors :
  MicrogridPOI.init Samples.poi_two_errors
  = ([Call_sizing_error "BATTERY: one"; Call_sizing_error "BATTERY: two";
      Call_sizing_error "CAES: three"],
     Raise (ParameterError
              "Sizing of DERs has an error. Please check error log.")).
Proof. reflexivity. Qed.

Example mentions_error_log :
  mentions MicrogridPOI.sizing_error_message "error log" = true
  /\ mentions "BATTERY: one cannot be sized" "BATTERY: one" = true.
Proof. split; reflexivity. Qed.

(** C5, as stated, fails: with the first and the third of three
    technologies in error, the one error raised mentions neither. *)
Lemma sizing_error_names_no_technology :
  exists msg,
    MicrogridPOI.error_checks_on_sizing Samples.poi_two_errors
      = (sizing_error_calls (MicrogridPOI.der_list Samples.poi_two_errors),
         Raise (ParameterError msg))
    /\ ~ (mentions msg "BATTERY: one" = true
          /\ mentions msg "CAES: three" = true).
Proof.
  exists MicrogridPOI.sizing_error_message. split; [reflexivity|].
  intros [H _]. vm_compute in H. discriminate.
Qed.

(** ** POI: the site thermal loads after construction *)

Lemma init_thermal_loop (ders : list DER.t) (self : MicrogridPOI.t) (d : DER.t) :
  last ders = Some d ->
  let self' := fold_left MicrogridPOI.init_thermal_step ders self in
  MicrogridPOI.site_steam_load self'
    = DER.attr_or_None (DER.site_steam_load d)
  /\ MicrogridPOI.site_hotwater_load self'
    = DER.attr_or_None (DER.site_hotwater_load d)
  /\ MicrogridPOI.site_cooling_load self'
    = DER.attr_or_None (DER.site_cooling_load d).
Proof.
  revert self. induction ders as [|d0 ders IH]; intros self Hlast.
  - discriminate.
  - destruct ders as [|d1 ders].
    + injection Hlast as <-. simpl. auto.
    + change (last (d0 :: d1 :: ders)) with (last (d1 :: ders)) in Hlast.
      apply (IH (MicrogridPOI.init_thermal_step self d0) Hlast).
Qed.

(** C9. When the construction of the POI returns and the active DERs are
    not empty, each site thermal load of the POI is the attribute of that
    name of the last active DER, and [None] when that DER has no such
    attribute: what an earlier DER declared is overwritten by every later
    one. *)
Theorem init_site_loads_from_last (base self : MicrogridPOI.t)
    (log : list event) (d : DER.t) :
  MicrogridPOI.init base = (log, Ok self) ->
  last (MicrogridPOI.active base) = Some d ->
  MicrogridPOI.site_steam_load self
    = DER.attr_or_None (DER.site_steam_load d)
  /\ MicrogridPOI.site_hotwater_load self
    = DER.attr_or_None (DER.site_hotwater_load d)
  /\ MicrogridPOI.site_cooling_load self
    = DER.attr_or_None (DER.site_cooling_load d).
Proof.
  unfold MicrogridPOI.init. intros Hinit Hlast.
  set (self0 := MicrogridPOI.set_is_sizing_optimization base
                  (MicrogridPOI.check_if_sizing_ders base)) in *.
  assert (Hact : MicrogridPOI.active self0 = MicrogridPOI.active base)
    by reflexivity.
  destruct (if MicrogridPOI.is_sizing_optimization self0
            then MicrogridPOI.error_checks_on_sizing self0
            else ret tt) as [l [[]|e]]; simpl in Hinit; [|discriminate].
  injection Hinit as _ <-. rewrite Hact.
  apply init_thermal_loop, Hlast.
Qed.

(** The theorem on a fleet whose last active DER is the CHP (its steam
    load is taken, its hot water load is [None], it has no cooling load),
    and, beside it, a fleet where the CHP comes first and a PV array
    last: the steam load declared by the CHP is lost. *)
Lemma init_site_loads_from_last_witness :
  (exists log self,
      MicrogridPOI.init Samples.poi_chp_last = (log, Ok self)
      /\ MicrogridPOI.site_steam_load self = Some [10; 20; 30]%Q
      /\ MicrogridPOI.site_hotwater_load self = None
      /\ MicrogridPOI.site_cooling_load self = None)
  /\ (exists log self,
      MicrogridPOI.init Samples.poi_chp_first = (log, Ok self)
      /\ MicrogridPOI.site_steam_load self = None).
Proof.
  split.
  - eexists _, _. split; [vm_compute; reflexivity|].
    apply (init_site_loads_from_last Samples.poi_chp_last _
             (sizing_error_calls [Samples.es1; Samples.chp_der])
             Samples.chp_der); reflexivity.
  - eexists _, _. split; [vm_compute; reflexivity|].
    apply (init_site_loads_from_last Samples.poi_chp_first _ []
             Samples.pv1); reflexivity.
Defined.

(** ** POI: recovered heat and cold in the state of the system *)

Section POI_get_state_of_system.

Variable POI_get_state_of_system :
  MicrogridPOI.t -> Mask -> MicrogridPOI.state_of_system.

(** One turn of the loop: it never raises, warns as expected, and adds
    to a thermal aggregate what the DER recovers when the DER is a
    source for the channel and the channel has a site load. *)
Lemma state_step_spec (self : MicrogridPOI.t) (mask : Mask)
    (s : MicrogridPOI.state_of_system) (d : DER.t) :
  exists log s',
    MicrogridPOI.state_step self mask s d = (log, Ok s')
    /\ List.filter is_warning log = expected_warnings self d
    /\ MicrogridPOI.agg_steam_heating_power s'
       = add_all (fun d => DER.get_steam_recovered d mask)
           (MicrogridPOI.agg_steam_heating_power s)
           (contributors DER.is_hot (MicrogridPOI.site_steam_load self) [d])
    /\ MicrogridPOI.agg_hotwater_heating_power s'
       = add_all (fun d => DER.get_hotwater_recovered d mask)
           (MicrogridPOI.agg_hotwater_heating_power s)
           (contributors DER.is_hot (MicrogridPOI.site_hotwater_load self) [d])
    /\ MicrogridPOI.agg_thermal_cooling_power s'
       = add_all (fun d => DER.get_cold_recovered d mask)
           (MicrogridPOI.agg_thermal_cooling_power s)
           (contributors DER.is_cold (MicrogridPOI.site_cooling_load self) [d]).
Proof.
  unfold MicrogridPOI.state_step, expected_warnings, contributors, add_all.
  destruct (String.eqb (DER.technology_type d) "Electric Vehicle");
    destruct (DER.is_hot d) eqn:Hhot, (DER.is_cold d) eqn:Hcold;
    destruct (MicrogridPOI.site_steam_load self),
             (MicrogridPOI.site_hotwater_load self),
             (MicrogridPOI.site_cooling_load self);
    simpl; eexists _, _; (split; [reflexivity|]);
    simpl; rewrite ?Hhot, ?Hcold; repeat split; reflexivity.
Qed.

Lemma contributors_cons (flag : DER.t -> bool) {A} (site_load : option A)
    (d : DER.t) (ders : list DER.t) :
  contributors flag site_load (d :: ders)
  = contributors flag site_load [d] ++ contributors flag site_load ders.
Proof.
  unfold contributors. destruct (undefined site_load); [reflexivity|].
  simpl. destruct (flag d); reflexivity.
Qed.

Lemma add_all_app (recovered : DER.t -> expr) (start : expr)
    (l1 l2 : list DER.t) :
  add_all recovered start (l1 ++ l2)
  = add_all recovered (add_all recovered start l1) l2.
Proof. apply fold_left_app. Qed.

Lemma state_loop_spec (self : MicrogridPOI.t) (mask : Mask)
    (ders : list DER.t) (s : MicrogridPOI.state_of_system) :
  exists log s',
    forM ders (MicrogridPOI.state_step self mask) s = (log, Ok s')
    /\ List.filter is_warning log = flat_map (expected_warnings self) ders
    /\ MicrogridPOI.agg_steam_heating_power s'
       = add_all (fun d => DER.get_steam_recovered d mask)
           (MicrogridPOI.agg_steam_heating_power s)
           (contributors DER.is_hot (MicrogridPOI.site_steam_load self) ders)
    /\ MicrogridPOI.agg_hotwater_heating_power s'
       = add_all (fun d => DER.get_hotwater_recovered d mask)
           (MicrogridPOI.agg_hotwater_heating_power s)
           (contributors DER.is_hot (MicrogridPOI.site_hotwater_load self) ders)
    /\ MicrogridPOI.agg_thermal_cooling_power s'
       = add_all (fun d => DER.get_cold_recovered d mask)
           (MicrogridPOI.agg_thermal_cooling_power s)
           (contributors DER.is_cold (MicrogridPOI.site_cooling_load self) ders).
Proof.
  revert s. induction ders as [|d ders IH]; intros s.
  - exists [], s. unfold contributors.
    destruct (undefined (MicrogridPOI.site_steam_load self)),
             (undefined (MicrogridPOI.site_hotwater_load self)),
             (undefined (MicrogridPOI.site_cooling_load self));
      repeat split; reflexivity.
  - destruct (state_step_spec self mask s d)
      as (l1 & s1 & E1 & W1 & S1 & H1 & C1).
    destruct (IH s1) as (l2 & s2 & E2 & W2 & S2 & H2 & C2).
    exists (l1 ++ l2), s2. cbn [forM]. rewrite E1. simpl. rewrite E2.
    split; [reflexivity|].
    split; [rewrite List.filter_app, W1, W2; reflexivity|].
    rewrite !(contributors_cons _ _ d ders), !add_all_app.
    rewrite S2, H2, C2, S1, H1, C1. auto.
Qed.

Lemma heat_warning_not_cold (d d' : DER.t) :
  MicrogridPOI.heat_warning d <> MicrogridPOI.cold_warning d'.
Proof.
  unfold MicrogridPOI.heat_warning, MicrogridPOI.cold_warning. simpl.
  discriminate.
Qed.

Lemma warning_in_log (log : list event) (ders : list DER.t)
    (self : MicrogridPOI.t) (msg : string) :
  List.filter is_warning log = flat_map (expected_warnings self) ders ->
  TellUser_warning msg ∈ log
  <-> exists d, d ∈ ders /\ TellUser_warning msg ∈ expected_warnings self d.
Proof.
  intros Hlog.
  assert (H : TellUser_warning msg ∈ log
              <-> In (TellUser_warning msg) (List.filter is_warning log)).
  { rewrite List.filter_In, <- list_elem_of_In. simpl. tauto. }
  rewrite H, Hlog, in_flat_map.
  split; intros (d & Hd & Hw); exists d;
    (split; apply list_elem_of_In); assumption.
Qed.

(** C6, as the code has it. [get_state_of_system] never raises on its
    own. A heat source among the active technologies gets a warning if
    and only if both the steam and the hot water site load are
    undefined, and then neither its steam nor its hot water is added;
    otherwise its recovered steam is added to the steam aggregate
    exactly when the steam load is defined, and its recovered hot water
    to the hot water aggregate exactly when the hot water load is
    defined, without any warning. A cold source gets a warning, and its
    recovered cold is left out, if and only if the cooling load is
    undefined. *)
Theorem get_state_of_system_recovered (self : MicrogridPOI.t) (mask : Mask) :
  let base := POI_get_state_of_system self mask in
  let ders := MicrogridPOI.active self in
  exists log s,
    MicrogridPOI.get_state_of_system POI_get_state_of_system self mask
      = (log, Ok s)
    /\ List.filter is_warning log = flat_map (expected_warnings self) ders
    /\ (forall d, d ∈ ders -> DER.is_hot d = true ->
          (TellUser_warning (MicrogridPOI.heat_warning d) ∈ log
           <-> MicrogridPOI.site_steam_load self = None
               /\ MicrogridPOI.site_hotwater_load self = None))
    /\ (forall d, d ∈ ders -> DER.is_cold d = true ->
          (TellUser_warning (MicrogridPOI.cold_warning d) ∈ log
           <-> MicrogridPOI.site_cooling_load self = None))
    /\ MicrogridPOI.agg_steam_heating_power s
       = add_all (fun d => DER.get_steam_recovered d mask)
           (MicrogridPOI.agg_steam_heating_power base)
           (contributors DER.is_hot (MicrogridPOI.site_steam_load self) ders)
    /\ MicrogridPOI.agg_hotwater_heating_power s
       = add_all (fun d => DER.get_hotwater_recovered d mask)
           (MicrogridPOI.agg_hotwater_heating_power base)
           (contributors DER.is_hot (MicrogridPOI.site_hotwater_load self) ders)
    /\ MicrogridPOI.agg_thermal_cooling_power s
       = add_all (fun d => DER.get_cold_recovered d mask)
           (MicrogridPOI.agg_thermal_cooling_power base)
           (contributors DER.is_cold (MicrogridPOI.site_cooling_load self) ders).
Proof.
  intros base ders. unfold MicrogridPOI.get_state_of_system.
  destruct (state_loop_spec self mask ders base)
    as (log & s & E & W & S & H & C).
  exists log, s. split; [exact E|]. split; [exact W|].
  split; [|split; [|auto]].
  - intros d Hd Hhot. rewrite (warning_in_log _ _ _ _ W). split.
    + intros (d' & _ & Hw). unfold expected_warnings in Hw.
      apply elem_of_app in Hw as [Hw|Hw].
      * destruct (MicrogridPOI.site_steam_load self),
                 (MicrogridPOI.site_hotwater_load self);
          try (rewrite ?andb_false_r in Hw; simpl in Hw; inversion Hw; fail).
        auto.
      * destruct (DER.is_cold d'
                  && undefined (MicrogridPOI.site_cooling_load self));
          [|inversion Hw].
        apply list_elem_of_singleton in Hw.
        destruct (heat_warning_not_cold d d'). congruence.
    + intros [Hs Hh]. exists d. split; [exact Hd|].
      unfold expected_warnings. rewrite Hhot, Hs, Hh.
      apply elem_of_app. left. simpl. left.
  - intros d Hd Hcold. rewrite (warning_in_log _ _ _ _ W). split.
    + intros (d' & _ & Hw). unfold expected_warnings in Hw.
      apply elem_of_app in Hw as [Hw|Hw].
      * destruct (DER.is_hot d'
                  && (undefined (MicrogridPOI.site_steam_load self)
                      && undefined (MicrogridPOI.site_hotwater_load self)));
          [|inversion Hw].
        apply list_elem_of_singleton in Hw.
        destruct (heat_warning_not_cold d' d). congruence.
      * destruct (MicrogridPOI.site_cooling_load self);
          [rewrite andb_false_r in Hw; inversion Hw|reflexivity].
    + intros Hc. exists d. split; [exact Hd|].
      unfold expected_warnings. rewrite Hcold, Hc.
      apply elem_of_app. right. simpl. left.
Qed.

End POI_get_state_of_system.

(** Without any thermal load the active CHP is warned about, and
    neither its steam nor its hot water is added. *)
Example heat_source_without_load :
  MicrogridPOI.get_state_of_system Samples.base_state Samples.poi_no_thermal
    [true; true; true]
  = ([TellUser_warning
        ("A heat source technology is active (CHP: chp1), but you have set " +:+
         "the scenario parameter incl_thermal_load to False. Any thermal " +:+
         "load will be ignored.")],
     Ok (Samples.base_state Samples.poi_no_thermal [true; true; true])).
Proof. reflexivity. Qed.

(** C6, as stated, fails: at a site with a hot water load and no steam
    load, the steam recovered by the active CHP is left out of the steam
    aggregate and no warning at all is emitted. *)
Lemma steam_dropped_without_warning :
  exists log s,
    MicrogridPOI.get_state_of_system Samples.base_state
      Samples.poi_hotwater_only [true; true; true] = (log, Ok s)
    /\ Samples.chp_der ∈ MicrogridPOI.active Samples.poi_hotwater_only
    /\ DER.is_hot Samples.chp_der = true
    /\ MicrogridPOI.site_steam_load Samples.poi_hotwater_only = None
    /\ MicrogridPOI.agg_steam_heating_power s = Samples.poi_zero 3
    /\ has_variable (MicrogridPOI.agg_steam_heating_power s) = false
    /\ List.filter is_warning log = [].
Proof.
  eexists _, _. split; [vm_compute; reflexivity|].
  split; [left|]. repeat split.
Qed.

(** ** Tables: columns under the operations of the merge *)

Lemma has_col_getitem (c : string) (df : table) :
  has_col c df = true <-> exists xs, getitem c df = Ok xs.
Proof.
  induction df as [|[c' xs] df IH]; simpl.
  - split; [discriminate|intros [xs [=]]].
  - destruct (String.eqb c' c); simpl; [|exact IH].
    split; eauto.
Qed.

Lemma has_col_app (c : string) (df1 df2 : table) :
  has_col c (df1 ++ df2) = has_col c df1 || has_col c df2.
Proof. apply existsb_app. Qed.

Lemma has_col_setitem (c c' : string) (xs : series) (df : table) :
  has_col c' (setitem c xs df) = has_col c' df || String.eqb c c'.
Proof.
  unfold setitem. destruct (has_col c df) eqn:Hc.
  - assert (Hmap : has_col c'
                     (map (fun p => if String.eqb p.1 c then (c, xs) else p) df)
                   = has_col c' df).
    { clear Hc. induction df as [|[c0 ys] df IH]; simpl; [reflexivity|].
      rewrite IH. destruct (String.eqb c0 c) eqn:E; simpl; [|reflexivity].
      apply String.eqb_eq in E. subst c0. reflexivity. }
    rewrite Hmap. destruct (String.eqb c c') eqn:E.
    + apply String.eqb_eq in E. subst c'. rewrite Hc. reflexivity.
    + rewrite orb_false_r. reflexivity.
  - rewrite has_col_app. simpl. rewrite orb_false_r. reflexivity.
Qed.

Lemma getitem_setitem_eq (c : string) (xs : series) (df : table) :
  getitem c (setitem c xs df) = Ok xs.
Proof.
  unfold setitem. destruct (has_col c df) eqn:Hc.
  - induction df as [|[c0 ys] df IH]; simpl in *; [discriminate|].
    destruct (String.eqb c0 c) eqn:E; simpl.
    + rewrite String.eqb_refl. reflexivity.
    + rewrite E. apply IH, Hc.
  - induction df as [|[c0 ys] df IH]; simpl in *.
    + rewrite String.eqb_refl. reflexivity.
    + destruct (String.eqb c0 c); simpl in *; [discriminate|]. apply IH, Hc.
Qed.

Lemma getitem_setitem_ne (c c' : string) (xs : series) (df : table) :
  c <> c' -> getitem c' (setitem c xs df) = getitem c' df.
Proof.
  intros Hne. apply String.eqb_neq in Hne.
  unfold setitem. destruct (has_col c df).
  - induction df as [|[c0 ys] df IH]; simpl; [reflexivity|].
    destruct (String.eqb c0 c) eqn:E; simpl.
    + apply String.eqb_eq in E. subst c0. rewrite Hne. exact IH.
    + rewrite IH. reflexivity.
  - induction df as [|[c0 ys] df IH]; simpl.
    + rewrite Hne. reflexivity.
    + rewrite IH. reflexivity.
Qed.

Lemma has_col_drop_eq (c : string) (df : table) :
  has_col c (drop c df) = false.
Proof.
  induction df as [|[c0 ys] df IH]; simpl; [reflexivity|].
  destruct (String.eqb c0 c) eqn:E; simpl; [exact IH|].
  rewrite E. exact IH.
Qed.

Lemma getitem_drop_ne (c c' : string) (df : table) :
  c <> c' -> getitem c' (drop c df) = getitem c' df.
Proof.
  intros Hne. induction df as [|[c0 ys] df IH]; simpl; [reflexivity|].
  destruct (String.eqb c0 c) eqn:E; simpl.
  - apply String.eqb_eq in E. subst c0.
    apply String.eqb_neq in Hne. rewrite Hne. exact IH.
  - rewrite IH. reflexivity.
Qed.

(** [+=] on a column keeps every column. *)
Lemma iadd_has_col (c c' x : string) (df df' : table) :
  iadd c c' df = Ok df' -> has_col x df = true -> has_col x df' = true.
Proof.
  unfold iadd. destruct (getitem c df) as [xs|]; simpl; [|discriminate].
  destruct (getitem c' df) as [ys|]; simpl; [|discriminate].
  intros [= <-] Hx. rewrite has_col_setitem, Hx. reflexivity.
Qed.

(** ** POI: the merged report *)

Lemma forR_invariant {A S} (P : S -> Prop) (body : S -> A -> result S)
    (l : list A) (s s' : S) :
  (forall s x s', body s x = Ok s' -> P s -> P s') ->
  forR l body s = Ok s' -> P s -> P s'.
Proof.
  intros Hbody. revert s. induction l as [|x l IH]; intros s; simpl.
  - intros [= <-]. auto.
  - destruct (body s x) as [s1|] eqn:E; simpl; [|discriminate].
    intros Hrun Hs. apply (IH s1 Hrun). apply (Hbody s x s1 E Hs).
Qed.

(** One turn of the loop keeps the columns that the results have. *)
Lemma merge_step_has_col (is_dispatch_opt : bool) (x : string)
    (results monthly_data results' monthly_data' : table) (der : DER.t) :
  MicrogridPOI.merge_step is_dispatch_opt (results, monthly_data) der
    = Ok (results', monthly_data') ->
  has_col x results = true -> has_col x results' = true.
Proof.
  unfold MicrogridPOI.merge_step. intros Hrun Hx.
  assert (H0 : has_col x (concat (DER.timeseries_report der) results) = true)
    by (unfold concat; rewrite has_col_app, Hx; apply orb_true_r).
  revert Hrun H0.
  generalize (concat (DER.timeseries_report der) results) as r0.
  intros r0 Hrun H0.
  destruct is_dispatch_opt; simpl in Hrun.
  - destruct (String.eqb (DER.technology_type der) "Generator"
              || String.eqb (DER.technology_type der) "Intermittent Resource");
      destruct (String.eqb (DER.technology_type der) "Energy Storage System");
      destruct (String.eqb (DER.technology_type der) "Load");
      destruct (String.eqb (DER.tag der) "ControllableLoad");
      destruct (String.eqb (DER.technology_type der) "Electric Vehicle");
      destruct (String.eqb (DER.tag der) "ElectricVehicle1");
      simpl in Hrun;
      repeat match goal with
        | H : context [iadd ?c ?c' ?df] |- _ =>
            let E := fresh "E" in
            let t := fresh "t" in
            destruct (iadd c c' df) as [t|] eqn:E; simpl in H;
            [apply (iadd_has_col _ _ x _ _ E) in H0; clear E
            |discriminate H]
        end;
      injection Hrun as <- _; exact H0.
  - injection Hrun as <- _. exact H0.
Qed.

(** After the loop, the five columns set before it are still there. *)
Lemma merge_loop_columns (self : MicrogridPOI.t) (is_dispatch_opt : bool)
    (index : list Z) (results monthly_data : table) :
  MicrogridPOI.merge_loop self is_dispatch_opt index
    = Ok (results, monthly_data) ->
  has_col MicrogridPOI.TOTAL_ORIGINAL_LOAD results = true
  /\ has_col MicrogridPOI.TOTAL_LOAD results = true
  /\ has_col MicrogridPOI.TOTAL_GENERATION results = true
  /\ has_col MicrogridPOI.TOTAL_STORAGE_POWER results = true
  /\ has_col MicrogridPOI.AGG_STATE_OF_ENERGY results = true.
Proof.
  unfold MicrogridPOI.merge_loop. intros Hrun.
  repeat split.
  all: match goal with
       | |- has_col ?x _ = true =>
           apply (forR_invariant (fun acc => has_col x acc.1 = true)
                    _ _ _ _
                    (fun s d s' =>
                       match s, s' with
                       | (r, m), (r', m') =>
                           merge_step_has_col is_dispatch_opt x r m r' m' d
                       end)
                    Hrun);
           reflexivity
       end.
Qed.

Lemma all_eq_true (xs ys : series) :
  all_eq xs ys = true <-> equal_everywhere xs ys.
Proof.
  unfold all_eq, equal_everywhere. revert ys.
  induction xs as [|x xs IH]; intros [|y ys]; simpl.
  - split; [intros _ i a b [=]|reflexivity].
  - split; [intros _ i a b [=]|reflexivity].
  - split; [intros _ i a b _ [=]|reflexivity].
  - rewrite andb_true_iff, IH, Qeq_bool_iff. split.
    + intros [Hxy Hrest] [|i] a b; simpl.
      * intros [= <-] [= <-]. exact Hxy.
      * apply Hrest.
    + intros H. split; [apply (H 0%nat); reflexivity|].
      intros i a b. apply (H (S i)).
Qed.

Lemma all_eq_false (xs ys : series) :
  all_eq xs ys = false <-> differ_somewhere xs ys.
Proof.
  unfold all_eq, differ_somewhere. revert ys.
  induction xs as [|x xs IH]; intros [|y ys]; simpl.
  - split; [discriminate|intros (i & a & b & [=] & _)].
  - split; [discriminate|intros (i & a & b & [=] & _)].
  - split; [discriminate|intros (i & a & b & _ & [=] & _)].
  - rewrite andb_false_iff, IH. split.
    + intros [Hxy|(i & a & b & Ha & Hb & Hne)].
      * exists 0%nat, x, y. repeat split. intros Heq.
        apply Qeq_bool_iff in Heq. congruence.
      * exists (S i), a, b. auto.
    + intros ([|i] & a & b & Ha & Hb & Hne); simpl in Ha, Hb.
      * injection Ha as <-. injection Hb as <-. left.
        destruct (Qeq_bool x y) eqn:E; [|reflexivity].
        apply Qeq_bool_iff in E. contradiction.
      * right. exists i, a, b. auto.
Qed.

Lemma sub_lookup (xs ys : series) (i : nat) :
  sub xs ys !! i
  = match xs !! i, ys !! i with
    | Some x, Some y => Some (x - y)%Q
    | _, _ => None
    end.
Proof.
  unfold sub, series in *. rewrite lookup_zip_with.
  destruct (xs !! i); simpl; [|reflexivity].
  destruct (ys !! i); reflexivity.
Qed.

Lemma net_of_sub (tl tg tsp : series) :
  net_of (sub (sub tl tg) tsp) tl tg tsp.
Proof.
  split.
  - intros i l g s Hl Hg Hs. rewrite !sub_lookup, Hl, Hg, Hs. reflexivity.
  - intros i x. rewrite !sub_lookup.
    destruct (tl !! i) as [l|]; [|discriminate].
    destruct (tg !! i) as [g|]; [|discriminate].
    destruct (tsp !! i) as [s|]; [|discriminate].
    intros [= <-]. eauto 10.
Qed.

(** Outside a dispatch optimisation the loop reads no column of a
    report, so it always runs through. *)
Lemma merge_loop_no_dispatch (self : MicrogridPOI.t) (index : list Z) :
  exists results monthly_data,
    MicrogridPOI.merge_loop self false index = Ok (results, monthly_data).
Proof.
  unfold MicrogridPOI.merge_loop.
  generalize (setitem MicrogridPOI.AGG_STATE_OF_ENERGY
                (broadcast (length index) 0)
                (setitem MicrogridPOI.TOTAL_STORAGE_POWER
                   (broadcast (length index) 0)
                   (setitem MicrogridPOI.TOTAL_GENERATION
                      (broadcast (length index) 0)
                      (setitem MicrogridPOI.TOTAL_LOAD
                         (broadcast (length index) 0)
                         (setitem MicrogridPOI.TOTAL_ORIGINAL_LOAD
                            (broadcast (length index) 0) []))))) as r.
  generalize (@nil (string * series)) as m.
  induction (MicrogridPOI.der_list self) as [|d ders IH]; intros m r.
  - eexists _, _. reflexivity.
  - simpl. apply IH.
Qed.

(** What [merge_reports] does after its loop, for results that have the
    columns of the loop. *)
Lemma merge_reports_after_loop (self : MicrogridPOI.t) (is_dispatch_opt : bool)
    (index : list Z) (results monthly_data : table) :
  MicrogridPOI.merge_loop self is_dispatch_opt index
    = Ok (results, monthly_data) ->
  exists tl tol tg tsp,
    getitem MicrogridPOI.TOTAL_LOAD results = Ok tl
    /\ getitem MicrogridPOI.TOTAL_ORIGINAL_LOAD results = Ok tol
    /\ getitem MicrogridPOI.TOTAL_GENERATION results = Ok tg
    /\ getitem MicrogridPOI.TOTAL_STORAGE_POWER results = Ok tsp
    /\ MicrogridPOI.merge_reports self is_dispatch_opt index
       = Ok (setitem MicrogridPOI.NET_LOAD (sub (sub tl tg) tsp)
               (if all_eq tl tol
                then drop MicrogridPOI.TOTAL_ORIGINAL_LOAD results
                else results),
             monthly_data).
Proof.
  intros Hloop.
  destruct (merge_loop_columns _ _ _ _ _ Hloop) as (Htol & Htl & Htg & Htsp & _).
  apply has_col_getitem in Htol as [tol Htol].
  apply has_col_getitem in Htl as [tl Htl].
  apply has_col_getitem in Htg as [tg Htg].
  apply has_col_getitem in Htsp as [tsp Htsp].
  exists tl, tol, tg, tsp. repeat (split; [assumption|]).
  unfold MicrogridPOI.merge_reports. rewrite Hloop. simpl.
  rewrite Htl, Htol. simpl.
  destruct (all_eq tl tol).
  - rewrite !getitem_drop_ne by discriminate.
    rewrite Htl, Htg, Htsp. reflexivity.
  - rewrite Htl, Htg, Htsp. reflexivity.
Qed.

(** C7. When the loop of [merge_reports] has run through, [merge_reports]
    returns, and the time-series table it returns has a column
    [Total Original Load (kW)] if and only if the columns
    [Total Load (kW)] and [Total Original Load (kW)] that the loop has
    accumulated differ at some row; when they are equal at every row the
    column is dropped. A column that is kept is the accumulated one. *)
Theorem merge_reports_original_load_column (self : MicrogridPOI.t)
    (is_dispatch_opt : bool) (index : list Z) (results monthly_data : table) :
  MicrogridPOI.merge_loop self is_dispatch_opt index
    = Ok (results, monthly_data) ->
  exists final tl tol,
    MicrogridPOI.merge_reports self is_dispatch_opt index
      = Ok (final, monthly_data)
    /\ getitem MicrogridPOI.TOTAL_LOAD results = Ok tl
    /\ getitem MicrogridPOI.TOTAL_ORIGINAL_LOAD results = Ok tol
    /\ (has_col MicrogridPOI.TOTAL_ORIGINAL_LOAD final = true
        <-> differ_somewhere tl tol)
    /\ (equal_everywhere tl tol ->
        has_col MicrogridPOI.TOTAL_ORIGINAL_LOAD final = false)
    /\ (differ_somewhere tl tol ->
        getitem MicrogridPOI.TOTAL_ORIGINAL_LOAD final = Ok tol).
Proof.
  intros Hloop.
  destruct (merge_reports_after_loop _ _ _ _ _ Hloop)
    as (tl & tol & tg & tsp & Htl & Htol & Htg & Htsp & Hrun).
  eexists _, tl, tol. split; [exact Hrun|].
  split; [exact Htl|]. split; [exact Htol|].
  rewrite has_col_setitem, orb_false_r.
  destruct (all_eq tl tol) eqn:Hall.
  - rewrite has_col_drop_eq. apply all_eq_true in Hall as Heq.
    split; [|split].
    + split; [discriminate|].
      intros Hd. apply all_eq_false in Hd. congruence.
    + reflexivity.
    + intros Hd. apply all_eq_false in Hd. congruence.
  - apply all_eq_false in Hall as Hd.
    assert (Hhas : has_col MicrogridPOI.TOTAL_ORIGINAL_LOAD results = true)
      by (apply has_col_getitem; eauto).
    rewrite Hhas. split; [|split].
    + split; auto.
    + intros Heq. apply all_eq_true in Heq. congruence.
    + intros _. rewrite getitem_setitem_ne by discriminate. exact Htol.
Qed.

(** C8. When the loop of [merge_reports] has run through, [merge_reports]
    returns, and in the time-series table it returns the column
    [Net Load (kW)] is, at every row, [Total Load (kW)] minus
    [Total Generation (kW)] minus [Total Storage Power (kW)] of the same
    table. *)
Theorem merge_reports_net_load (self : MicrogridPOI.t)
    (is_dispatch_opt : bool) (index : list Z) (results monthly_data : table) :
  MicrogridPOI.merge_loop self is_dispatch_opt index
    = Ok (results, monthly_data) ->
  exists final nl tl tg tsp,
    MicrogridPOI.merge_reports self is_dispatch_opt index
      = Ok (final, monthly_data)
    /\ getitem MicrogridPOI.NET_LOAD final = Ok nl
    /\ getitem MicrogridPOI.TOTAL_LOAD final = Ok tl
    /\ getitem MicrogridPOI.TOTAL_GENERATION final = Ok tg
    /\ getitem MicrogridPOI.TOTAL_STORAGE_POWER final = Ok tsp
    /\ nl = sub (sub tl tg) tsp
    /\ net_of nl tl tg tsp.
Proof.
  intros Hloop.
  destruct (merge_reports_after_loop _ _ _ _ _ Hloop)
    as (tl & tol & tg & tsp & Htl & Htol & Htg & Htsp & Hrun).
  eexists _, (sub (sub tl tg) tsp), tl, tg, tsp.
  split; [exact Hrun|].
  split; [apply getitem_setitem_eq|].
  rewrite !getitem_setitem_ne by discriminate.
  assert (Hkeep : forall c, c <> MicrogridPOI.TOTAL_ORIGINAL_LOAD ->
            getitem c (if all_eq tl tol
                       then drop MicrogridPOI.TOTAL_ORIGINAL_LOAD results
                       else results)
            = getitem c results).
  { intros c Hc. destruct (all_eq tl tol); [|reflexivity].
    apply getitem_drop_ne. congruence. }
  rewrite !Hkeep by discriminate.
  repeat (split; [assumption|]).
  split; [reflexivity|apply net_of_sub].
Qed.

(** The theorem on a fleet with a shifted controllable load, where the
    column is kept, and on a fleet with a fixed load, where it is
    dropped. *)
Lemma merge_reports_original_load_column_witness :
  (exists final monthly_data,
      MicrogridPOI.merge_reports Samples.poi_shifted_load true
        Samples.three_steps = Ok (final, monthly_data)
      /\ has_col MicrogridPOI.TOTAL_ORIGINAL_LOAD final = true)
  /\ (exists final monthly_data,
      MicrogridPOI.merge_reports Samples.poi_fixed_load true
        Samples.three_steps = Ok (final, monthly_data)
      /\ has_col MicrogridPOI.TOTAL_ORIGINAL_LOAD final = false).
Proof.
  split.
  - destruct (merge_reports_original_load_column Samples.poi_shifted_load
                true Samples.three_steps _ _ eq_refl)
      as (final & tl & tol & Hrun & Htl & Htol & Hiff & _ & _).
    exists final, []. split; [exact Hrun|]. apply Hiff.
    vm_compute in Htl, Htol.
    injection Htl as <-. injection Htol as <-.
    exists 1%nat, (8 # 1), (10 # 1).
    split; [reflexivity|]. split; [reflexivity|].
    intros H. vm_compute in H. discriminate H.
  - destruct (merge_reports_original_load_column Samples.poi_fixed_load
                true Samples.three_steps _ _ eq_refl)
      as (final & tl & tol & Hrun & Htl & Htol & _ & Heq & _).
    exists final, []. split; [exact Hrun|]. apply Heq.
    vm_compute in Htl, Htol.
    injection Htl as <-. injection Htol as <-.
    apply all_eq_true. reflexivity.
Defined.

(** The theorem on the fleet with a fixed load, a battery and a PV
    array: the net load of the second step is 7 - 3 - (-2). *)
Lemma merge_reports_net_load_witness :
  exists final monthly_data nl tl tg tsp,
    MicrogridPOI.merge_reports Samples.poi_fixed_load true
      Samples.three_steps = Ok (final, monthly_data)
    /\ getitem MicrogridPOI.NET_LOAD final = Ok nl
    /\ net_of nl tl tg tsp
    /\ tl !! 1%nat = Some (7 # 1)
    /\ tg !! 1%nat = Some (3 # 1)
    /\ tsp !! 1%nat = Some (-2 # 1)
    /\ nl !! 1%nat = Some ((7 # 1) - (3 # 1) - (-2 # 1))%Q.
Proof.
  destruct (merge_reports_net_load Samples.poi_fixed_load true
              Samples.three_steps _ _ eq_refl)
    as (final & nl & tl & tg & tsp & Hrun & Hnl & Htl & Htg & Htsp & Heq & Hnet).
  exists final, [], nl, tl, tg, tsp.
  split; [exact Hrun|]. split; [exact Hnl|]. split; [exact Hnet|].
  assert (Hfinal : Ok (final, @nil (string * series))
                   = MicrogridPOI.merge_reports Samples.poi_fixed_load true
                       Samples.three_steps) by (symmetry; exact Hrun).
  vm_compute in Hfinal. injection Hfinal as ->.
  vm_compute in Htl, Htg, Htsp.
  injection Htl as <-. injection Htg as <-. injection Htsp as <-.
  assert (H1 : [7 # 1; 7 # 1; 9 # 1] !! 1%nat = Some (7 # 1)) by reflexivity.
  assert (H2 : [0 # 1; 3 # 1; 4 # 1] !! 1%nat = Some (3 # 1)) by reflexivity.
  assert (H3 : [1 # 1; -2 # 1; 0 # 1] !! 1%nat = Some (-2 # 1)) by reflexivity.
  repeat (split; [assumption|]).
  apply (proj1 Hnet 1%nat _ _ _ H1 H2 H3).
Defined.

(** * Further properties of the code *)

(** ** Strings *)

Lemma append_inj_l (p s1 s2 : string) : p +:+ s1 = p +:+ s2 -> s1 = s2.
Proof.
  induction p as [|c p IH]; simpl; [auto|]. intros [= H]. auto.
Qed.

(** ** CHP: missing variables *)

Section CHP_more.

Variable CT_initialize_variables : CHP.t -> nat -> gmap string expr.
Variable CT_constraints : CHP.t -> Mask -> list constraint.

(** X1. [constraints(mask)] raises [KeyError] exactly when
    [variables_dict] lacks one of [elec], [steam] and [hotwater], as it
    does on a CHP whose variables were never initialised; it raises
    nothing else. *)
Theorem CHP_constraints_KeyError (self : CHP.t) (mask : Mask) :
  (CHP.constraints CT_constraints self mask = Raise KeyError
   <-> CHP.variables_dict self !! "elec" = None
       \/ CHP.variables_dict self !! "steam" = None
       \/ CHP.variables_dict self !! "hotwater" = None)
  /\ (forall e, CHP.constraints CT_constraints self mask = Raise e ->
                e = KeyError)
  /\ (CHP.variables_dict self = ∅ ->
      CHP.constraints CT_constraints self mask = Raise KeyError).
Proof.
  unfold CHP.constraints.
  destruct (CHP.variables_dict self !! "elec") as [elec|] eqn:He; simpl.
  2:{ split; [|split].
      - split; auto.
      - intros e [= <-]. reflexivity.
      - reflexivity. }
  destruct (CHP.variables_dict self !! "steam") as [steam|] eqn:Hs; simpl.
  2:{ split; [|split].
      - split; auto.
      - intros e [= <-]. reflexivity.
      - reflexivity. }
  destruct (CHP.variables_dict self !! "hotwater") as [hot|] eqn:Hh; simpl.
  2:{ split; [|split].
      - split; auto.
      - intros e [= <-]. reflexivity.
      - reflexivity. }
  split; [|split].
  - split; [discriminate|]. intros [H|[H|H]]; discriminate.
  - intros e [=].
  - intros Hempty. rewrite Hempty, lookup_empty in He. discriminate.
Qed.

(** X2. After [initialize_variables], [get_steam_recovered] and
    [get_hotwater_recovered] return two different non-negative variables,
    named after the CHP; every other entry of [variables_dict] is the base
    class's; and [constraints(mask)] returns exactly when the base class
    has registered [elec]. *)
Theorem initialize_variables_ready (self : CHP.t) (size : nat) (mask : Mask) :
  let self' := CHP.initialize_variables CT_initialize_variables self size in
  CHP.get_steam_recovered self' mask
    = Ok (Var (CHP.name self +:+ "-steamP") true)
  /\ CHP.get_hotwater_recovered self' mask
     = Ok (Var (CHP.name self +:+ "-hotwaterP") true)
  /\ CHP.name self +:+ "-steamP" <> CHP.name self +:+ "-hotwaterP"
  /\ (forall k, k <> "steam" -> k <> "hotwater" ->
        CHP.variables_dict self' !! k
        = CT_initialize_variables self size !! k)
  /\ ((exists constraint_list,
          CHP.constraints CT_constraints self' mask = Ok constraint_list)
      <-> is_Some (CT_initialize_variables self size !! "elec")).
Proof.
  intros self'.
  destruct (initialize_variables_lookup CT_initialize_variables self size)
    as (Hs & Hh & He & _).
  fold self' in Hs, Hh, He.
  split; [unfold CHP.get_steam_recovered; rewrite Hs; reflexivity|].
  split; [unfold CHP.get_hotwater_recovered; rewrite Hh; reflexivity|].
  split; [intros H; apply append_inj_l in H; discriminate H|].
  split.
  - intros k Hk1 Hk2. unfold self', CHP.initialize_variables. simpl.
    rewrite !lookup_insert_ne by congruence. reflexivity.
  - unfold CHP.constraints. rewrite He, Hs, Hh.
    destruct (CT_initialize_variables self size !! "elec") as [elec|]; simpl.
    + split; eauto.
    + split; [intros [cl [=]]|intros [x [=]]].
Qed.

(** X3. For an initialised CHP with a non-zero [electric_heat_ratio], an
    assignment that meets the constraints has, at every step, a total heat
    [steam + hotwater] equal to [elec / electric_heat_ratio]; if it also
    respects the non-negativity of the two heat variables, a step without
    electricity has neither steam nor hot water. *)
Theorem CHP_heat_follows_electricity (self : CHP.t) (size : nat) (mask : Mask)
    (elec : expr) (a : assignment) (n : nat)
    (constraint_list : list constraint) :
  let self' := CHP.initialize_variables CT_initialize_variables self size in
  let steam := Var (CHP.name self +:+ "-steamP") true in
  let hotwater := Var (CHP.name self +:+ "-hotwaterP") true in
  CT_initialize_variables self size !! "elec" = Some elec ->
  CHP.constraints CT_constraints self' mask = Ok constraint_list ->
  sat_all a n constraint_list ->
  ~ (CHP.electric_heat_ratio self == 0)%Q ->
  (forall t, (t < n)%nat ->
     (eval a steam t + eval a hotwater t
      == eval a elec t / CHP.electric_heat_ratio self)%Q)
  /\ (in_domain a n steam -> in_domain a n hotwater ->
      forall t, (t < n)%nat -> (eval a elec t == 0)%Q ->
        (eval a steam t == 0)%Q /\ (eval a hotwater t == 0)%Q).
Proof.
  intros self' steam hotwater Helec Hrun Hsat Hr.
  destruct (initialize_variables_lookup CT_initialize_variables self size)
    as (Hs & Hh & He & _ & Hehr).
  fold self' in Hs, Hh, He, Hehr.
  unfold CHP.constraints in Hrun. rewrite He, Helec, Hs, Hh in Hrun.
  simpl in Hrun. injection Hrun as <-.
  rewrite <- app_assoc in Hsat.
  apply sat_all_app in Hsat as [_ Hsat].
  apply sat_all_app in Hsat as [_ Hsat].
  apply sat_all_cons in Hsat as [Heq _].
  simpl in Heq.
  assert (Htot : forall t, (t < n)%nat ->
            (eval a steam t + eval a hotwater t
             == eval a elec t / CHP.electric_heat_ratio self)%Q).
  { intros t Ht. specialize (Heq t Ht). simpl.
    assert (H : (eval a elec t
                 == (a (CHP.name self +:+ "-steamP") t
                     + a (CHP.name self +:+ "-hotwaterP") t)
                    * CHP.electric_heat_ratio self)%Q) by lra.
    rewrite H. rewrite Qdiv_mult_l by exact Hr. reflexivity. }
  split; [exact Htot|].
  intros Hds Hdh t Ht He0.
  specialize (Htot t Ht). specialize (Hds t Ht). specialize (Hdh t Ht).
  simpl in *. rewrite He0 in Htot.
  assert (H0 : (0 / CHP.electric_heat_ratio self == 0)%Q)
    by (unfold Qdiv; apply Qmult_0_l).
  rewrite H0 in Htot. split; lra.
Qed.

(** X4. For an initialised CHP, an assignment that meets the constraints
    and respects the non-negativity of the two heat variables keeps the
    steam within the share [max_steam_ratio / (1 + max_steam_ratio)] of
    the heat; with [max_steam_ratio <= 0] it has no steam at all, and with
    [max_steam_ratio < 0] no hot water and no electricity either. *)
Theorem CHP_steam_cap (self : CHP.t) (size : nat) (mask : Mask)
    (elec : expr) (a : assignment) (n : nat)
    (constraint_list : list constraint) :
  let self' := CHP.initialize_variables CT_initialize_variables self size in
  let steam := Var (CHP.name self +:+ "-steamP") true in
  let hotwater := Var (CHP.name self +:+ "-hotwaterP") true in
  CT_initialize_variables self size !! "elec" = Some elec ->
  CHP.constraints CT_constraints self' mask = Ok constraint_list ->
  sat_all a n constraint_list ->
  in_domain a n steam -> in_domain a n hotwater ->
  forall t, (t < n)%nat ->
    (eval a steam t * (1 + CHP.max_steam_ratio self)
     <= CHP.max_steam_ratio self * (eval a steam t + eval a hotwater t))%Q
    /\ ((CHP.max_steam_ratio self <= 0)%Q -> (eval a steam t == 0)%Q)
    /\ ((CHP.max_steam_ratio self < 0)%Q ->
        (eval a hotwater t == 0)%Q /\ (eval a elec t == 0)%Q).
Proof.
  intros self' steam hotwater Helec Hrun Hsat Hds Hdh t Ht.
  destruct (initialize_variables_lookup CT_initialize_variables self size)
    as (Hs & Hh & He & Hmsr & Hehr).
  fold self' in Hs, Hh, He, Hmsr, Hehr.
  unfold CHP.constraints in Hrun. rewrite He, Helec, Hs, Hh in Hrun.
  simpl in Hrun. injection Hrun as <-.
  rewrite <- app_assoc in Hsat.
  apply sat_all_app in Hsat as [_ Hsat].
  apply sat_all_cons in Hsat as [Hle Hsat].
  apply sat_all_cons in Hsat as [Heq _].
  specialize (Hle t Ht). specialize (Heq t Ht).
  specialize (Hds t Ht). specialize (Hdh t Ht).
  simpl in *.
  set (s := a (CHP.name self +:+ "-steamP") t) in *.
  set (h := a (CHP.name self +:+ "-hotwaterP") t) in *.
  set (r := CHP.max_steam_ratio self) in *.
  assert (Hrh : (s <= r * h)%Q) by lra.
  split; [|split].
  - lra.
  - intros Hr0.
    assert ((0 <= (- r) * h)%Q) by (apply Qmult_le_0_compat; lra).
    lra.
  - intros Hr0.
    assert (Hrh0 : (r * h <= 0)%Q).
    { assert ((0 <= (- r) * h)%Q) by (apply Qmult_le_0_compat; lra). lra. }
    assert (Hs0 : (s == 0)%Q) by lra.
    assert (Hh0 : (h == 0)%Q).
    { assert (H1 : (0 <= r * h)%Q) by lra.
      destruct (Qlt_le_dec 0 h) as [Hpos|Hneg]; [|lra].
      assert ((0 < (- r) * h)%Q) by (apply Qmult_lt_0_compat; lra). lra. }
    split; [exact Hh0|].
    rewrite Hs0, Hh0 in Heq. lra.
Qed.

End CHP_more.

Lemma chp1_dispatch_in_domain (x : string) :
  in_domain Samples.chp1_dispatch 3 (Var x true).
Proof.
  intros t Ht. unfold Samples.chp1_dispatch.
  destruct (String.eqb x "chp1-elecP");
    [|destruct (String.eqb x "chp1-steamP");
      [|destruct (String.eqb x "chp1-hotwaterP")]];
    destruct t as [|[|[|t]]]; simpl; unfold Qle; simpl; lia.
Defined.

(** The theorem on [chp1] and the sample dispatch, whose third step has no
    electricity. *)
Lemma CHP_heat_follows_electricity_witness :
  (forall t, (t < 3)%nat ->
     (Samples.chp1_dispatch "chp1-steamP" t
      + Samples.chp1_dispatch "chp1-hotwaterP" t
      == Samples.chp1_dispatch "chp1-elecP" t / (1 # 2))%Q)
  /\ (Samples.chp1_dispatch "chp1-steamP" 2%nat == 0)%Q
  /\ (Samples.chp1_dispatch "chp1-hotwaterP" 2%nat == 0)%Q.
Proof.
  assert (Hsat : sat_all Samples.chp1_dispatch 3
                   (Samples.ct_constraints Samples.chp1_ready [true; true; true]
                    ++ [NonPos (Sub (Var "chp1-steamP" true)
                                    (Mul (Const 2) (Var "chp1-hotwaterP" true)));
                        Zero (Sub (Mul (Add (Var "chp1-steamP" true)
                                            (Var "chp1-hotwaterP" true))
                                       (Const (1 # 2)))
                                  (Var "chp1-elecP" true))]))
    by (apply sat_allb_sat_all; reflexivity).
  assert (Hr : ~ (CHP.electric_heat_ratio Samples.chp1 == 0)%Q)
    by (intros H; discriminate H).
  destruct (CHP_heat_follows_electricity Samples.ct_variables
              Samples.ct_constraints Samples.chp1 3 [true; true; true]
              (Var "chp1-elecP" true) Samples.chp1_dispatch 3 _
              eq_refl eq_refl Hsat Hr) as [Htot Hoff].
  split; [exact Htot|].
  apply (Hoff (chp1_dispatch_in_domain _) (chp1_dispatch_in_domain _) 2%nat);
    [lia|reflexivity].
Defined.

(** The theorem on a CHP with the ratio -1, which can only stay idle. *)
Lemma CHP_steam_cap_witness :
  (MoreSamples.idle "chp2-steamP" 1%nat == 0)%Q
  /\ (MoreSamples.idle "chp2-hotwaterP" 1%nat == 0)%Q
  /\ (MoreSamples.idle "chp2-elecP" 1%nat == 0)%Q.
Proof.
  assert (Hsat : sat_all MoreSamples.idle 3
                   (Samples.ct_constraints MoreSamples.chp_neg [true; true; true]
                    ++ [NonPos (Sub (Var "chp2-steamP" true)
                                    (Mul (Const (-1)) (Var "chp2-hotwaterP" true)));
                        Zero (Sub (Mul (Add (Var "chp2-steamP" true)
                                            (Var "chp2-hotwaterP" true))
                                       (Const (1 # 2)))
                                  (Var "chp2-elecP" true))]))
    by (apply sat_allb_sat_all; reflexivity).
  assert (Hd : forall x, in_domain MoreSamples.idle 3 (Var x true))
    by (intros x u Hu; unfold MoreSamples.idle, Qle; simpl; lia).
  assert (Ht : (1 < 3)%nat) by lia.
  destruct (CHP_steam_cap Samples.ct_variables Samples.ct_constraints
              MoreSamples.chp_neg 3 [true; true; true]
              (Var "chp2-elecP" true) MoreSamples.idle 3 _
              eq_refl eq_refl Hsat (Hd _) (Hd _) 1%nat Ht) as (_ & Hs & Hhe).
  split; [apply Hs; unfold Qle; simpl; lia|].
  apply Hhe. reflexivity.
Defined.

(** ** CHP: the time-series report *)

Section CHP_report.

Variable CT_unique_tech_id : CHP.t -> string.
Variable CT_timeseries_report : CHP.t -> table.
Variable variables_df : CHP.t -> table.

Let report := CHPReport.timeseries_report CT_unique_tech_id
                CT_timeseries_report variables_df.

Lemma report_labels_differ (id s1 s2 : string) :
  s1 <> s2 -> id +:+ s1 <> id +:+ s2.
Proof. intros Hne H. apply Hne, (append_inj_l id), H. Qed.

(** X5. When the solved values of [steam] and [hotwater] are there,
    [timeseries_report] returns the report of the base class with the two
    generation columns set to them and, for each site load that is not
    [None], the site load column set to it; a site load that is [None]
    leaves its column as the base class had it, and so is every column
    with another label. *)
Theorem timeseries_report_columns (self : CHP.t) (steam hotwater : series) :
  getitem "steam" (variables_df self) = Ok steam ->
  getitem "hotwater" (variables_df self) = Ok hotwater ->
  let id := CT_unique_tech_id self in
  let base := CT_timeseries_report self in
  exists results,
    report self = Ok results
    /\ getitem (id +:+ CHPReport.STEAM_GENERATION) results = Ok steam
    /\ getitem (id +:+ CHPReport.HOTWATER_GENERATION) results = Ok hotwater
    /\ getitem (id +:+ CHPReport.SITE_STEAM_LOAD) results
       = match CHP.site_steam_load self with
         | Some load => Ok load
         | None => getitem (id +:+ CHPReport.SITE_STEAM_LOAD) base
         end
    /\ getitem (id +:+ CHPReport.SITE_HOTWATER_LOAD) results
       = match CHP.site_hotwater_load self with
         | Some load => Ok load
         | None => getitem (id +:+ CHPReport.SITE_HOTWATER_LOAD) base
         end
    /\ (forall c,
          c <> id +:+ CHPReport.STEAM_GENERATION ->
          c <> id +:+ CHPReport.HOTWATER_GENERATION ->
          c <> id +:+ CHPReport.SITE_STEAM_LOAD ->
          c <> id +:+ CHPReport.SITE_HOTWATER_LOAD ->
          getitem c results = getitem c base).
Proof.
  intros Hs Hh id base. unfold report, CHPReport.timeseries_report.
  rewrite Hs, Hh. simpl. fold id base.
  eexists. split; [reflexivity|].
  assert (D : forall s1 s2, s1 <> s2 -> id +:+ s1 <> id +:+ s2)
    by (intros s1 s2; apply report_labels_differ).
  destruct (CHP.site_steam_load self) as [sl|],
           (CHP.site_hotwater_load self) as [hl|].
  all: repeat split;
    try (intros c H1 H2 H3 H4);
    repeat first
      [ rewrite getitem_setitem_eq
      | rewrite getitem_setitem_ne by (first [apply D; discriminate | congruence]) ];
    reflexivity.
Qed.

(** X6. [timeseries_report] raises [KeyError] exactly when [variables_df]
    lacks the column [steam] or the column [hotwater]; the site loads and
    the report of the base class never make it fail. *)
Theorem timeseries_report_KeyError (self : CHP.t) :
  (report self = Raise KeyError
   <-> has_col "steam" (variables_df self) = false
       \/ has_col "hotwater" (variables_df self) = false)
  /\ ((exists results, report self = Ok results)
      <-> has_col "steam" (variables_df self) = true
          /\ has_col "hotwater" (variables_df self) = true).
Proof.
  unfold report, CHPReport.timeseries_report.
  destruct (has_col "steam" (variables_df self)) eqn:Hs.
  - apply has_col_getitem in Hs as [steam Hs]. rewrite Hs. simpl.
    destruct (has_col "hotwater" (variables_df self)) eqn:Hh.
    + apply has_col_getitem in Hh as [hot Hh]. rewrite Hh. simpl.
      split; split; try discriminate; eauto.
      intros [H|H]; discriminate H.
    + destruct (getitem "hotwater" (variables_df self)) as [hot|e] eqn:Hg.
      * assert (has_col "hotwater" (variables_df self) = true)
          by (apply has_col_getitem; eauto). congruence.
      * assert (e = KeyError) as ->.
        { clear -Hg. induction (variables_df self) as [|[c xs] l IH];
            simpl in Hg; [congruence|].
          destruct (String.eqb c "hotwater"); [discriminate|auto]. }
        simpl. split; split; auto.
        -- intros [r [=]].
        -- intros [_ [=]].
  - destruct (getitem "steam" (variables_df self)) as [steam|e] eqn:Hg.
    + assert (has_col "steam" (variables_df self) = true)
        by (apply has_col_getitem; eauto). congruence.
    + assert (e = KeyError) as ->.
      { clear -Hg. induction (variables_df self) as [|[c xs] l IH];
          simpl in Hg; [congruence|].
        destruct (String.eqb c "steam"); [discriminate|auto]. }
      simpl. split; split; auto.
      * intros [r [=]].
      * intros [[=] _].
Qed.

End CHP_report.

(** The theorem on a solved CHP with a steam load and no hot water
    load. *)
Lemma timeseries_report_columns_witness :
  CHPReport.timeseries_report MoreSamples.chp_id MoreSamples.ct_report
    MoreSamples.chp_values MoreSamples.chp_steam
  = Ok [("CHP: chp1 Electric Generation (kW)", [3; 6; 0]%Q);
        ("CHP: chp1 Steam Generation (kW)", [4; 6; 0]%Q);
        ("CHP: chp1 Hot Water Generation (kW)", [2; 6; 0]%Q);
        ("CHP: chp1 Site Steam Thermal Load (BTU/hr)", [10; 20; 30]%Q)].
Proof.
  destruct (timeseries_report_columns MoreSamples.chp_id MoreSamples.ct_report
              MoreSamples.chp_values MoreSamples.chp_steam
              [4; 6; 0]%Q [2; 6; 0]%Q eq_refl eq_refl)
    as (results & Hrun & _).
  reflexivity.
Defined.

(** ** POI: which DERs are active, which lack a power bound *)

Lemma flags_sum_zero {A} (flag : A -> bool) (l : list A) :
  Z.eqb (foldr Z.add 0%Z (map (fun x => if flag x then 1%Z else 0%Z) l)) 0
  = negb (existsb flag l)
  /\ (0 <= foldr Z.add 0%Z (map (fun x => if flag x then 1%Z else 0%Z) l))%Z.
Proof.
  induction l as [|x l [IH Hpos]]; simpl; [split; [reflexivity|lia]|].
  destruct (flag x); simpl.
  - split; [|lia]. apply Z.eqb_neq. lia.
  - split; [exact IH|exact Hpos].
Qed.

(** X7. [is_any_sizable_der_missing_power_max] is true if and only if some
    DER of the DER list has [max_power_defined] false; on an empty DER
    list it is false. *)
Theorem is_any_sizable_der_missing_power_max_iff (self : MicrogridPOI.t) :
  (MicrogridPOI.is_any_sizable_der_missing_power_max self = true
   <-> exists d, d ∈ MicrogridPOI.der_list self
                 /\ DER.max_power_defined d = false)
  /\ (MicrogridPOI.der_list self = [] ->
      MicrogridPOI.is_any_sizable_der_missing_power_max self = false).
Proof.
  unfold MicrogridPOI.is_any_sizable_der_missing_power_max.
  destruct (flags_sum_zero (fun d => negb (DER.max_power_defined d))
              (MicrogridPOI.der_list self)) as [-> _].
  rewrite negb_involutive. split.
  - rewrite existsb_exists. split.
    + intros (d & Hin & Hd). exists d.
      split; [apply list_elem_of_In, Hin|].
      destruct (DER.max_power_defined d); [discriminate|reflexivity].
    + intros (d & Hin & Hd). exists d.
      split; [apply list_elem_of_In, Hin|]. rewrite Hd. reflexivity.
  - intros ->. reflexivity.
Qed.

Lemma active_of_filtered (year : Z) (pre suf : list DER.t) :
  omap (fun i => (pre ++ suf) !! i)
    (List.filter
       (fun i => match (pre ++ suf) !! i with
                 | Some der_inst => DER.operational der_inst year
                 | None => false
                 end)
       (seq (length pre) (length suf)))
  = List.filter (fun d => DER.operational d year) suf.
Proof.
  revert pre. induction suf as [|d suf IH]; intros pre; [reflexivity|].
  cbn [length seq List.filter].
  rewrite (list_lookup_middle pre suf d (length pre) eq_refl).
  assert (Hrest :
    omap (fun i => (pre ++ d :: suf) !! i)
      (List.filter
         (fun i => match (pre ++ d :: suf) !! i with
                   | Some der_inst => DER.operational der_inst year
                   | None => false
                   end)
         (seq (S (length pre)) (length suf)))
    = List.filter (fun d => DER.operational d year) suf).
  { specialize (IH (pre ++ [d])).
    rewrite <- app_assoc, length_app in IH. simpl in IH.
    rewrite Nat.add_1_r in IH. exact IH. }
  destruct (DER.operational d year); [|exact Hrest].
  cbn [omap list_omap].
  rewrite (list_lookup_middle pre suf d (length pre) eq_refl).
  rewrite Hrest. reflexivity.
Qed.

(** X8. [grab_active_ders] with an empty index raises [IndexError]. With
    an index whose first year is [year], it returns a POI whose active
    DERs are exactly the DERs of the DER list that are operational in
    [year], in the order of the DER list; the DER list and the site loads
    are as before. The earlier active DERs play no part: grabbing for a
    second year gives what grabbing for it at once gives. *)
Theorem grab_active_ders_spec (self : MicrogridPOI.t) :
  MicrogridPOI.grab_active_ders self [] = Raise IndexError
  /\ forall year years,
       exists self',
         MicrogridPOI.grab_active_ders self (year :: years) = Ok self'
         /\ MicrogridPOI.active self'
            = List.filter (fun d => DER.operational d year)
                (MicrogridPOI.der_list self)
         /\ MicrogridPOI.der_list self' = MicrogridPOI.der_list self
         /\ MicrogridPOI.site_steam_load self'
            = MicrogridPOI.site_steam_load self
         /\ MicrogridPOI.site_hotwater_load self'
            = MicrogridPOI.site_hotwater_load self
         /\ MicrogridPOI.site_cooling_load self'
            = MicrogridPOI.site_cooling_load self
         /\ forall year2 years2,
              MicrogridPOI.grab_active_ders self' (year2 :: years2)
              = MicrogridPOI.grab_active_ders self (year2 :: years2).
Proof.
  split; [reflexivity|]. intros year years.
  eexists. split; [reflexivity|]. split; [|repeat split].
  unfold MicrogridPOI.active. simpl.
  apply (active_of_filtered year [] (MicrogridPOI.der_list self)).
Qed.

(** ** POI: what the construction leaves alone *)

(** X9. When the construction of the POI returns, the DER list and the
    active DERs are those of the base class, [is_sizing_optimization] is
    what [check_if_sizing_ders] says, and with no active DER the three
    site loads are left as the base class set them. *)
Theorem init_frame (base self : MicrogridPOI.t) (log : list event) :
  MicrogridPOI.init base = (log, Ok self) ->
  MicrogridPOI.der_list self = MicrogridPOI.der_list base
  /\ MicrogridPOI.active_ders self = MicrogridPOI.active_ders base
  /\ MicrogridPOI.is_sizing_optimization self
     = MicrogridPOI.check_if_sizing_ders base
  /\ (MicrogridPOI.active base = [] ->
      MicrogridPOI.site_steam_load self = MicrogridPOI.site_steam_load base
      /\ MicrogridPOI.site_hotwater_load self
         = MicrogridPOI.site_hotwater_load base
      /\ MicrogridPOI.site_cooling_load self
         = MicrogridPOI.site_cooling_load base).
Proof.
  unfold MicrogridPOI.init. intros Hinit.
  set (self0 := MicrogridPOI.set_is_sizing_optimization base
                  (MicrogridPOI.check_if_sizing_ders base)) in *.
  assert (Hact : MicrogridPOI.active self0 = MicrogridPOI.active base)
    by reflexivity.
  destruct (if MicrogridPOI.is_sizing_optimization self0
            then MicrogridPOI.error_checks_on_sizing self0
            else ret tt) as [l [[]|e]]; simpl in Hinit; [|discriminate].
  injection Hinit as _ <-. rewrite Hact.
  assert (Hkeep : forall ders s,
            let s' := fold_left MicrogridPOI.init_thermal_step ders s in
            MicrogridPOI.der_list s' = MicrogridPOI.der_list s
            /\ MicrogridPOI.active_ders s' = MicrogridPOI.active_ders s
            /\ MicrogridPOI.is_sizing_optimization s'
               = MicrogridPOI.is_sizing_optimization s).
  { induction ders as [|d ders IH]; intros s; simpl; [auto|].
    destruct (IH (MicrogridPOI.init_thermal_step s d)) as (H1 & H2 & H3).
    rewrite H1, H2, H3. auto. }
  destruct (Hkeep (MicrogridPOI.active base) self0) as (H1 & H2 & H3).
  rewrite H1, H2, H3.
  split; [reflexivity|]. split; [reflexivity|]. split; [reflexivity|].
  intros Hempty. rewrite Hempty. simpl. auto.
Qed.

(** The theorem on the fleet of a battery and a CHP, and on a fleet
    without any active DER, whose cooling load stays as the base class
    set it. *)
Lemma init_frame_witness :
  (exists log self,
      MicrogridPOI.init Samples.poi_chp_last = (log, Ok self)
      /\ MicrogridPOI.der_list self = [Samples.es1; Samples.chp_der]
      /\ MicrogridPOI.is_sizing_optimization self = true)
  /\ (exists log self,
      MicrogridPOI.init
        (MicrogridPOI.mk [Samples.pv1] [] false None None (Some [1; 2]%Q))
      = (log, Ok self)
      /\ MicrogridPOI.site_cooling_load self = Some [1; 2]%Q).
Proof.
  split.
  - eexists _, _. split; [vm_compute; reflexivity|].
    destruct (init_frame Samples.poi_chp_last _
                (sizing_error_calls [Samples.es1; Samples.chp_der]) eq_refl)
      as (H1 & _ & H3 & _).
    split; [exact H1|exact H3].
  - eexists _, _. split; [vm_compute; reflexivity|].
    destruct (init_frame
                (MicrogridPOI.mk [Samples.pv1] [] false None None
                   (Some [1; 2]%Q)) _ [] eq_refl)
      as (_ & _ & _ & H4).
    apply H4. reflexivity.
Defined.

(** ** POI: errors and repetition of the deferral sizing *)

Ltac split_cases :=
  repeat match goal with
    | |- _ /\ _ => split
    | |- _ <-> _ => split
    end.

Ltac open_hyps :=
  intros;
  repeat match goal with
    | H : ex _ |- _ => destruct H
    | H : _ /\ _ |- _ => destruct H
    | H : _ \/ _ |- _ => destruct H
    | H : is_Some _ |- _ => destruct H
    end.

(** X10. The exceptions of [set_size]: [AttributeError] exactly when the
    value streams have no Deferral entry, or one that is no Deferral;
    otherwise [KeyError] exactly when the Deferral table lacks the last
    year to defer or that year lacks one of the two requirements;
    otherwise [IndexError] exactly when the DER list is empty. So a
    missing requirement is reported before an empty DER list. *)
Theorem set_size_errors (self : MicrogridPOI.t)
    (value_streams : gmap string value_stream) (start_year : Z) :
  let run := MicrogridPOI.set_size self value_streams start_year in
  let found min_year df p_e_req :=
    value_streams !! "Deferral" = Some (DeferralVS min_year df)
    /\ df !! (start_year + min_year - 1)%Z = Some p_e_req
    /\ is_Some (p_e_req !! "Power Capacity Requirement (kW)")
    /\ is_Some (p_e_req !! "Energy Capacity Requirement (kWh)") in
  (run = Raise AttributeError
   <-> value_streams !! "Deferral" = None
       \/ value_streams !! "Deferral" = Some OtherVS)
  /\ (run = Raise KeyError
      <-> exists min_year df,
            value_streams !! "Deferral" = Some (DeferralVS min_year df)
            /\ forall p_e_req, ~ found min_year df p_e_req)
  /\ (run = Raise IndexError
      <-> (exists min_year df p_e_req, found min_year df p_e_req)
          /\ MicrogridPOI.der_list self = [])
  /\ ((exists self', run = Ok self')
      <-> (exists min_year df p_e_req, found min_year df p_e_req)
          /\ MicrogridPOI.der_list self <> []).
Proof.
  intros run found. unfold run, found, MicrogridPOI.set_size.
  destruct (value_streams !! "Deferral") as [[min_year df|]|] eqn:Hd; simpl.
  2,3: split_cases;
       solve [ auto | reflexivity | open_hyps; simplify_eq ].
  assert (Hmissing :
    df !! (start_year + min_year - 1)%Z = None
    \/ (exists p, df !! (start_year + min_year - 1)%Z = Some p
                  /\ (p !! "Power Capacity Requirement (kW)" = None
                      \/ p !! "Energy Capacity Requirement (kWh)" = None)) ->
    exists m d,
      Some (DeferralVS min_year df) = Some (DeferralVS m d)
      /\ forall p_e_req,
           ~ (Some (DeferralVS min_year df) = Some (DeferralVS m d)
              /\ d !! (start_year + m - 1)%Z = Some p_e_req
              /\ is_Some (p_e_req !! "Power Capacity Requirement (kW)")
              /\ is_Some (p_e_req !! "Energy Capacity Requirement (kWh)"))).
  { intros Hm. exists min_year, df. split; [reflexivity|].
    intros p Hf. open_hyps; simplify_eq. }
  destruct (df !! (start_year + min_year - 1)%Z) as [p_e_req|] eqn:Hrow; simpl.
  2:{ split_cases;
      solve [ reflexivity | open_hyps; simplify_eq | intros _; auto ]. }
  destruct (p_e_req !! "Power Capacity Requirement (kW)") as [min_power|]
    eqn:Hp; simpl.
  2:{ split_cases;
      solve [ reflexivity | open_hyps; simplify_eq
            | intros _; apply Hmissing; eauto ]. }
  destruct (p_e_req !! "Energy Capacity Requirement (kWh)") as [min_energy|]
    eqn:He; simpl.
  2:{ split_cases;
      solve [ reflexivity | open_hyps; simplify_eq
            | intros _; apply Hmissing; eauto ]. }
  clear Hmissing.
  assert (Hfound : exists m d p,
            Some (DeferralVS min_year df) = Some (DeferralVS m d)
            /\ d !! (start_year + m - 1)%Z = Some p
            /\ is_Some (p !! "Power Capacity Requirement (kW)")
            /\ is_Some (p !! "Energy Capacity Requirement (kWh)")).
  { exists min_year, df, p_e_req. rewrite Hp, He. eauto. }
  assert (Hnot : forall m d,
            Some (DeferralVS min_year df) = Some (DeferralVS m d) ->
            ~ forall p,
                ~ (Some (DeferralVS min_year df) = Some (DeferralVS m d)
                   /\ d !! (start_year + m - 1)%Z = Some p
                   /\ is_Some (p !! "Power Capacity Requirement (kW)")
                   /\ is_Some (p !! "Energy Capacity Requirement (kWh)"))).
  { intros m d Heq Hno. simplify_eq. apply (Hno p_e_req).
    rewrite Hp, He. eauto. }
  destruct (MicrogridPOI.der_list self) as [|ess_inst rest] eqn:Hl; simpl.
  - split_cases;
      solve [ reflexivity | discriminate | auto
            | open_hyps; simplify_eq
            | intros (m & d & Heq & Hno); destruct (Hnot m d Heq Hno)
            | intros [_ H]; congruence ].
  - split_cases;
      solve [ reflexivity | discriminate | eauto
            | open_hyps; simplify_eq
            | intros (m & d & Heq & Hno); destruct (Hnot m d Heq Hno)
            | intros _; split; [exact Hfound|discriminate] ].
Qed.

(** X11. [set_size] can be called again on its own result, with the same
    arguments. When Deferral is the only value stream the second call
    changes nothing; when there are several, the same three size floors
    are appended to the size constraints of the first DER a second
    time. *)
Theorem set_size_twice (self self1 : MicrogridPOI.t)
    (value_streams : gmap string value_stream) (start_year : Z) :
  MicrogridPOI.set_size self value_streams start_year = Ok self1 ->
  exists self2,
    MicrogridPOI.set_size self1 value_streams start_year = Ok self2
    /\ ((size value_streams <= 1)%nat -> self2 = self1)
    /\ ((1 < size value_streams)%nat ->
        exists ess_inst ess_inst1 ess_inst2 c1 c2 c3,
          MicrogridPOI.der_list self !! 0%nat = Some ess_inst
          /\ MicrogridPOI.der_list self1 !! 0%nat = Some ess_inst1
          /\ MicrogridPOI.der_list self2 !! 0%nat = Some ess_inst2
          /\ DER.size_constraints ess_inst1
             = DER.size_constraints ess_inst ++ [c1; c2; c3]
          /\ DER.size_constraints ess_inst2
             = DER.size_constraints ess_inst ++ [c1; c2; c3] ++ [c1; c2; c3]).
Proof.
  unfold MicrogridPOI.set_size.
  destruct (value_streams !! "Deferral") as [[min_year df|]|];
    simpl; try discriminate.
  destruct (df !! (start_year + min_year - 1)%Z) as [p_e_req|];
    simpl; try discriminate.
  destruct (p_e_req !! "Power Capacity Requirement (kW)") as [min_power|];
    simpl; try discriminate.
  destruct (p_e_req !! "Energy Capacity Requirement (kWh)") as [min_energy|];
    simpl; try discriminate.
  destruct self as [ders act sizing steam hot cold]; simpl.
  destruct ders as [|ess_inst rest]; simpl; try discriminate.
  intros [= <-]. simpl.
  eexists. split; [reflexivity|].
  destruct (1 <? size value_streams)%nat eqn:Hsz.
  - apply Nat.ltb_lt in Hsz. split; [lia|]. intros _.
    eexists ess_inst, _, _, _, _, _.
    split; [reflexivity|]. split; [reflexivity|]. split; [reflexivity|].
    simpl. rewrite <- !app_assoc. split; reflexivity.
  - apply Nat.ltb_ge in Hsz. split; [|lia]. intros _.
    destruct ess_inst. reflexivity.
Qed.

(** The theorem on the fleet of a battery and a PV array, once for
    Deferral alone and once for Deferral beside another value stream. *)
Lemma set_size_twice_witness :
  (exists self1,
      MicrogridPOI.set_size Samples.poi_es_pv Samples.deferral_alone 2017
        = Ok self1
      /\ MicrogridPOI.set_size self1 Samples.deferral_alone 2017 = Ok self1)
  /\ (exists self1 self2 ess_inst2,
      MicrogridPOI.set_size Samples.poi_es_pv Samples.deferral_and_DA 2017
        = Ok self1
      /\ MicrogridPOI.set_size self1 Samples.deferral_and_DA 2017 = Ok self2
      /\ MicrogridPOI.der_list self2 !! 0%nat = Some ess_inst2
      /\ length (DER.size_constraints ess_inst2) = 6%nat).
Proof.
  split.
  - destruct (MicrogridPOI.set_size Samples.poi_es_pv Samples.deferral_alone
                2017) as [self1|e] eqn:Hrun1;
      [|vm_compute in Hrun1; discriminate Hrun1].
    destruct (set_size_twice _ _ _ _ Hrun1) as (self2 & Hrun2 & Hsame & _).
    exists self1. split; [reflexivity|].
    rewrite Hrun2. f_equal. apply Hsame. vm_compute. lia.
  - destruct (MicrogridPOI.set_size Samples.poi_es_pv Samples.deferral_and_DA
                2017) as [self1|e] eqn:Hrun1;
      [|vm_compute in Hrun1; discriminate Hrun1].
    destruct (set_size_twice _ _ _ _ Hrun1) as (self2 & Hrun2 & _ & Hmore).
    assert (Hsz : (1 < size Samples.deferral_and_DA)%nat) by (vm_compute; lia).
    destruct (Hmore Hsz)
      as (e0 & e1 & e2 & c1 & c2 & c3 & H0 & H1 & H2 & Hc1 & Hc2).
    exists self1, self2, e2. split; [reflexivity|]. split; [exact Hrun2|].
    split; [exact H2|]. rewrite Hc2.
    injection H0 as <-. reflexivity.
Defined.

(** ** POI: the binary formulation check and the order of the DERs *)

(** X12. [is_dcp_error] is false whenever the formulation is not binary;
    it does not depend on the order of the DER list; and DERs that are not
    tagged Battery can be removed from the list without changing it. *)
Theorem is_dcp_error_order (self : MicrogridPOI.t) (is_binary_formulation : bool) :
  MicrogridPOI.is_dcp_error self false = false
  /\ (forall self',
        MicrogridPOI.der_list self ≡ₚ MicrogridPOI.der_list self' ->
        MicrogridPOI.is_dcp_error self' is_binary_formulation
        = MicrogridPOI.is_dcp_error self is_binary_formulation)
  /\ MicrogridPOI.is_dcp_error
       (MicrogridPOI.set_der_list self
          (List.filter (fun d => String.eqb (DER.tag d) "Battery")
             (MicrogridPOI.der_list self)))
       is_binary_formulation
     = MicrogridPOI.is_dcp_error self is_binary_formulation.
Proof.
  unfold MicrogridPOI.is_dcp_error. rewrite !is_dcp_error_loop. simpl.
  split; [|split].
  - induction (MicrogridPOI.der_list self) as [|d l IH]; simpl; [reflexivity|].
    rewrite IH, andb_false_r, andb_false_r. reflexivity.
  - intros self' Hperm. rewrite is_dcp_error_loop. simpl.
    induction Hperm as [|x l l' _ IH|x y l|l l' l'' _ IH1 _ IH2]; simpl.
    + reflexivity.
    + rewrite IH. reflexivity.
    + rewrite !orb_assoc.
      rewrite (orb_comm (String.eqb (DER.tag x) "Battery" && _)).
      reflexivity.
    + congruence.
  - induction (MicrogridPOI.der_list self) as [|d l IH]; simpl; [reflexivity|].
    destruct (String.eqb (DER.tag d) "Battery") eqn:Htag; simpl.
    + rewrite Htag, IH. reflexivity.
    + exact IH.
Qed.

(** ** POI: the electric aggregates of the state of the system *)

Section POI_state_more.

Variable POI_get_state_of_system :
  MicrogridPOI.t -> Mask -> MicrogridPOI.state_of_system.

Lemma state_step_electric (self : MicrogridPOI.t) (mask : Mask)
    (s : MicrogridPOI.state_of_system) (d : DER.t) :
  exists log s',
    MicrogridPOI.state_step self mask s d = (log, Ok s')
    /\ MicrogridPOI.load_sum s'
       = (if is_EV d
          then Add (MicrogridPOI.load_sum s) (DER.get_charge d mask)
          else MicrogridPOI.load_sum s)
    /\ MicrogridPOI.var_gen_sum s' = MicrogridPOI.var_gen_sum s
    /\ MicrogridPOI.gen_sum s' = MicrogridPOI.gen_sum s
    /\ MicrogridPOI.tot_net_ess s' = MicrogridPOI.tot_net_ess s
    /\ MicrogridPOI.total_soe s' = MicrogridPOI.total_soe s
    /\ MicrogridPOI.agg_power_flows_in s' = MicrogridPOI.agg_power_flows_in s
    /\ MicrogridPOI.agg_power_flows_out s' = MicrogridPOI.agg_power_flows_out s
    /\ (plain d -> log = [] /\ s' = s).
Proof.
  unfold MicrogridPOI.state_step, plain, is_EV.
  destruct (String.eqb (DER.technology_type d) "Electric Vehicle");
    destruct (DER.is_hot d), (DER.is_cold d);
    destruct (MicrogridPOI.site_steam_load self),
             (MicrogridPOI.site_hotwater_load self),
             (MicrogridPOI.site_cooling_load self);
    simpl; eexists _, _; (split; [reflexivity|]); simpl;
    do 7 (split; [reflexivity|]);
    intros (H1 & H2 & H3); try discriminate; auto.
Qed.

Lemma state_loop_electric (self : MicrogridPOI.t) (mask : Mask)
    (ders : list DER.t) (s0 : MicrogridPOI.state_of_system) :
  exists log s,
    forM ders (MicrogridPOI.state_step self mask) s0 = (log, Ok s)
    /\ MicrogridPOI.load_sum s
       = add_all (fun d => DER.get_charge d mask) (MicrogridPOI.load_sum s0)
           (List.filter is_EV ders)
    /\ MicrogridPOI.var_gen_sum s = MicrogridPOI.var_gen_sum s0
    /\ MicrogridPOI.gen_sum s = MicrogridPOI.gen_sum s0
    /\ MicrogridPOI.tot_net_ess s = MicrogridPOI.tot_net_ess s0
    /\ MicrogridPOI.total_soe s = MicrogridPOI.total_soe s0
    /\ MicrogridPOI.agg_power_flows_in s = MicrogridPOI.agg_power_flows_in s0
    /\ MicrogridPOI.agg_power_flows_out s
       = MicrogridPOI.agg_power_flows_out s0
    /\ (Forall plain ders -> log = [] /\ s = s0).
Proof.
  revert s0. induction ders as [|d ders IH]; intros s0.
  - exists [], s0. do 8 (split; [reflexivity|]). auto.
  - destruct (state_step_electric self mask s0 d)
      as (l1 & s1 & E1 & L1 & V1 & G1 & N1 & T1 & I1 & O1 & P1).
    destruct (IH s1) as (l2 & s2 & E2 & L2 & V2 & G2 & N2 & T2 & I2 & O2 & P2).
    exists (l1 ++ l2), s2. cbn [forM]. rewrite E1. simpl. rewrite E2.
    split; [reflexivity|].
    split.
    { rewrite L2, L1. simpl. destruct (is_EV d); reflexivity. }
    do 6 (split; [congruence|]).
    intros Hall. apply Forall_cons in Hall as [Hd Hall].
    destruct (P1 Hd) as [-> ->]. destruct (P2 Hall) as [-> ->].
    split; reflexivity.
Qed.

(** X13. [get_state_of_system] adds to the load the charge of every
    active electric vehicle, in order, and of nothing else; the variable
    generation, the other generation, the net storage power, the state of
    energy and the two power flows are those of the base class. With no
    active electric vehicle, heat source or cold source, the state of the
    base class is returned as it is and nothing is logged. *)
Theorem get_state_of_system_electric (self : MicrogridPOI.t) (mask : Mask) :
  let base := POI_get_state_of_system self mask in
  let ders := MicrogridPOI.active self in
  exists log s,
    MicrogridPOI.get_state_of_system POI_get_state_of_system self mask
      = (log, Ok s)
    /\ MicrogridPOI.load_sum s
       = add_all (fun d => DER.get_charge d mask) (MicrogridPOI.load_sum base)
           (List.filter is_EV ders)
    /\ MicrogridPOI.var_gen_sum s = MicrogridPOI.var_gen_sum base
    /\ MicrogridPOI.gen_sum s = MicrogridPOI.gen_sum base
    /\ MicrogridPOI.tot_net_ess s = MicrogridPOI.tot_net_ess base
    /\ MicrogridPOI.total_soe s = MicrogridPOI.total_soe base
    /\ MicrogridPOI.agg_power_flows_in s = MicrogridPOI.agg_power_flows_in base
    /\ MicrogridPOI.agg_power_flows_out s
       = MicrogridPOI.agg_power_flows_out base
    /\ (Forall plain ders -> log = [] /\ s = base).
Proof.
  intros base ders. unfold MicrogridPOI.get_state_of_system.
  apply state_loop_electric.
Qed.

End POI_state_more.

(** ** POI: construction, state of the system and problem, composed *)

Lemma init_inv (base self : MicrogridPOI.t) (log : list event) :
  MicrogridPOI.init base = (log, Ok self) ->
  self = fold_left MicrogridPOI.init_thermal_step (MicrogridPOI.active base)
           (MicrogridPOI.set_is_sizing_optimization base
              (MicrogridPOI.check_if_sizing_ders base)).
Proof.
  unfold MicrogridPOI.init. intros Hinit.
  set (self0 := MicrogridPOI.set_is_sizing_optimization base
                  (MicrogridPOI.check_if_sizing_ders base)) in *.
  assert (Hact : MicrogridPOI.active self0 = MicrogridPOI.active base)
    by reflexivity.
  destruct (if MicrogridPOI.is_sizing_optimization self0
            then MicrogridPOI.error_checks_on_sizing self0
            else ret tt) as [l [[]|e]]; simpl in Hinit; [|discriminate].
  injection Hinit as _ <-. rewrite Hact. reflexivity.
Qed.

Lemma init_thermal_keeps (ders : list DER.t) (s : MicrogridPOI.t) :
  MicrogridPOI.active (fold_left MicrogridPOI.init_thermal_step ders s)
  = MicrogridPOI.active s.
Proof.
  revert s. induction ders as [|d ders IH]; intros s; simpl; [reflexivity|].
  rewrite IH. reflexivity.
Qed.

Lemma has_variable_add_all (recovered : DER.t -> expr) (start : expr)
    (ders : list DER.t) :
  has_variable (add_all recovered start ders)
  = has_variable start || existsb (fun d => has_variable (recovered d)) ders.
Proof.
  unfold add_all. revert start.
  induction ders as [|d ders IH]; intros start; simpl.
  - rewrite orb_false_r. reflexivity.
  - rewrite IH. simpl. rewrite orb_assoc. reflexivity.
Qed.

Lemma channel_supply_has_variable (flag : DER.t -> bool)
    (recovered : DER.t -> expr) (load : series) (start : expr)
    (ders : list DER.t) :
  has_variable (add_all recovered start (contributors flag (Some load) ders))
    = true
  <-> supply_has_variable start flag recovered ders.
Proof.
  unfold supply_has_variable, contributors. simpl.
  rewrite has_variable_add_all, orb_true_iff, existsb_exists.
  split; (intros [H|(d & H1 & H2)]; [left; exact H|right]).
  - apply List.filter_In in H1 as [Hin Hf].
    exists d. split; [apply list_elem_of_In, Hin|auto].
  - destruct H2 as [Hf Hv]. exists d. split; [|exact Hv].
    apply List.filter_In. split; [apply list_elem_of_In, H1|exact Hf].
Qed.

Section POI_composed.

Variable POI_get_state_of_system :
  MicrogridPOI.t -> Mask -> MicrogridPOI.state_of_system.
Variable POI_optimization_problem :
  MicrogridPOI.t -> Mask -> expr -> expr -> expr -> expr -> expr -> Q ->
  gmap string expr * list constraint.

(** X14. If the last active DER at construction declares neither a steam
    nor a hot water load (an attribute it lacks or [None]), then in the
    POI that was constructed [get_state_of_system] warns about every
    active heat source and leaves the steam and hot water aggregates of
    the base class as they are, whatever an earlier active DER
    declared. *)
Theorem heat_ignored_when_last_der_has_no_load (base self : MicrogridPOI.t)
    (log0 : list event) (d : DER.t) (mask : Mask) :
  MicrogridPOI.init base = (log0, Ok self) ->
  last (MicrogridPOI.active base) = Some d ->
  DER.attr_or_None (DER.site_steam_load d) = None ->
  DER.attr_or_None (DER.site_hotwater_load d) = None ->
  exists log s,
    MicrogridPOI.get_state_of_system POI_get_state_of_system self mask
      = (log, Ok s)
    /\ MicrogridPOI.agg_steam_heating_power s
       = MicrogridPOI.agg_steam_heating_power
           (POI_get_state_of_system self mask)
    /\ MicrogridPOI.agg_hotwater_heating_power s
       = MicrogridPOI.agg_hotwater_heating_power
           (POI_get_state_of_system self mask)
    /\ forall d', d' ∈ MicrogridPOI.active base -> DER.is_hot d' = true ->
         TellUser_warning (MicrogridPOI.heat_warning d') ∈ log.
Proof.
  intros Hinit Hlast Hsteam Hhot.
  pose proof (init_inv _ _ _ Hinit) as Hself.
  destruct (init_thermal_loop (MicrogridPOI.active base)
              (MicrogridPOI.set_is_sizing_optimization base
                 (MicrogridPOI.check_if_sizing_ders base)) d Hlast)
    as (Hs & Hh & _).
  rewrite <- Hself in Hs, Hh. rewrite Hsteam in Hs. rewrite Hhot in Hh.
  assert (Hact : MicrogridPOI.active self = MicrogridPOI.active base)
    by (rewrite Hself, init_thermal_keeps; reflexivity).
  unfold MicrogridPOI.get_state_of_system.
  destruct (state_loop_spec self mask (MicrogridPOI.active self)
              (POI_get_state_of_system self mask))
    as (log & s & E & W & S & H & _).
  exists log, s. split; [exact E|].
  rewrite Hs in S. rewrite Hh in H.
  split; [exact S|]. split; [exact H|].
  intros d' Hin Hd'.
  apply (warning_in_log POI_get_state_of_system _ _ _ _ W).
  exists d'. split; [rewrite Hact; exact Hin|].
  unfold expected_warnings. rewrite Hd', Hs, Hh.
  apply elem_of_app. left. simpl. left.
Qed.

(** X15. When the thermal aggregates that [get_state_of_system] returns
    are given to [optimization_problem] as the supplies, a channel gets
    its balance constraint if and only if its site load is defined and
    either the aggregate of the base class has a free variable or some
    active source of the channel recovers an expression with a free
    variable. *)
Theorem thermal_balance_of_the_state (self : MicrogridPOI.t) (mask : Mask)
    (power_in power_out : expr) (annuity_scalar : Q) :
  let start := POI_get_state_of_system self mask in
  let ders := MicrogridPOI.active self in
  exists log s log' added_steam added_hotwater added_cold,
    MicrogridPOI.get_state_of_system POI_get_state_of_system self mask
      = (log, Ok s)
    /\ (let base :=
          POI_optimization_problem self mask power_in power_out
            (MicrogridPOI.agg_steam_heating_power s)
            (MicrogridPOI.agg_hotwater_heating_power s)
            (MicrogridPOI.agg_thermal_cooling_power s) annuity_scalar in
        MicrogridPOI.optimization_problem POI_optimization_problem self mask
          power_in power_out
          (MicrogridPOI.agg_steam_heating_power s)
          (MicrogridPOI.agg_hotwater_heating_power s)
          (MicrogridPOI.agg_thermal_cooling_power s) annuity_scalar
        = (log', Ok (base.1,
                     base.2 ++ added_steam ++ added_hotwater ++ added_cold)))
    /\ ((exists c, added_steam = [c])
        <-> (exists load, MicrogridPOI.site_steam_load self = Some load)
            /\ supply_has_variable
                 (MicrogridPOI.agg_steam_heating_power start) DER.is_hot
                 (fun d => DER.get_steam_recovered d mask) ders)
    /\ ((exists c, added_hotwater = [c])
        <-> (exists load, MicrogridPOI.site_hotwater_load self = Some load)
            /\ supply_has_variable
                 (MicrogridPOI.agg_hotwater_heating_power start) DER.is_hot
                 (fun d => DER.get_hotwater_recovered d mask) ders)
    /\ ((exists c, added_cold = [c])
        <-> (exists load, MicrogridPOI.site_cooling_load self = Some load)
            /\ supply_has_variable
                 (MicrogridPOI.agg_thermal_cooling_power start) DER.is_cold
                 (fun d => DER.get_cold_recovered d mask) ders).
Proof.
  intros start ders. unfold MicrogridPOI.get_state_of_system.
  destruct (state_loop_spec self mask ders start)
    as (log & s & E & _ & S & H & C).
  fold ders.
  unfold MicrogridPOI.optimization_problem.
  destruct (POI_optimization_problem self mask power_in power_out
              (MicrogridPOI.agg_steam_heating_power s)
              (MicrogridPOI.agg_hotwater_heating_power s)
              (MicrogridPOI.agg_thermal_cooling_power s) annuity_scalar)
    as [obj_expression constraint_list] eqn:Hbase.
  destruct (thermal_balance_rule
              "adding steam thermal power balance constraint"
              (MicrogridPOI.site_steam_load self)
              (MicrogridPOI.agg_steam_heating_power s) constraint_list)
    as (l1 & a1 & E1 & R1 & _).
  destruct (thermal_balance_rule
              "adding hot water thermal power balance constraint"
              (MicrogridPOI.site_hotwater_load self)
              (MicrogridPOI.agg_hotwater_heating_power s)
              (constraint_list ++ a1))
    as (l2 & a2 & E2 & R2 & _).
  destruct (thermal_balance_rule
              "adding thermal cooling power balance constraint"
              (MicrogridPOI.site_cooling_load self)
              (MicrogridPOI.agg_thermal_cooling_power s)
              ((constraint_list ++ a1) ++ a2))
    as (l3 & a3 & E3 & R3 & _).
  exists log, s, (l1 ++ l2 ++ l3 ++ []), a1, a2, a3.
  split; [exact E|]. split.
  { cbv zeta. rewrite Hbase. simpl.
    rewrite E1; simpl. rewrite E2; simpl. rewrite E3; simpl.
    rewrite <- !app_assoc. reflexivity. }
  assert (Hch : forall (site_load : option series) (flag : DER.t -> bool)
                       (recovered : DER.t -> expr) (st agg : expr)
                       (added : list constraint),
            agg = add_all recovered st (contributors flag site_load ders) ->
            ((exists c, added = [c])
             <-> (exists load, site_load = Some load)
                 /\ has_variable agg = true) ->
            ((exists c, added = [c])
             <-> (exists load, site_load = Some load)
                 /\ supply_has_variable st flag recovered ders)).
  { intros site_load flag recovered st agg added -> Hr. rewrite Hr.
    split; intros [[load Hl] Hv]; (split; [eauto|]); subst site_load;
      apply (channel_supply_has_variable flag recovered load st ders);
      exact Hv. }
  split; [exact (Hch _ _ _ _ _ _ S R1)|].
  split; [exact (Hch _ _ _ _ _ _ H R2)|exact (Hch _ _ _ _ _ _ C R3)].
Qed.

End POI_composed.

(** The theorem on the fleet whose CHP comes first and whose PV array,
    which declares no thermal load, comes last. *)
Lemma heat_ignored_when_last_der_has_no_load_witness :
  exists log0 self log s,
    MicrogridPOI.init Samples.poi_chp_first = (log0, Ok self)
    /\ MicrogridPOI.get_state_of_system Samples.base_state self
         [true; true; true] = (log, Ok s)
    /\ TellUser_warning (MicrogridPOI.heat_warning Samples.chp_der) ∈ log.
Proof.
  destruct (MicrogridPOI.init Samples.poi_chp_first) as [log0 [self|e]]
    eqn:Hinit; [|vm_compute in Hinit; discriminate Hinit].
  destruct (heat_ignored_when_last_der_has_no_load Samples.base_state
              Samples.poi_chp_first self log0 Samples.pv1 [true; true; true]
              Hinit eq_refl eq_refl eq_refl)
    as (log & s & Hrun & _ & _ & Hwarn).
  exists log0, self, log, s.
  split; [reflexivity|]. split; [exact Hrun|].
  apply Hwarn; [left|reflexivity].
Defined.

(** ** POI: more on the merged report *)

Lemma merge_reports_inv (self : MicrogridPOI.t) (is_dispatch_opt : bool)
    (index : list Z) (final monthly_data : table) :
  MicrogridPOI.merge_reports self is_dispatch_opt index
    = Ok (final, monthly_data) ->
  exists results tl tol tg tsp,
    MicrogridPOI.merge_loop self is_dispatch_opt index
      = Ok (results, monthly_data)
    /\ getitem MicrogridPOI.TOTAL_LOAD results = Ok tl
    /\ getitem MicrogridPOI.TOTAL_ORIGINAL_LOAD results = Ok tol
    /\ getitem MicrogridPOI.TOTAL_GENERATION results = Ok tg
    /\ getitem MicrogridPOI.TOTAL_STORAGE_POWER results = Ok tsp
    /\ final = setitem MicrogridPOI.NET_LOAD (sub (sub tl tg) tsp)
                 (if all_eq tl tol
                  then drop MicrogridPOI.TOTAL_ORIGINAL_LOAD results
                  else results).
Proof.
  intros Hrun.
  destruct (MicrogridPOI.merge_loop self is_dispatch_opt index)
    as [[results m]|e] eqn:Hloop.
  - destruct (merge_reports_after_loop _ _ _ _ _ Hloop)
      as (tl & tol & tg & tsp & Htl & Htol & Htg & Htsp & Hrun').
    rewrite Hrun' in Hrun. injection Hrun as <- <-.
    exists results, tl, tol, tg, tsp. auto 10.
  - unfold MicrogridPOI.merge_reports in Hrun. rewrite Hloop in Hrun.
    discriminate Hrun.
Qed.

Lemma merge_step_monthly (is_dispatch_opt : bool)
    (results monthly_data results' monthly_data' : table) (der : DER.t) :
  MicrogridPOI.merge_step is_dispatch_opt (results, monthly_data) der
    = Ok (results', monthly_data') ->
  monthly_data' = monthly_data ++ DER.monthly_report der.
Proof.
  unfold MicrogridPOI.merge_step. intros Hrun.
  cbv beta iota zeta in Hrun.
  match type of Hrun with
  | rbind ?x _ = _ => destruct x
  end.
  - simpl in Hrun. injection Hrun as _ <-. reflexivity.
  - simpl in Hrun. discriminate Hrun.
Qed.

Lemma merge_loop_monthly (is_dispatch_opt : bool) (ders : list DER.t)
    (results monthly_data results' monthly_data' : table) :
  forR ders (MicrogridPOI.merge_step is_dispatch_opt) (results, monthly_data)
    = Ok (results', monthly_data') ->
  monthly_data' = monthly_data ++ flat_map DER.monthly_report ders.
Proof.
  revert results monthly_data.
  induction ders as [|d ders IH]; intros results monthly_data; cbn [forR].
  - intros [= _ <-]. rewrite app_nil_r. reflexivity.
  - destruct (MicrogridPOI.merge_step is_dispatch_opt (results, monthly_data) d)
      as [[r1 m1]|e] eqn:E; cbn [rbind]; [|discriminate].
    intros Hrun. apply IH in Hrun. apply merge_step_monthly in E.
    rewrite Hrun, E. cbn [flat_map]. rewrite <- app_assoc. reflexivity.
Qed.

(** X16. When [merge_reports] returns, the monthly table it returns is
    the monthly reports of the DERs of the DER list side by side, in the
    order of the list. *)
Theorem merge_reports_monthly (self : MicrogridPOI.t) (is_dispatch_opt : bool)
    (index : list Z) (final monthly_data : table) :
  MicrogridPOI.merge_reports self is_dispatch_opt index
    = Ok (final, monthly_data) ->
  monthly_data = flat_map DER.monthly_report (MicrogridPOI.der_list self).
Proof.
  intros Hrun.
  destruct (merge_reports_inv _ _ _ _ _ Hrun) as (results & _ & _ & _ & _ & Hloop & _).
  unfold MicrogridPOI.merge_loop in Hloop.
  apply merge_loop_monthly in Hloop. exact Hloop.
Qed.

Lemma has_col_drop_ne (c x : string) (df : table) :
  c <> x -> has_col x (drop c df) = has_col x df.
Proof.
  intros Hne. induction df as [|[c0 ys] df IH]; simpl; [reflexivity|].
  destruct (String.eqb c0 c) eqn:E; simpl.
  - apply String.eqb_eq in E. subst c0.
    apply String.eqb_neq in Hne. rewrite Hne. exact IH.
  - rewrite IH. reflexivity.
Qed.

Lemma getitem_raise (c : string) (df : table) (e : exn) :
  getitem c df = Raise e -> e = KeyError.
Proof.
  induction df as [|[c0 ys] df IH]; simpl; [congruence|].
  destruct (String.eqb c0 c); [discriminate|exact IH].
Qed.

(** [+=] on a column neither adds nor removes a column. *)
Lemma iadd_has_col_eq (c c' x : string) (df df' : table) :
  iadd c c' df = Ok df' -> has_col x df' = has_col x df.
Proof.
  unfold iadd. destruct (getitem c df) as [xs|] eqn:Hc; simpl; [|discriminate].
  destruct (getitem c' df) as [ys|]; simpl; [|discriminate].
  intros [= <-]. rewrite has_col_setitem.
  destruct (String.eqb c x) eqn:E; [|apply orb_false_r].
  apply String.eqb_eq in E. subst x.
  assert (has_col c df = true) by (apply has_col_getitem; eauto).
  rewrite H. reflexivity.
Qed.

Lemma iadd_raise (c c' : string) (df : table) (e : exn) :
  iadd c c' df = Raise e -> e = KeyError.
Proof.
  unfold iadd. destruct (getitem c df) as [xs|e1] eqn:Hc; simpl.
  - destruct (getitem c' df) as [ys|e2] eqn:Hc'; simpl; [discriminate|].
    intros [= <-]. apply (getitem_raise _ _ _ Hc').
  - intros [= <-]. apply (getitem_raise _ _ _ Hc).
Qed.

(** One turn of the loop puts the columns of the report beside those of
    the results, and no other. *)
Lemma merge_step_cols (is_dispatch_opt : bool) (x : string)
    (results monthly_data results' monthly_data' : table) (der : DER.t) :
  MicrogridPOI.merge_step is_dispatch_opt (results, monthly_data) der
    = Ok (results', monthly_data') ->
  has_col x results'
  = has_col x (DER.timeseries_report der) || has_col x results.
Proof.
  unfold MicrogridPOI.merge_step. intros Hrun.
  rewrite <- has_col_app. change (DER.timeseries_report der ++ results)
    with (concat (DER.timeseries_report der) results).
  revert Hrun.
  generalize (concat (DER.timeseries_report der) results) as r0.
  intros r0 Hrun.
  assert (H0 : has_col x r0 = has_col x r0) by reflexivity.
  revert H0. generalize (has_col x r0) at 1 3 as b. intros b H0.
  destruct is_dispatch_opt; simpl in Hrun.
  - destruct (String.eqb (DER.technology_type der) "Generator"
              || String.eqb (DER.technology_type der) "Intermittent Resource");
      destruct (String.eqb (DER.technology_type der) "Energy Storage System");
      destruct (String.eqb (DER.technology_type der) "Load");
      destruct (String.eqb (DER.tag der) "ControllableLoad");
      destruct (String.eqb (DER.technology_type der) "Electric Vehicle");
      destruct (String.eqb (DER.tag der) "ElectricVehicle1");
      simpl in Hrun;
      repeat match goal with
        | H : context [iadd ?c ?c' ?df] |- _ =>
            let E := fresh "E" in
            let t := fresh "t" in
            destruct (iadd c c' df) as [t|] eqn:E; simpl in H;
            [rewrite <- (iadd_has_col_eq _ _ x _ _ E) in H0; clear E
            |discriminate H]
        end;
      injection Hrun as <- _; symmetry; exact H0.
  - injection Hrun as <- _. symmetry. exact H0.
Qed.

Lemma merge_loop_cols (is_dispatch_opt : bool) (x : string)
    (ders : list DER.t) (results monthly_data results' monthly_data' : table) :
  forR ders (MicrogridPOI.merge_step is_dispatch_opt) (results, monthly_data)
    = Ok (results', monthly_data') ->
  has_col x results'
  = existsb (fun d => has_col x (DER.timeseries_report d)) ders
    || has_col x results.
Proof.
  revert results monthly_data.
  induction ders as [|d ders IH]; intros results monthly_data; cbn [forR].
  - intros [= <- _]. reflexivity.
  - destruct (MicrogridPOI.merge_step is_dispatch_opt (results, monthly_data) d)
      as [[r1 m1]|e] eqn:E; cbn [rbind]; [|discriminate].
    intros Hrun. apply IH in Hrun. rewrite Hrun.
    rewrite (merge_step_cols _ x _ _ _ _ _ E). simpl.
    rewrite orb_assoc, (orb_comm (existsb _ ders)). reflexivity.
Qed.

(** X17. When [merge_reports] returns, a label other than
    [Total Original Load (kW)] is a column of the time-series table it
    returns if and only if it is [Net Load (kW)], one of the five
    aggregate columns, or a column of the time-series report of some DER
    of the DER list: no column of a report is lost and none is
    invented. *)
Theorem merge_reports_columns (self : MicrogridPOI.t) (is_dispatch_opt : bool)
    (index : list Z) (final monthly_data : table) (x : string) :
  MicrogridPOI.merge_reports self is_dispatch_opt index
    = Ok (final, monthly_data) ->
  x <> MicrogridPOI.TOTAL_ORIGINAL_LOAD ->
  has_col x final = true
  <-> x = MicrogridPOI.NET_LOAD
      \/ x ∈ AGGREGATES
      \/ exists d, d ∈ MicrogridPOI.der_list self
                   /\ has_col x (DER.timeseries_report d) = true.
Proof.
  intros Hrun Hx.
  destruct (merge_reports_inv _ _ _ _ _ Hrun)
    as (results & tl & tol & tg & tsp & Hloop & _ & _ & _ & _ & ->).
  unfold MicrogridPOI.merge_loop in Hloop.
  apply (merge_loop_cols _ x) in Hloop.
  rewrite has_col_setitem.
  assert (Hkeep : has_col x (if all_eq tl tol
                             then drop MicrogridPOI.TOTAL_ORIGINAL_LOAD results
                             else results) = has_col x results).
  { destruct (all_eq tl tol); [|reflexivity].
    apply has_col_drop_ne. congruence. }
  rewrite Hkeep, Hloop, !orb_true_iff, existsb_exists.
  rewrite (String.eqb_eq MicrogridPOI.NET_LOAD x).
  assert (Hagg : has_col x
                   (setitem MicrogridPOI.AGG_STATE_OF_ENERGY
                      (broadcast (length index) 0)
                      (setitem MicrogridPOI.TOTAL_STORAGE_POWER
                         (broadcast (length index) 0)
                         (setitem MicrogridPOI.TOTAL_GENERATION
                            (broadcast (length index) 0)
                            (setitem MicrogridPOI.TOTAL_LOAD
                               (broadcast (length index) 0)
                               (setitem MicrogridPOI.TOTAL_ORIGINAL_LOAD
                                  (broadcast (length index) 0) []))))) = true
                 <-> x ∈ AGGREGATES).
  { unfold AGGREGATES. rewrite !has_col_setitem.
    change (has_col x []) with false.
    rewrite !orb_true_iff, !elem_of_cons, elem_of_nil.
    rewrite (String.eqb_eq MicrogridPOI.TOTAL_ORIGINAL_LOAD x),
      (String.eqb_eq MicrogridPOI.TOTAL_LOAD x),
      (String.eqb_eq MicrogridPOI.TOTAL_GENERATION x),
      (String.eqb_eq MicrogridPOI.TOTAL_STORAGE_POWER x),
      (String.eqb_eq MicrogridPOI.AGG_STATE_OF_ENERGY x).
    intuition congruence. }
  rewrite Hagg. split.
  - intros [[(d & Hin & Hd)|H]|H]; auto.
    right. right. exists d. split; [apply list_elem_of_In, Hin|exact Hd].
  - intros [H|[H|(d & Hin & Hd)]]; auto.
    left. left. exists d. split; [apply list_elem_of_In, Hin|exact Hd].
Qed.

(** *** The report calls *)

Lemma add_to_totals_raise (is_dispatch_opt : bool) (der : DER.t)
    (results : table) (e : exn) :
  MergeReports.add_to_totals is_dispatch_opt der results = Raise e ->
  is_dispatch_opt = true /\ e = KeyError.
Proof.
  unfold MergeReports.add_to_totals. intros Hrun.
  destruct is_dispatch_opt; simpl in Hrun; [|discriminate Hrun].
  split; [reflexivity|].
  destruct (String.eqb (DER.technology_type der) "Generator"
            || String.eqb (DER.technology_type der) "Intermittent Resource");
    destruct (String.eqb (DER.technology_type der) "Energy Storage System");
    destruct (String.eqb (DER.technology_type der) "Load");
    destruct (String.eqb (DER.tag der) "ControllableLoad");
    destruct (String.eqb (DER.technology_type der) "Electric Vehicle");
    destruct (String.eqb (DER.tag der) "ElectricVehicle1");
    simpl in Hrun;
    repeat match goal with
      | H : context [iadd ?c ?c' ?df] |- _ =>
          let E := fresh "E" in
          let t := fresh "t" in
          destruct (iadd c c' df) as [t|] eqn:E; simpl in H;
          [clear E
          |injection H as <-; exact (iadd_raise _ _ _ _ E)]
      end;
    discriminate Hrun.
Qed.

Lemma add_to_totals_has_col (is_dispatch_opt : bool) (x : string)
    (der : DER.t) (results results' : table) :
  MergeReports.add_to_totals is_dispatch_opt der results = Ok results' ->
  has_col x results = true -> has_col x results' = true.
Proof.
  unfold MergeReports.add_to_totals. intros Hrun H0.
  destruct is_dispatch_opt; simpl in Hrun.
  - destruct (String.eqb (DER.technology_type der) "Generator"
              || String.eqb (DER.technology_type der) "Intermittent Resource");
      destruct (String.eqb (DER.technology_type der) "Energy Storage System");
      destruct (String.eqb (DER.technology_type der) "Load");
      destruct (String.eqb (DER.tag der) "ControllableLoad");
      destruct (String.eqb (DER.technology_type der) "Electric Vehicle");
      destruct (String.eqb (DER.tag der) "ElectricVehicle1");
      simpl in Hrun;
      repeat match goal with
        | H : context [iadd ?c ?c' ?df] |- _ =>
            let E := fresh "E" in
            let t := fresh "t" in
            destruct (iadd c c' df) as [t|] eqn:E; simpl in H;
            [apply (iadd_has_col _ _ x _ _ E) in H0; clear E
            |discriminate H]
        end;
      injection Hrun as <-; exact H0.
  - injection Hrun as <-. exact H0.
Qed.

(** The loop of [MicrogridPOI] is this one when the calls return the
    tables that the DERs hold. *)
Lemma merge_step_of_held_reports (is_dispatch_opt : bool)
    (acc : table * table) (der : DER.t) :
  MergeReports.merge_step (fun d => Ok (DER.timeseries_report d))
    (fun d => Ok (DER.monthly_report d)) is_dispatch_opt acc der
  = MicrogridPOI.merge_step is_dispatch_opt acc der.
Proof. destruct acc as [results monthly_data]. reflexivity. Qed.

Section ReportCalls.

Variable timeseries_report : DER.t -> result table.
Variable monthly_report : DER.t -> result table.

Lemma merge_step_calls_raise (is_dispatch_opt : bool) (acc : table * table)
    (der : DER.t) (e : exn) :
  MergeReports.merge_step timeseries_report monthly_report is_dispatch_opt
    acc der = Raise e ->
  (is_dispatch_opt = true /\ e = KeyError) \/ report_raised timeseries_report monthly_report der e.
Proof.
  destruct acc as [results monthly_data].
  unfold MergeReports.merge_step, report_raised.
  destruct (timeseries_report der) as [report_df|e1]; cbn [rbind];
    [|intros [= <-]; auto].
  destruct (MergeReports.add_to_totals is_dispatch_opt der
              (concat report_df results)) as [r|e2] eqn:E; cbn [rbind].
  - destruct (monthly_report der) as [report|e3]; cbn [rbind];
      [discriminate|intros [= <-]; auto].
  - intros [= <-]. left. apply (add_to_totals_raise _ _ _ _ E).
Qed.

Lemma merge_step_calls_ok (is_dispatch_opt : bool) (x : string)
    (results monthly_data results' monthly_data' : table) (der : DER.t) :
  MergeReports.merge_step timeseries_report monthly_report is_dispatch_opt
    (results, monthly_data) der = Ok (results', monthly_data') ->
  reports_returned timeseries_report monthly_report der
  /\ (has_col x results = true -> has_col x results' = true).
Proof.
  unfold MergeReports.merge_step, reports_returned.
  destruct (timeseries_report der) as [report_df|e1]; cbn [rbind];
    [|discriminate].
  destruct (MergeReports.add_to_totals is_dispatch_opt der
              (concat report_df results)) as [r|e2] eqn:E; cbn [rbind];
    [|discriminate].
  destruct (monthly_report der) as [report|e3]; cbn [rbind]; [|discriminate].
  intros [= <- _]. split; [eauto|].
  intros Hx. apply (add_to_totals_has_col _ x _ _ _ E).
  unfold concat. rewrite has_col_app, Hx. apply orb_true_r.
Qed.

Lemma merge_loop_calls_raise (is_dispatch_opt : bool) (ders : list DER.t)
    (acc : table * table) (e : exn) :
  forR ders
    (MergeReports.merge_step timeseries_report monthly_report is_dispatch_opt)
    acc = Raise e ->
  (is_dispatch_opt = true /\ e = KeyError)
  \/ exists d, d ∈ ders /\ report_raised timeseries_report monthly_report d e.
Proof.
  revert acc. induction ders as [|d ders IH]; intros acc; cbn [forR].
  - discriminate.
  - destruct (MergeReports.merge_step timeseries_report monthly_report
                is_dispatch_opt acc d) as [acc1|e1] eqn:E; cbn [rbind].
    + intros Hrun. destruct (IH _ Hrun) as [H|(d' & Hin & H)]; [auto|].
      right. exists d'. split; [apply elem_of_cons; right; exact Hin|exact H].
    + intros [= <-].
      destruct (merge_step_calls_raise _ _ _ _ E) as [H|H]; [auto|].
      right. exists d. split; [apply elem_of_cons; left; reflexivity|exact H].
Qed.

Lemma merge_loop_calls_ok (is_dispatch_opt : bool) (x : string)
    (ders : list DER.t) (results monthly_data results' monthly_data' : table) :
  forR ders
    (MergeReports.merge_step timeseries_report monthly_report is_dispatch_opt)
    (results, monthly_data) = Ok (results', monthly_data') ->
  (forall d, d ∈ ders -> reports_returned timeseries_report monthly_report d)
  /\ (has_col x results = true -> has_col x results' = true).
Proof.
  revert results monthly_data.
  induction ders as [|d ders IH]; intros results monthly_data; cbn [forR].
  - intros [= <- _]. split; [intros d Hd; inversion Hd|auto].
  - destruct (MergeReports.merge_step timeseries_report monthly_report
                is_dispatch_opt (results, monthly_data) d)
      as [[r1 m1]|e1] eqn:E; cbn [rbind]; [|discriminate].
    intros Hrun. destruct (IH _ _ Hrun) as [Hall Hcol].
    destruct (merge_step_calls_ok _ x _ _ _ _ _ E) as [Hd Hcol1].
    split; [|auto].
    intros d' Hin. apply elem_of_cons in Hin as [->|Hin]; auto.
Qed.

(** After the loop [merge_reports] raises nothing: the columns that it
    reads were set before the loop and are kept by it. *)
Lemma merge_reports_calls_after_loop (self : MicrogridPOI.t)
    (is_dispatch_opt : bool) (index : list Z) (results monthly_data : table) :
  MergeReports.merge_loop timeseries_report monthly_report self
    is_dispatch_opt index = Ok (results, monthly_data) ->
  exists final,
    MergeReports.merge_reports timeseries_report monthly_report self
      is_dispatch_opt index = Ok (final, monthly_data).
Proof.
  intros Hloop.
  assert (Hcol : forall x,
             x ∈ [MicrogridPOI.TOTAL_ORIGINAL_LOAD; MicrogridPOI.TOTAL_LOAD;
                  MicrogridPOI.TOTAL_GENERATION;
                  MicrogridPOI.TOTAL_STORAGE_POWER] ->
             exists xs, getitem x results = Ok xs).
  { intros x Hx. apply has_col_getitem.
    assert (Hloop' := Hloop). unfold MergeReports.merge_loop in Hloop'.
    destruct (merge_loop_calls_ok _ x _ _ _ _ _ Hloop') as [_ Hc]. apply Hc.
    repeat (apply elem_of_cons in Hx as [->|Hx]; [reflexivity|]).
    inversion Hx. }
  destruct (Hcol MicrogridPOI.TOTAL_ORIGINAL_LOAD) as [tol Htol];
    [repeat constructor|].
  destruct (Hcol MicrogridPOI.TOTAL_LOAD) as [tl Htl]; [repeat constructor|].
  destruct (Hcol MicrogridPOI.TOTAL_GENERATION) as [tg Htg];
    [repeat constructor|].
  destruct (Hcol MicrogridPOI.TOTAL_STORAGE_POWER) as [tsp Htsp];
    [repeat constructor|].
  unfold MergeReports.merge_reports. rewrite Hloop. simpl.
  rewrite Htl, Htol. simpl.
  destruct (all_eq tl tol).
  - rewrite !getitem_drop_ne by discriminate.
    rewrite Htl, Htg, Htsp. eexists. reflexivity.
  - rewrite Htl, Htg, Htsp. eexists. reflexivity.
Qed.

End ReportCalls.

Lemma merge_loop_of_held_reports (timeseries_report monthly_report
                                    : DER.t -> result table)
    (is_dispatch_opt : bool) (ders : list DER.t) (acc : table * table) :
  (forall d, d ∈ ders ->
     timeseries_report d = Ok (DER.timeseries_report d)
     /\ monthly_report d = Ok (DER.monthly_report d)) ->
  forR ders
    (MergeReports.merge_step timeseries_report monthly_report is_dispatch_opt)
    acc
  = forR ders (MicrogridPOI.merge_step is_dispatch_opt) acc.
Proof.
  revert acc. induction ders as [|d ders IH]; intros acc Hheld; cbn [forR];
    [reflexivity|].
  assert (Hstep : MergeReports.merge_step timeseries_report monthly_report
                    is_dispatch_opt acc d
                  = MicrogridPOI.merge_step is_dispatch_opt acc d).
  { rewrite <- merge_step_of_held_reports.
    destruct acc as [results monthly_data]. unfold MergeReports.merge_step.
    destruct (Hheld d) as [-> ->]; [apply elem_of_cons; left; reflexivity|]. reflexivity. }
  rewrite Hstep.
  destruct (MicrogridPOI.merge_step is_dispatch_opt acc d) as [acc1|e];
    cbn [rbind]; [|reflexivity].
  apply IH. intros d' Hin. apply Hheld. apply elem_of_cons. right. exact Hin.
Qed.

(** X18. [merge_reports] calls [timeseries_report()] and
    [monthly_report()] of every DER of the list, and each call returns a
    table or raises.
    - An exception that [merge_reports] raises is one that a report call
      of a DER of the list raised or, in a dispatch optimisation only, a
      [KeyError].
    - If [merge_reports] returns, the two calls of every DER returned;
      outside a dispatch optimisation it returns exactly then.
    - When the calls return the tables that the DERs of the model hold,
      it is [MicrogridPOI.merge_reports]. *)
Theorem merge_reports_exceptions
    (timeseries_report monthly_report : DER.t -> result table)
    (self : MicrogridPOI.t) (index : list Z) :
  (forall is_dispatch_opt e,
      MergeReports.merge_reports timeseries_report monthly_report self
        is_dispatch_opt index = Raise e ->
      (is_dispatch_opt = true /\ e = KeyError)
      \/ exists d, d ∈ MicrogridPOI.der_list self
                   /\ report_raised timeseries_report monthly_report d e)
  /\ (forall is_dispatch_opt final monthly_data,
        MergeReports.merge_reports timeseries_report monthly_report self
          is_dispatch_opt index = Ok (final, monthly_data) ->
        forall d, d ∈ MicrogridPOI.der_list self ->
                  reports_returned timeseries_report monthly_report d)
  /\ ((forall d, d ∈ MicrogridPOI.der_list self ->
                 reports_returned timeseries_report monthly_report d) ->
      exists final monthly_data,
        MergeReports.merge_reports timeseries_report monthly_report self
          false index = Ok (final, monthly_data))
  /\ ((forall d, d ∈ MicrogridPOI.der_list self ->
         timeseries_report d = Ok (DER.timeseries_report d)
         /\ monthly_report d = Ok (DER.monthly_report d)) ->
      forall is_dispatch_opt,
        MergeReports.merge_reports timeseries_report monthly_report self
          is_dispatch_opt index
        = MicrogridPOI.merge_reports self is_dispatch_opt index).
Proof.
  assert (Hraise : forall is_dispatch_opt e,
      MergeReports.merge_reports timeseries_report monthly_report self
        is_dispatch_opt index = Raise e ->
      (is_dispatch_opt = true /\ e = KeyError)
      \/ exists d, d ∈ MicrogridPOI.der_list self
                   /\ report_raised timeseries_report monthly_report d e).
  { intros is_dispatch_opt e Hrun.
    destruct (MergeReports.merge_loop timeseries_report monthly_report self
                is_dispatch_opt index) as [[results m]|e'] eqn:Hloop.
    - destruct (merge_reports_calls_after_loop _ _ _ _ _ _ _ Hloop)
        as [final Hrun'].
      rewrite Hrun' in Hrun. discriminate Hrun.
    - unfold MergeReports.merge_reports in Hrun. rewrite Hloop in Hrun.
      simpl in Hrun. injection Hrun as <-.
      unfold MergeReports.merge_loop in Hloop.
      apply (merge_loop_calls_raise _ _ _ _ _ _ Hloop). }
  split; [exact Hraise|]. split; [|split].
  - intros is_dispatch_opt final monthly_data Hrun.
    destruct (MergeReports.merge_loop timeseries_report monthly_report self
                is_dispatch_opt index) as [[results m]|e'] eqn:Hloop.
    + unfold MergeReports.merge_loop in Hloop.
      apply (merge_loop_calls_ok _ _ _ MicrogridPOI.TOTAL_LOAD) in Hloop
        as [Hall _].
      exact Hall.
    + unfold MergeReports.merge_reports in Hrun. rewrite Hloop in Hrun.
      discriminate Hrun.
  - intros Hall.
    destruct (MergeReports.merge_reports timeseries_report monthly_report
                self false index) as [[final monthly_data]|e] eqn:Hrun;
      [eauto|].
    destruct (Hraise _ _ Hrun) as [[H _]|(d & Hin & Hd)]; [discriminate H|].
    destruct (Hall d Hin) as [[r Hr] [r' Hr']].
    destruct Hd as [Hd|Hd]; congruence.
  - intros Hheld is_dispatch_opt.
    unfold MergeReports.merge_reports, MicrogridPOI.merge_reports,
      MergeReports.merge_loop, MicrogridPOI.merge_loop.
    rewrite (merge_loop_of_held_reports _ _ _ _ _ Hheld). reflexivity.
Qed.

(** A fleet whose CHP has not been solved for: its [timeseries_report()]
    raises the [KeyError] of the missing variable, the battery's returns
    the battery's table. [merge_reports] then raises that [KeyError],
    also outside a dispatch optimisation; and another exception of a
    report call comes out as it is. *)
Example merge_reports_report_raises :
  MergeReports.merge_reports
    (fun d => if String.eqb (DER.tag d) "CHP" then Raise KeyError
              else Ok (DER.timeseries_report d))
    (fun d => Ok (DER.monthly_report d))
    Samples.poi_chp_last false Samples.three_steps
  = Raise KeyError
  /\ MergeReports.merge_reports
       (fun d => Ok (DER.timeseries_report d))
       (fun d => if String.eqb (DER.tag d) "CHP" then Raise AttributeError
                 else Ok (DER.monthly_report d))
       Samples.poi_chp_last true Samples.three_steps
     = Raise AttributeError.
Proof. split; reflexivity. Qed.

Lemma getitem_app_r (x : string) (df1 df2 : table) :
  has_col x df1 = false -> getitem x (df1 ++ df2) = getitem x df2.
Proof.
  induction df1 as [|[c xs] df1 IH]; simpl; [reflexivity|].
  destruct (String.eqb c x); simpl; [discriminate|exact IH].
Qed.

Lemma getitem_app_l (x : string) (df1 df2 : table) :
  has_col x df1 = true -> getitem x (df1 ++ df2) = getitem x df1.
Proof.
  induction df1 as [|[c xs] df1 IH]; simpl; [discriminate|].
  destruct (String.eqb c x); simpl; [reflexivity|exact IH].
Qed.

Lemma merge_loop_false_getitem (x : string) (ders : list DER.t)
    (results monthly_data results' monthly_data' : table) :
  forR ders (MicrogridPOI.merge_step false) (results, monthly_data)
    = Ok (results', monthly_data') ->
  (forall d, d ∈ ders -> has_col x (DER.timeseries_report d) = false) ->
  getitem x results' = getitem x results.
Proof.
  revert results monthly_data.
  induction ders as [|d ders IH]; intros results monthly_data; cbn [forR].
  - intros [= <- _] _. reflexivity.
  - change (MicrogridPOI.merge_step false (results, monthly_data) d)
      with (Ok (concat (DER.timeseries_report d) results,
                concat monthly_data (DER.monthly_report d))).
    cbn [rbind]. intros Hrun Hfree.
    rewrite (IH _ _ Hrun) by (intros d' Hd'; apply Hfree; right; exact Hd').
    apply getitem_app_r, Hfree. left.
Qed.

Lemma all_eq_refl (xs : series) : all_eq xs xs = true.
Proof.
  apply all_eq_true. intros i x y Hx Hy.
  rewrite Hx in Hy. injection Hy as <-. reflexivity.
Qed.

Lemma sub_broadcast (n : nat) (a b : Q) :
  sub (broadcast n a) (broadcast n b) = broadcast n (a - b)%Q.
Proof.
  unfold sub, broadcast. induction n as [|n IH]; simpl; [reflexivity|].
  rewrite IH. reflexivity.
Qed.

(** X19. Outside a dispatch optimisation, and with reports that do not
    use the labels of the four load, generation and storage totals, the
    table that [merge_reports] returns has these totals and the net load
    at zero on every row of the index, and no column
    [Total Original Load (kW)]. *)
Theorem merge_reports_without_dispatch (self : MicrogridPOI.t)
    (index : list Z) :
  reports_free_of
    [MicrogridPOI.TOTAL_ORIGINAL_LOAD; MicrogridPOI.TOTAL_LOAD;
     MicrogridPOI.TOTAL_GENERATION; MicrogridPOI.TOTAL_STORAGE_POWER]
    (MicrogridPOI.der_list self) ->
  let zeros := broadcast (length index) 0 in
  exists final monthly_data,
    MicrogridPOI.merge_reports self false index = Ok (final, monthly_data)
    /\ has_col MicrogridPOI.TOTAL_ORIGINAL_LOAD final = false
    /\ getitem MicrogridPOI.TOTAL_LOAD final = Ok zeros
    /\ getitem MicrogridPOI.TOTAL_GENERATION final = Ok zeros
    /\ getitem MicrogridPOI.TOTAL_STORAGE_POWER final = Ok zeros
    /\ getitem MicrogridPOI.NET_LOAD final = Ok zeros.
Proof.
  intros Hfree zeros.
  destruct (merge_loop_no_dispatch self index) as (results & m & Hloop).
  destruct (merge_reports_after_loop _ _ _ _ _ Hloop)
    as (tl & tol & tg & tsp & Htl & Htol & Htg & Htsp & Hrun).
  unfold MicrogridPOI.merge_loop in Hloop.
  assert (Hget : forall x,
            x ∈ [MicrogridPOI.TOTAL_ORIGINAL_LOAD; MicrogridPOI.TOTAL_LOAD;
                 MicrogridPOI.TOTAL_GENERATION;
                 MicrogridPOI.TOTAL_STORAGE_POWER] ->
            getitem x results = Ok zeros).
  { intros x Hx.
    rewrite (merge_loop_false_getitem x _ _ _ _ _ Hloop)
      by (intros d Hd; apply (Hfree d x Hd Hx)).
    repeat (apply elem_of_cons in Hx as [->|Hx]; [reflexivity|]).
    inversion Hx. }
  rewrite (Hget MicrogridPOI.TOTAL_LOAD) in Htl by (right; left).
  rewrite (Hget MicrogridPOI.TOTAL_ORIGINAL_LOAD) in Htol by left.
  rewrite (Hget MicrogridPOI.TOTAL_GENERATION) in Htg by (do 2 right; left).
  rewrite (Hget MicrogridPOI.TOTAL_STORAGE_POWER) in Htsp
    by (do 3 right; left).
  injection Htl as <-. injection Htol as <-.
  injection Htg as <-. injection Htsp as <-.
  rewrite all_eq_refl in Hrun.
  eexists _, _. split; [exact Hrun|].
  rewrite has_col_setitem, has_col_drop_eq.
  split; [reflexivity|].
  rewrite !getitem_setitem_ne by discriminate.
  rewrite !getitem_drop_ne by discriminate.
  rewrite (Hget MicrogridPOI.TOTAL_LOAD) by (right; left).
  rewrite (Hget MicrogridPOI.TOTAL_GENERATION) by (do 2 right; left).
  rewrite (Hget MicrogridPOI.TOTAL_STORAGE_POWER) by (do 3 right; left).
  repeat (split; [reflexivity|]).
  rewrite getitem_setitem_eq. unfold zeros. rewrite !sub_broadcast.
  reflexivity.
Qed.

Lemma ends_with_refl (s : string) : ends_with s s = true.
Proof.
  assert (Hrefl : String.eqb s s = true) by (apply String.eqb_eq; reflexivity).
  destruct s; cbn [ends_with]; rewrite Hrefl; reflexivity.
Qed.

Lemma ends_with_append (p s : string) : ends_with s (p +:+ s) = true.
Proof.
  induction p as [|c p IH].
  - change ("" +:+ s) with s. apply ends_with_refl.
  - change (String c p +:+ s) with (String c (p +:+ s)).
    cbn [ends_with]. rewrite IH. apply orb_true_r.
Qed.

(** No identifier makes the label of a generation column one of the
    aggregate labels. *)
Lemma generation_label_not_aggregate (d : DER.t) :
  generation_label d ∉ AGGREGATES.
Proof.
  unfold generation_label, AGGREGATES. intros Hin.
  pose proof (ends_with_append (DER.unique_tech_id d)
                " Electric Generation (kW)") as Hend.
  repeat (apply elem_of_cons in Hin as [Heq|Hin];
          [rewrite Heq in Hend; vm_compute in Hend; discriminate Hend|]).
  inversion Hin.
Qed.

Lemma forR_app {A S} (body : S -> A -> result S) (l1 l2 : list A) (s : S) :
  forR (l1 ++ l2) body s
  = rbind (forR l1 body s) (fun s1 => forR l2 body s1).
Proof.
  revert s. induction l1 as [|x l1 IH]; intros s; simpl; [reflexivity|].
  destruct (body s x); simpl; [apply IH|reflexivity].
Qed.

(** In a dispatch optimisation, the turn of the loop for a generator
    reads its generation column in the results. *)
Lemma merge_step_generation (results monthly_data results' monthly_data' : table)
    (der : DER.t) :
  is_generation der = true ->
  MicrogridPOI.merge_step true (results, monthly_data) der
    = Ok (results', monthly_data') ->
  has_col (generation_label der) (DER.timeseries_report der ++ results) = true.
Proof.
  unfold MicrogridPOI.merge_step, is_generation. intros Hgen Hrun.
  cbv beta iota zeta in Hrun. rewrite Hgen in Hrun.
  fold (generation_label der) in Hrun.
  destruct (iadd MicrogridPOI.TOTAL_GENERATION (generation_label der)
              (concat (DER.timeseries_report der) results))
    as [r1|e] eqn:E; [|discriminate Hrun].
  unfold iadd in E.
  destruct (getitem MicrogridPOI.TOTAL_GENERATION
              (concat (DER.timeseries_report der) results));
    simpl in E; [|discriminate E].
  destruct (getitem (generation_label der)
              (concat (DER.timeseries_report der) results)) eqn:Hg;
    simpl in E; [|discriminate E].
  apply has_col_getitem. eauto.
Qed.

(** X20. In a dispatch optimisation, [merge_reports] returns only if
    every generator or intermittent resource of the DER list finds its
    column [<id> Electric Generation (kW)] in its own time-series report
    or in the report of a DER that comes before it in the list. *)
Theorem merge_reports_needs_generation_column (self : MicrogridPOI.t)
    (index : list Z) (final monthly_data : table)
    (pre rest : list DER.t) (d : DER.t) :
  MicrogridPOI.merge_reports self true index = Ok (final, monthly_data) ->
  MicrogridPOI.der_list self = pre ++ d :: rest ->
  is_generation d = true ->
  exists d', d' ∈ pre ++ [d]
             /\ has_col (generation_label d) (DER.timeseries_report d') = true.
Proof.
  intros Hrun Hl Hgen.
  destruct (merge_reports_inv _ _ _ _ _ Hrun)
    as (results & _ & _ & _ & _ & Hloop & _).
  unfold MicrogridPOI.merge_loop in Hloop.
  rewrite Hl, forR_app in Hloop.
  match type of Hloop with
  | rbind (forR pre ?body ?s0) _ = _ =>
      destruct (forR pre body s0) as [[r1 m1]|e] eqn:Hpre;
      cbn [rbind] in Hloop; [|discriminate Hloop]
  end.
  cbn [forR] in Hloop.
  destruct (MicrogridPOI.merge_step true (r1, m1) d) as [[r2 m2]|e] eqn:Hd;
    cbn [rbind] in Hloop; [|discriminate Hloop].
  apply (merge_step_generation _ _ _ _ _ Hgen) in Hd.
  rewrite has_col_app, orb_true_iff in Hd. destruct Hd as [Hd|Hd].
  - exists d. split; [apply elem_of_app; right; left|exact Hd].
  - rewrite (merge_loop_cols _ (generation_label d) _ _ _ _ _ Hpre) in Hd.
    apply orb_true_iff in Hd as [Hd|Hd].
    + apply existsb_exists in Hd as (d' & Hin & Hd').
      exists d'. split; [|exact Hd'].
      apply elem_of_app. left. apply list_elem_of_In, Hin.
    + exfalso. apply (generation_label_not_aggregate d).
      unfold AGGREGATES. rewrite !has_col_setitem in Hd.
      change (has_col (generation_label d) []) with false in Hd.
      rewrite !orb_true_iff in Hd.
      rewrite (String.eqb_eq MicrogridPOI.TOTAL_ORIGINAL_LOAD),
        (String.eqb_eq MicrogridPOI.TOTAL_LOAD),
        (String.eqb_eq MicrogridPOI.TOTAL_GENERATION),
        (String.eqb_eq MicrogridPOI.TOTAL_STORAGE_POWER),
        (String.eqb_eq MicrogridPOI.AGG_STATE_OF_ENERGY) in Hd.
      rewrite !elem_of_cons. intuition (try discriminate; auto).
Qed.

Lemma iadd_getitem_ne (c c' x : string) (df df' : table) :
  iadd c c' df = Ok df' -> c <> x -> getitem x df' = getitem x df.
Proof.
  unfold iadd. destruct (getitem c df) as [xs|]; simpl; [|discriminate].
  destruct (getitem c' df) as [ys|]; simpl; [|discriminate].
  intros [= <-] Hne. apply getitem_setitem_ne, Hne.
Qed.

Lemma iadd_getitem_eq (c c' : string) (df df' : table) (xs ys : series) :
  iadd c c' df = Ok df' ->
  getitem c df = Ok xs -> getitem c' df = Ok ys ->
  getitem c df' = Ok (add xs ys).
Proof.
  unfold iadd. intros Hrun Hx Hy. rewrite Hx, Hy in Hrun. simpl in Hrun.
  injection Hrun as <-. apply getitem_setitem_eq.
Qed.

(** One turn of the loop in a dispatch optimisation adds the generation
    column of a generator to the total generation, and leaves the total
    as it is for any other technology. *)
Lemma merge_step_total_generation
    (results monthly_data results' monthly_data' : table) (der : DER.t)
    (tg : series) :
  MicrogridPOI.merge_step true (results, monthly_data) der
    = Ok (results', monthly_data') ->
  has_col MicrogridPOI.TOTAL_GENERATION (DER.timeseries_report der) = false ->
  (is_generation der = true ->
   has_col (generation_label der) (DER.timeseries_report der) = true) ->
  getitem MicrogridPOI.TOTAL_GENERATION results = Ok tg ->
  getitem MicrogridPOI.TOTAL_GENERATION results'
  = Ok (if is_generation der then add tg (generation_of der) else tg).
Proof.
  unfold MicrogridPOI.merge_step. intros Hrun Hfree Hown Htg.
  cbv beta iota zeta in Hrun.
  assert (HTG : getitem MicrogridPOI.TOTAL_GENERATION
                  (concat (DER.timeseries_report der) results) = Ok tg)
    by (unfold concat; rewrite getitem_app_r by exact Hfree; exact Htg).
  assert (Hlabel : is_generation der = true ->
            getitem (generation_label der)
              (concat (DER.timeseries_report der) results)
            = Ok (generation_of der)).
  { intros Hgen. specialize (Hown Hgen). unfold concat, generation_of.
    rewrite getitem_app_l by exact Hown.
    apply has_col_getitem in Hown as [ys Hys]. rewrite Hys. reflexivity. }
  fold (generation_label der) in Hrun.
  revert Hrun HTG Hlabel.
  generalize (concat (DER.timeseries_report der) results) as r0.
  intros r0 Hrun HTG Hlabel.
  assert (Hfirst : exists r1,
            (if is_generation der
             then iadd MicrogridPOI.TOTAL_GENERATION (generation_label der) r0
             else Ok r0) = Ok r1
            /\ getitem MicrogridPOI.TOTAL_GENERATION r1
               = Ok (if is_generation der
                     then add tg (generation_of der) else tg)).
  { unfold is_generation in *.
    destruct (String.eqb (DER.technology_type der) "Generator"
              || String.eqb (DER.technology_type der) "Intermittent Resource").
    - destruct (iadd MicrogridPOI.TOTAL_GENERATION (generation_label der) r0)
        as [r1|e] eqn:E; [|discriminate Hrun].
      exists r1. split; [reflexivity|].
      apply (iadd_getitem_eq _ _ _ _ _ _ E HTG (Hlabel eq_refl)).
    - exists r0. split; [reflexivity|exact HTG]. }
  destruct Hfirst as (r1 & Hr1 & HTG1).
  unfold is_generation in Hr1. rewrite Hr1 in Hrun. cbn [rbind] in Hrun.
  clear Hr1 HTG Hlabel.
  revert HTG1. generalize (if is_generation der
                           then add tg (generation_of der) else tg) as v.
  intros v HTG1.
  destruct (String.eqb (DER.technology_type der) "Energy Storage System");
    destruct (String.eqb (DER.technology_type der) "Load");
    destruct (String.eqb (DER.tag der) "ControllableLoad");
    destruct (String.eqb (DER.technology_type der) "Electric Vehicle");
    destruct (String.eqb (DER.tag der) "ElectricVehicle1");
    cbn [rbind] in Hrun;
    repeat match goal with
      | H : context [iadd ?c ?c' ?df] |- _ =>
          let E := fresh "E" in
          let t := fresh "t" in
          destruct (iadd c c' df) as [t|] eqn:E; cbn [rbind] in H;
          [rewrite <- (iadd_getitem_ne _ _ MicrogridPOI.TOTAL_GENERATION
                         _ _ E ltac:(discriminate)) in HTG1; clear E
          |discriminate H]
      end;
    injection Hrun as <- _; exact HTG1.
Qed.

Lemma merge_loop_total_generation (ders : list DER.t)
    (results monthly_data results' monthly_data' : table) (tg : series) :
  forR ders (MicrogridPOI.merge_step true) (results, monthly_data)
    = Ok (results', monthly_data') ->
  reports_free_of [MicrogridPOI.TOTAL_GENERATION] ders ->
  (forall d, d ∈ ders -> is_generation d = true ->
     has_col (generation_label d) (DER.timeseries_report d) = true) ->
  getitem MicrogridPOI.TOTAL_GENERATION results = Ok tg ->
  getitem MicrogridPOI.TOTAL_GENERATION results'
  = Ok (total_generation tg ders).
Proof.
  revert results monthly_data tg.
  induction ders as [|d ders IH]; intros results monthly_data tg; cbn [forR].
  - intros [= <- _] _ _ Htg. exact Htg.
  - destruct (MicrogridPOI.merge_step true (results, monthly_data) d)
      as [[r1 m1]|e] eqn:E; cbn [rbind]; [|discriminate].
    intros Hrun Hfree Hown Htg.
    assert (H1 := merge_step_total_generation _ _ _ _ _ _ E
                    (Hfree d _ ltac:(left) ltac:(left))
                    (Hown d ltac:(left)) Htg).
    rewrite (IH _ _ _ Hrun
               (fun d' x Hd' Hx => Hfree d' x ltac:(right; exact Hd') Hx)
               (fun d' Hd' => Hown d' ltac:(right; exact Hd')) H1).
    unfold total_generation. cbn [List.filter].
    destruct (is_generation d); reflexivity.
Qed.

(** X21. In a dispatch optimisation in which no report uses the label
    [Total Generation (kW)] and every generator or intermittent resource
    has its column [<id> Electric Generation (kW)] in its own report, the
    column [Total Generation (kW)] of the table that [merge_reports]
    returns is the sum, from zero and in the order of the DER list, of
    these generation columns, and of nothing else. *)
Theorem merge_reports_total_generation (self : MicrogridPOI.t)
    (index : list Z) (final monthly_data : table) :
  MicrogridPOI.merge_reports self true index = Ok (final, monthly_data) ->
  reports_free_of [MicrogridPOI.TOTAL_GENERATION] (MicrogridPOI.der_list self) ->
  (forall d, d ∈ MicrogridPOI.der_list self -> is_generation d = true ->
     has_col (generation_label d) (DER.timeseries_report d) = true) ->
  getitem MicrogridPOI.TOTAL_GENERATION final
  = Ok (total_generation (broadcast (length index) 0)
          (MicrogridPOI.der_list self)).
Proof.
  intros Hrun Hfree Hown.
  destruct (merge_reports_inv _ _ _ _ _ Hrun)
    as (results & tl & tol & tg & tsp & Hloop & _ & _ & _ & _ & ->).
  unfold MicrogridPOI.merge_loop in Hloop.
  rewrite getitem_setitem_ne by discriminate.
  assert (Hkeep : getitem MicrogridPOI.TOTAL_GENERATION
                    (if all_eq tl tol
                     then drop MicrogridPOI.TOTAL_ORIGINAL_LOAD results
                     else results)
                  = getitem MicrogridPOI.TOTAL_GENERATION results).
  { destruct (all_eq tl tol); [|reflexivity].
    apply getitem_drop_ne. discriminate. }
  rewrite Hkeep.
  apply (merge_loop_total_generation _ _ _ _ _ _ Hloop Hfree Hown).
  rewrite !getitem_setitem_ne by discriminate.
  apply getitem_setitem_eq.
Qed.

(** The theorem on a fleet of a load, a battery and a PV array with their
    monthly reports. *)
Lemma merge_reports_monthly_witness :
  exists final,
    MicrogridPOI.merge_reports MoreSamples.poi_monthly true Samples.three_steps
    = Ok (final, [("LOAD: l2 Demand Charge ($)", [12]%Q);
                  ("PV: pv1 Energy (kWh)", [7]%Q)]).
Proof.
  destruct (MicrogridPOI.merge_reports MoreSamples.poi_monthly true
              Samples.three_steps) as [[final monthly]|e] eqn:Hrun;
    [|vm_compute in Hrun; discriminate Hrun].
  exists final.
  rewrite (merge_reports_monthly _ _ _ _ _ Hrun). reflexivity.
Defined.

(** The theorem on the fleet of a fixed load, a battery and a PV array:
    the generation column of the PV array is in the merged table. *)
Lemma merge_reports_columns_witness :
  exists final monthly_data,
    MicrogridPOI.merge_reports Samples.poi_fixed_load true Samples.three_steps
    = Ok (final, monthly_data)
    /\ has_col "PV: pv1 Electric Generation (kW)" final = true.
Proof.
  destruct (MicrogridPOI.merge_reports Samples.poi_fixed_load true
              Samples.three_steps) as [[final monthly]|e] eqn:Hrun;
    [|vm_compute in Hrun; discriminate Hrun].
  exists final, monthly. split; [reflexivity|].
  apply (merge_reports_columns _ _ _ _ _ "PV: pv1 Electric Generation (kW)"
           Hrun); [discriminate|].
  right. right. exists Samples.pv1. split; [|reflexivity].
  right. right. left.
Defined.

Lemma sample_reports_free (labels : list string) :
  forallb (fun x =>
             forallb (fun d => negb (has_col x (DER.timeseries_report d)))
               (MicrogridPOI.der_list Samples.poi_fixed_load))
    labels = true ->
  reports_free_of labels (MicrogridPOI.der_list Samples.poi_fixed_load).
Proof.
  intros H d x Hd Hx.
  rewrite forallb_forall in H.
  specialize (H x (proj1 (list_elem_of_In _ _) Hx)).
  rewrite forallb_forall in H.
  specialize (H d (proj1 (list_elem_of_In _ _) Hd)).
  destruct (has_col x (DER.timeseries_report d)); [discriminate H|reflexivity].
Defined.

(** The theorem on the same fleet outside a dispatch optimisation. *)
Lemma merge_reports_without_dispatch_witness :
  exists final monthly_data,
    MicrogridPOI.merge_reports Samples.poi_fixed_load false Samples.three_steps
    = Ok (final, monthly_data)
    /\ has_col MicrogridPOI.TOTAL_ORIGINAL_LOAD final = false
    /\ getitem MicrogridPOI.NET_LOAD final = Ok [0; 0; 0]%Q.
Proof.
  destruct (merge_reports_without_dispatch Samples.poi_fixed_load
              Samples.three_steps
              (sample_reports_free
                 [MicrogridPOI.TOTAL_ORIGINAL_LOAD; MicrogridPOI.TOTAL_LOAD;
                  MicrogridPOI.TOTAL_GENERATION;
                  MicrogridPOI.TOTAL_STORAGE_POWER] eq_refl))
    as (final & monthly & Hrun & Htol & _ & _ & _ & Hnl).
  exists final, monthly. auto.
Defined.

(** The theorem on the same fleet, whose PV array comes last and has its
    generation column in its own report. *)
Lemma merge_reports_needs_generation_column_witness :
  exists d',
    d' ∈ [Samples.load2; Samples.es1; Samples.pv1]
    /\ has_col "PV: pv1 Electric Generation (kW)" (DER.timeseries_report d')
       = true.
Proof.
  destruct (MicrogridPOI.merge_reports Samples.poi_fixed_load true
              Samples.three_steps) as [[final monthly]|e] eqn:Hrun;
    [|vm_compute in Hrun; discriminate Hrun].
  apply (merge_reports_needs_generation_column Samples.poi_fixed_load
           Samples.three_steps final monthly
           [Samples.load2; Samples.es1] [] Samples.pv1 Hrun eq_refl eq_refl).
Defined.

(** The theorem on the same fleet: the total is the generation of the PV
    array. *)
Lemma merge_reports_total_generation_witness :
  exists final monthly_data,
    MicrogridPOI.merge_reports Samples.poi_fixed_load true Samples.three_steps
    = Ok (final, monthly_data)
    /\ getitem MicrogridPOI.TOTAL_GENERATION final
       = Ok (add [0; 0; 0]%Q [0; 3; 4]%Q).
Proof.
  destruct (MicrogridPOI.merge_reports Samples.poi_fixed_load true
              Samples.three_steps) as [[final monthly]|e] eqn:Hrun;
    [|vm_compute in Hrun; discriminate Hrun].
  exists final, monthly. split; [reflexivity|].
  rewrite (merge_reports_total_generation _ _ _ _ Hrun
             (sample_reports_free [MicrogridPOI.TOTAL_GENERATION] eq_refl)).
  - reflexivity.
  - intros d Hd Hgen.
    repeat (apply elem_of_cons in Hd as [->|Hd];
            [first [reflexivity | discriminate Hgen]|]).
    inversion Hd.
Defined.

(** ** TestingLib: the relative error bound *)

Lemma Qinv_neg (a : Q) : (a < 0)%Q -> (/ a < 0)%Q.
Proof.
  destruct a as [[|p|p] d]; unfold Qlt, Qinv; simpl; lia.
Qed.

Lemma Qdiv_le_iff (x y c : Q) :
  (0 < c)%Q -> (x / c <= y)%Q <-> (x <= y * c)%Q.
Proof.
  intros Hc. split.
  - intros H.
    assert (Hx : (x == x / c * c)%Q)
      by (unfold Qdiv; rewrite <- Qmult_assoc, (Qmult_comm (/ c));
          rewrite Qmult_inv_r by lra; ring).
    rewrite Hx. apply Qmult_le_compat_r; [exact H|lra].
  - intros H. apply Qle_shift_div_r; assumption.
Qed.

(** X22. When the expected value [actual] is negative and the bound not,
    [assert_within_error_bound] passes for every test value that is a
    number, however far from [actual]: the relative error it computes is
    never positive. *)
Theorem assert_within_error_bound_negative (arith : TestingLib.arithmetic)
    (a t error_bound : Q) (error_message : string) :
  (a < 0)%Q -> (0 <= error_bound)%Q ->
  TestingLib.assert_within_error_bound arith (Some a) (Some t) error_bound
    error_message = TestingLib.Passed.
Proof.
  intros Ha Hb. unfold TestingLib.assert_within_error_bound.
  destruct (Qeq_bool (Qabs (a - t)) 0); [reflexivity|].
  destruct (Qeq_bool a 0) eqn:Ha0.
  { apply Qeq_bool_iff in Ha0. lra. }
  assert (Hle : (Qabs (a - t) / a <= error_bound / 100)%Q).
  { assert (H1 : (0 <= Qabs (a - t))%Q) by apply Qabs_nonneg.
    assert (H2 : (/ a < 0)%Q) by (apply Qinv_neg, Ha).
    assert (H3 : (0 <= Qabs (a - t) * - / a)%Q)
      by (apply Qmult_le_0_compat; lra).
    assert (H4 : (0 <= error_bound / 100)%Q)
      by (apply Qle_shift_div_l; lra).
    unfold Qdiv in *. lra. }
  apply Qle_bool_iff in Hle. rewrite Hle. reflexivity.
Qed.

(** X23. When the expected value [actual] is positive and the bound not
    negative, [assert_within_error_bound] passes exactly for the test
    values between [actual - actual * (error_bound / 100)] and
    [actual + actual * (error_bound / 100)], the range that its message
    names; outside it raises the [AssertionError]. *)
Theorem assert_within_error_bound_positive (arith : TestingLib.arithmetic)
    (a t error_bound : Q) (error_message : string) :
  (0 < a)%Q -> (0 <= error_bound)%Q ->
  let run := TestingLib.assert_within_error_bound arith (Some a) (Some t)
               error_bound error_message in
  (run = TestingLib.Passed
   <-> (a - a * (error_bound / 100) <= t)%Q
       /\ (t <= a + a * (error_bound / 100))%Q)
  /\ (run <> TestingLib.Passed -> run = TestingLib.AssertionError error_message).
Proof.
  intros Ha Hb run. unfold run, TestingLib.assert_within_error_bound.
  set (k := (error_bound / 100)%Q).
  assert (Hk : (0 <= k)%Q) by (apply Qle_shift_div_l; lra).
  assert (Hp : (0 <= a * k)%Q) by (apply Qmult_le_0_compat; lra).
  assert (Habs : (Qabs (a - t) <= k * a)%Q
                 <-> (a - a * k <= t)%Q /\ (t <= a + a * k)%Q).
  { rewrite Qabs_Qle_condition. split; intros [H1 H2]; split; lra. }
  destruct (Qeq_bool (Qabs (a - t)) 0) eqn:Hd.
  - apply Qeq_bool_iff in Hd. split; [|congruence].
    split; [intros _|reflexivity].
    apply Habs. rewrite Hd. lra.
  - destruct (Qeq_bool a 0) eqn:Ha0.
    { apply Qeq_bool_iff in Ha0. lra. }
    destruct (Qle_bool (Qabs (a - t) / a) k) eqn:Hle.
    + apply Qle_bool_iff in Hle. apply (Qdiv_le_iff _ _ _ Ha) in Hle.
      split; [|congruence]. split; [intros _; apply Habs, Hle|reflexivity].
    + split; [|reflexivity]. split; [discriminate|].
      intros H. apply Habs in H. apply (Qdiv_le_iff _ _ _ Ha) in H.
      apply Qle_bool_iff in H. congruence.
Qed.

(** X24. [assert_within_error_bound] never passes when the expected or
    the test value is NaN, in either arithmetic. When the expected value
    is zero it passes only for a test value that is zero too; for
    another test value the check fails with its [AssertionError] on
    numpy scalars, which is what the callers hand in, and the division
    raises [ZeroDivisionError] on floats of Python's own. *)
Theorem assert_within_error_bound_nan_zero (error_bound : Q)
    (error_message : string) :
  (forall arith x,
      TestingLib.assert_within_error_bound arith None x error_bound
        error_message <> TestingLib.Passed)
  /\ (forall arith x,
        TestingLib.assert_within_error_bound arith x None error_bound
          error_message <> TestingLib.Passed)
  /\ (forall a t, (a == 0)%Q ->
        (forall arith,
            TestingLib.assert_within_error_bound arith (Some a) (Some t)
              error_bound error_message = TestingLib.Passed
            <-> (t == 0)%Q)
        /\ (~ (t == 0)%Q ->
            TestingLib.assert_within_error_bound TestingLib.numpy_float64
              (Some a) (Some t) error_bound error_message
            = TestingLib.AssertionError error_message
            /\ TestingLib.assert_within_error_bound TestingLib.python_float
                 (Some a) (Some t) error_bound error_message
               = TestingLib.ZeroDivisionError)).
Proof.
  unfold TestingLib.assert_within_error_bound.
  split; [intros arith x; discriminate|].
  split.
  - intros arith [a|]; [|discriminate].
    destruct (Qeq_bool a 0); destruct arith; discriminate.
  - intros a t Ha.
    assert (Hd : (Qabs (a - t) == 0)%Q <-> (t == 0)%Q).
    { split; intros H.
      - assert (H1 : (Qabs (a - t) <= 0)%Q) by lra.
        apply Qabs_Qle_condition in H1. lra.
      - assert (H1 : (a - t == 0)%Q) by lra.
        rewrite H1. reflexivity. }
    apply Qeq_bool_iff in Ha as Ha'. rewrite Ha'.
    destruct (Qeq_bool (Qabs (a - t)) 0) eqn:E.
    + apply Qeq_bool_iff in E. split; [|intros H; destruct H; apply Hd, E].
      intros arith. split; [intros _; apply Hd, E|reflexivity].
    + split; [|split; reflexivity].
      intros arith. split; [destruct arith; discriminate|].
      intros H. apply Hd in H. apply Qeq_bool_iff in H. congruence.
Qed.

(** On a frozen value of zero against a result of 3: the check of a
    table cell fails with its message. *)
Example assert_within_error_bound_zero_cell :
  TestingLib.assert_within_error_bound TestingLib.numpy_float64
    (Some 0%Q) (Some 3%Q) 5 "size" = TestingLib.AssertionError "size"
  /\ TestingLib.assert_within_error_bound TestingLib.python_float
       (Some 0%Q) (Some 3%Q) 5 "size" = TestingLib.ZeroDivisionError
  /\ TestingLib.assert_within_error_bound TestingLib.numpy_float64
       (Some 0%Q) (Some 0%Q) 5 "size" = TestingLib.Passed.
Proof. repeat split. Qed.

(** The two theorems on -100 against 500 and on 100 against 104 and
    106, with a bound of five per cent, for the cells of a table. *)
Lemma assert_within_error_bound_negative_witness :
  TestingLib.assert_within_error_bound TestingLib.numpy_float64
    (Some (-100)%Q) (Some 500%Q) 5 "size"
  = TestingLib.Passed.
Proof.
  apply (assert_within_error_bound_negative TestingLib.numpy_float64
           (-100) 500 5 "size");
    unfold Qlt, Qle; simpl; lia.
Defined.

Lemma assert_within_error_bound_positive_witness :
  TestingLib.assert_within_error_bound TestingLib.numpy_float64
    (Some 100%Q) (Some 104%Q) 5 "size"
  = TestingLib.Passed
  /\ TestingLib.assert_within_error_bound TestingLib.numpy_float64
       (Some 100%Q) (Some 106%Q) 5 "size"
     = TestingLib.AssertionError "size".
Proof.
  split.
  - apply (assert_within_error_bound_positive TestingLib.numpy_float64
             100 104 5 "size");
      unfold Qlt, Qle; simpl; lia.
  - apply (assert_within_error_bound_positive TestingLib.numpy_float64
             100 106 5 "size");
      [unfold Qlt; simpl; lia | unfold Qle; simpl; lia | discriminate].
Defined.

(** ** POI: the table of sizes *)

Lemma existsb_eqb_elem (k : string) (l : list string) :
  existsb (String.eqb k) l = true <-> k ∈ l.
Proof.
  rewrite existsb_exists. split.
  - intros (x & Hin & Heq). apply String.eqb_eq in Heq. subst x.
    apply list_elem_of_In, Hin.
  - intros Hin. exists k. split; [apply list_elem_of_In, Hin|].
    apply String.eqb_eq. reflexivity.
Qed.

Lemma elem_of_add_key (k k' : string) (seen : list string) :
  k ∈ SizingSummary.add_key seen k' <-> k ∈ seen \/ k = k'.
Proof.
  unfold SizingSummary.add_key.
  destruct (existsb (String.eqb k') seen) eqn:E.
  - apply existsb_eqb_elem in E. split; [auto|].
    intros [H| ->]; assumption.
  - rewrite elem_of_app, list_elem_of_singleton. reflexivity.
Qed.

Lemma elem_of_add_keys (k : string) (ks seen : list string) :
  k ∈ fold_left SizingSummary.add_key ks seen <-> k ∈ seen \/ k ∈ ks.
Proof.
  revert seen. induction ks as [|k' ks IH]; intros seen; simpl.
  - rewrite elem_of_nil. tauto.
  - rewrite IH, elem_of_add_key, elem_of_cons. tauto.
Qed.

Lemma elem_of_columns (k : string) (rows : list SizingSummary.row)
    (seen : list string) :
  k ∈ fold_left (fun seen r => fold_left SizingSummary.add_key (r.*1) seen)
        rows seen
  <-> k ∈ seen \/ exists r, r ∈ rows /\ k ∈ r.*1.
Proof.
  revert seen. induction rows as [|r rows IH]; intros seen; simpl.
  - split; [auto|]. intros [H|(r & Hr & _)]; [exact H|inversion Hr].
  - rewrite IH, elem_of_add_keys. split.
    + intros [[H|H]|(r' & Hr' & Hk)]; eauto.
      * right. exists r. split; [left|exact H].
      * right. exists r'. split; [right; exact Hr'|exact Hk].
    + intros [H|(r' & Hr' & Hk)]; [auto|].
      apply elem_of_cons in Hr' as [->|Hr']; eauto.
Qed.

Section POI_sizing_summary.

Variable DER_sizing_summary : DER.t -> SizingSummary.row.

(** X25. [sizing_summary] returns exactly when the summary of some DER
    of the DER list has the key [DER], and raises [KeyError] otherwise,
    as it does on an empty DER list. The table it returns has one row per
    DER, in the order of the list, and is not indexed by [DER]: the index
    is the default one and [DER] is still one of the columns. *)
Theorem sizing_summary_spec (self : MicrogridPOI.t) :
  let run := SizingSummary.sizing_summary DER_sizing_summary self in
  let named := exists d, d ∈ MicrogridPOI.der_list self
                         /\ "DER" ∈ (DER_sizing_summary d).*1 in
  ((exists sizing_df, run = Ok sizing_df) <-> named)
  /\ (run = Raise KeyError <-> ~ named)
  /\ (MicrogridPOI.der_list self = [] -> run = Raise KeyError)
  /\ (forall sizing_df, run = Ok sizing_df ->
        SizingSummary.rows sizing_df
        = map DER_sizing_summary (MicrogridPOI.der_list self)
        /\ SizingSummary.index sizing_df = None
        /\ "DER" ∈ SizingSummary.columns sizing_df).
Proof.
  intros run named.
  unfold run, SizingSummary.sizing_summary, SizingSummary.set_index.
  set (rows := map DER_sizing_summary (MicrogridPOI.der_list self)).
  assert (Hcol : "DER" ∈ SizingSummary.columns (SizingSummary.DataFrame rows)
                 <-> named).
  { unfold SizingSummary.DataFrame, named. simpl.
    rewrite elem_of_columns, elem_of_nil. split.
    - intros [[]|(r & Hr & Hk)]. unfold rows in Hr.
      apply list_elem_of_fmap in Hr as (d & -> & Hd). eauto.
    - intros (d & Hd & Hk). right. exists (DER_sizing_summary d).
      split; [|exact Hk]. unfold rows. apply list_elem_of_fmap. eauto. }
  destruct (existsb (String.eqb "DER")
              (SizingSummary.columns (SizingSummary.DataFrame rows))) eqn:E;
    cbn [rbind].
  - apply existsb_eqb_elem in E as Hin. apply Hcol in Hin as Hnamed.
    split; [split; eauto|].
    split; [split; [discriminate|intros Hno; destruct (Hno Hnamed)]|].
    split.
    + intros Hempty. destruct Hnamed as (d & Hd & _).
      rewrite Hempty in Hd. inversion Hd.
    + intros df [= <-]. simpl. auto.
  - assert (Hno : ~ named).
    { intros Hnamed. apply Hcol, existsb_eqb_elem in Hnamed. congruence. }
    split; [split; [intros [df [=]]|intros H; destruct (Hno H)]|].
    split; [split; auto|].
    split; [reflexivity|]. intros df [=].
Qed.

End POI_sizing_summary.
